(** * cifssrv authentication: NTLMSSP decoding, NTLM verification, key derivation

    A shallow embedding of fs/cifssrv/auth.c.  Buffers are lists of bytes,
    a pointer into a buffer is the list of bytes from the pointer to the end
    of the object, and every access outside an object is the outcome [Fault].
    The kernel services auth.c calls (the shash interface, the allocator, the
    DES and MD4 helpers, the character-set conversions) are a record of
    functions, [kernel], over which the whole development is parametric. *)

From Stdlib Require Import String Ascii ZArith List Bool Lia.
Import ListNotations.
Open Scope Z_scope.

(** ** Bytes, integers and C strings *)

Definition bytes := list Z.

Definition len (b : bytes) : Z := Z.of_nat (length b).

(** A C string literal occupies its characters and a terminating NUL. *)
Definition chars (s : string) : bytes :=
  map (fun c => Z.of_nat (nat_of_ascii c)) (list_ascii_of_string s).

Definition literal (s : string) : bytes := chars s ++ [0].

(** Conversion of an [int] argument to [size_t] (64-bit) and to
    [unsigned int] and [__le16] (the host is little-endian, so the
    cpu_to_le16 and cpu_to_le32 macros are the identity on the value). *)
Definition to_size_t (z : Z) : Z := z mod 2 ^ 64.
Definition to_u32 (z : Z) : Z := z mod 2 ^ 32.
Definition to_u16 (z : Z) : Z := z mod 2 ^ 16.
Definition to_int (z : Z) : Z := (z + 2 ^ 31) mod 2 ^ 32 - 2 ^ 31.

Definition le16 (w : Z) : bytes := [w mod 256; (w / 256) mod 256].
Definition le32 (w : Z) : bytes :=
  [w mod 256; (w / 256) mod 256; (w / 65536) mod 256; (w / 16777216) mod 256].
Definition be32 (w : Z) : bytes :=
  [(w / 16777216) mod 256; (w / 65536) mod 256; (w / 256) mod 256; w mod 256].

Definition le_val (b : bytes) : Z := fold_right (fun x acc => x + 256 * acc) 0 b.
Definition be_val (b : bytes) : Z := fold_left (fun acc x => 256 * acc + x) b 0.

(** UTF-16 code units laid out in memory, low byte first. *)
Definition le16s (u : list Z) : bytes := flat_map le16 u.

(** ** Outcome of a call: a return, or an access outside an object *)

Inductive outcome (A : Type) : Type :=
| Ret (a : A)
| Fault.
Arguments Ret {A} a.
Arguments Fault {A}.

Definition obind {A B} (m : outcome A) (k : A -> outcome B) : outcome B :=
  match m with
  | Ret a => k a
  | Fault => Fault
  end.

Declare Scope c_scope.
Delimit Scope c_scope with c.
Notation "x <- m ;; k" := (obind m (fun x => k))
  (at level 61, m at next level, right associativity) : c_scope.
Notation "' pat <- m ;; k" := (obind m (fun x => match x with pat => k end))
  (at level 61, pat pattern, m at next level, right associativity) : c_scope.
Open Scope c_scope.

(** ** Memory accesses *)

(** [p + off] for a pointer [p] into an object: the bytes from there on.  A
    pointer past the end has no byte left, so every read through it faults. *)
Definition ptr_add (p : bytes) (off : Z) : bytes :=
  if off <? 0 then [] else skipn (Z.to_nat off) p.

(** Read [n] bytes through [p]. *)
Definition load (p : bytes) (n : Z) : outcome bytes :=
  if (0 <=? n) && (n <=? len p) then Ret (firstn (Z.to_nat n) p) else Fault.

(** Overwrite the object [dst] at offset [off] with the bytes [src]. *)
Definition store (dst : bytes) (off : Z) (src : bytes) : outcome bytes :=
  if (0 <=? off) && (off + len src <=? len dst)
  then Ret (firstn (Z.to_nat off) dst ++ src
              ++ skipn (Z.to_nat off + length src) dst)
  else Fault.

(** memset(dst, c, n) *)
Definition memset (dst : bytes) (c : Z) (n : Z) : outcome bytes :=
  if (0 <=? n) && (n <=? len dst)
  then Ret (repeat c (Z.to_nat n) ++ skipn (Z.to_nat n) dst)
  else Fault.

(** memcpy(dst, src, n): [n] is a size_t; both objects must hold [n] bytes. *)
Definition memcpy (dst src : bytes) (n : Z) : outcome bytes :=
  b <- load src n ;; store dst 0 b.

(** memcmp(s1, s2, n): all [n] bytes of both objects are compared. *)
Fixpoint bytes_diff (a b : bytes) : Z :=
  match a, b with
  | x :: a', y :: b' => if x =? y then bytes_diff a' b' else x - y
  | _, _ => 0
  end.

Definition memcmp (s1 s2 : bytes) (n : Z) : outcome Z :=
  a <- load s1 n ;; b <- load s2 n ;; Ret (bytes_diff a b).

(** strncmp(s1, s2, n): at most [n] characters are compared, and the
    comparison ends at the first NUL the two strings share. *)
Fixpoint strncmp (s1 s2 : bytes) (n : nat) : outcome Z :=
  match n with
  | O => Ret 0
  | S n' =>
      match s1, s2 with
      | c1 :: t1, c2 :: t2 =>
          if c1 =? c2
          then (if c1 =? 0 then Ret 0 else strncmp t1 t2 n')
          else Ret (c1 - c2)
      | _, _ => Fault
      end
  end.

(** A local array before its first write; it is never read in that state. *)
Definition local_buf (n : nat) : bytes := repeat 0 n.

(** ** Constants of glob.h, ntlmssp.h and smb2pdu.h *)

(** Modelled from the spec: the headers auth.c includes (glob.h, ntlmssp.h,
    smb2pdu.h) are not among the sources.  The sizes are those of the
    key-size table of the specification: server challenge 8, NTLMv1
    response 24, NT hash and NTLMv2 hash 16, session key material 16 and 40
    in all, HMAC-SHA256 output 32, CMAC-AES 16.  The error numbers are the
    kernel's; the flags, the message type and the attribute types are the
    values of the NTLMSSP wire format, and 0x0311 is the 3.1.1 dialect. *)
Definition EINVAL : Z := 22.
Definition ENOMEM : Z := 12.

Definition CIFS_CRYPTO_KEY_SIZE : Z := 8.
Definition CIFS_AUTH_RESP_SIZE : Z := 24.
Definition CIFS_NTHASH_SIZE : Z := 16.
Definition CIFS_ENCPWD_SIZE : Z := 16.
Definition CIFS_HMAC_MD5_HASH_SIZE : Z := 16.
Definition CIFS_SMB1_SESSKEY_SIZE : Z := 16.
Definition SMB2_NTLMV2_SESSKEY_SIZE : Z := 16.
Definition SMB2_HMACSHA256_SIZE : Z := 32.
Definition SMB2_CMACAES_SIZE : Z := 16.
Definition CIFS_SESS_KEY_SIZE : Z := 40.

Definition SMB311_PROT_ID : Z := 0x0311.
Definition SMB2_PREAUTH_INTEGRITY_SHA512 : Z := 1.

Definition NTLMSSP_SIGNATURE : bytes := literal "NTLMSSP".
Definition NtLmChallenge : Z := 2.

Definition NTLMSSP_NEGOTIATE_UNICODE : Z := 0x01.
Definition NTLMSSP_REQUEST_TARGET : Z := 0x04.
Definition NTLMSSP_NEGOTIATE_NTLM : Z := 0x0200.
Definition NTLMSSP_TARGET_TYPE_SERVER : Z := 0x20000.
Definition NTLMSSP_NEGOTIATE_TARGET_INFO : Z := 0x00800000.
Definition NTLMSSP_NEGOTIATE_VERSION : Z := 0x02000000.
Definition NTLMSSP_NEGOTIATE_128 : Z := 0x20000000.
Definition NTLMSSP_NEGOTIATE_56 : Z := 0x80000000.

Definition NTLMSSP_AV_NB_COMPUTER_NAME : Z := 1.
Definition NTLMSSP_AV_NB_DOMAIN_NAME : Z := 2.
Definition NTLMSSP_AV_DNS_COMPUTER_NAME : Z := 3.
Definition NTLMSSP_AV_DNS_DOMAIN_NAME : Z := 4.

Definition UNICODE_LEN (x : Z) : Z := 2 * x.

(** Modelled from the spec: the structures are declared in ntlmssp.h and
    smb2pdu.h, which are not among the sources.  The specification gives the
    8-byte signature, the 16-bit length and 32-bit offset of a security
    buffer, and the attribute layout {type : u16; length : u16; content};
    the order of the fields is the one of the NTLMSSP messages, all of them
    packed.  A SECURITY_BUFFER is
    {Length : __le16; MaximumLength : __le16; BufferOffset : __le32}. *)
Module Layout.
Definition SecBuf_Length : Z := 0.
Definition SecBuf_MaximumLength : Z := 2.
Definition SecBuf_BufferOffset : Z := 4.

(* NEGOTIATE_MESSAGE *)
Definition Neg_Signature : Z := 0.
Definition Neg_MessageType : Z := 8.
Definition Neg_NegotiateFlags : Z := 12.
Definition Neg_DomainName : Z := 16.
Definition Neg_WorkstationName : Z := 24.
Definition sizeof_NEGOTIATE_MESSAGE : Z := 32.

(* CHALLENGE_MESSAGE *)
Definition Chg_Signature : Z := 0.
Definition Chg_MessageType : Z := 8.
Definition Chg_TargetName : Z := 12.
Definition Chg_NegotiateFlags : Z := 20.
Definition Chg_Challenge : Z := 24.
Definition Chg_Reserved : Z := 32.
Definition Chg_TargetInfoArray : Z := 40.
Definition sizeof_CHALLENGE_MESSAGE : Z := 48.

(* AUTHENTICATE_MESSAGE *)
Definition Auth_Signature : Z := 0.
Definition Auth_MessageType : Z := 8.
Definition Auth_LmChallengeResponse : Z := 12.
Definition Auth_NtChallengeResponse : Z := 20.
Definition Auth_DomainName : Z := 28.
Definition Auth_UserName : Z := 36.
Definition Auth_WorkstationName : Z := 44.
Definition Auth_SessionKey : Z := 52.
Definition Auth_NegotiateFlags : Z := 60.
Definition sizeof_AUTHENTICATE_MESSAGE : Z := 64.

(* struct ntlmv2_resp: ntlmv2_hash[16], then the blob from blob_signature *)
Definition Resp_ntlmv2_hash : Z := 0.
Definition Resp_blob_signature : Z := 16.

(* TargetInfo: {Type : __le16; Length : __le16; Content[]} *)
Definition Tinfo_Type : Z := 0.
Definition Tinfo_Length : Z := 2.
Definition Tinfo_Content : Z := 4.

(* struct smb2_hdr: {smb2_buf_length : __be32; ProtocolId[4]; ...} *)
Definition Hdr_smb2_buf_length : Z := 0.
Definition Hdr_ProtocolId : Z := 4.
End Layout.

(** Field reads through a structure pointer. *)
Definition read_le16 (p : bytes) (off : Z) : outcome Z :=
  b <- load (ptr_add p off) 2 ;; Ret (le_val b).
Definition read_le32 (p : bytes) (off : Z) : outcome Z :=
  b <- load (ptr_add p off) 4 ;; Ret (le_val b).
Definition read_be32 (p : bytes) (off : Z) : outcome Z :=
  b <- load (ptr_add p off) 4 ;; Ret (be_val b).

(** ** The kernel services used by auth.c *)

(** The transforms auth.c asks crypto_alloc_shash for: "md5", "hmac(md5)",
    "hmac(sha256)", "cmac(aes)" and "sha512". *)
Inductive shash_alg : Type := MD5 | HMAC_MD5 | HMAC_SHA256 | CMAC_AES | SHA512.

(** Output sizes, as in the key-size table of the specification. *)
Definition digestsize (a : shash_alg) : nat :=
  match a with
  | MD5 => 16 | HMAC_MD5 => 16 | HMAC_SHA256 => 32 | CMAC_AES => 16
  | SHA512 => 64
  end%nat.

(** Error codes are the values the calls return: [0] is success.  The
    primitives are functions of their inputs; the status of a shash step may
    depend on the transform, its key and the bytes absorbed so far. *)
Record kernel : Type := {
  (* crypto_alloc_shash: 0, or the errno carried by the ERR_PTR *)
  crypto_alloc_shash_err : shash_alg -> Z;
  (* kmalloc / kzalloc of a size_t: does the allocation succeed *)
  kmalloc_ok : Z -> bool;
  (* sizeof(struct shash_desc) + crypto_shash_descsize(tfm) *)
  sdesc_size : shash_alg -> Z;
  setkey_err : shash_alg -> bytes -> Z;
  init_err : shash_alg -> bytes -> Z;
  update_err : shash_alg -> bytes -> bytes -> Z;
  final_err : shash_alg -> bytes -> bytes -> Z;
  (* the MAC or hash of the absorbed bytes under the transform's key *)
  shash_mac : shash_alg -> bytes -> bytes -> bytes;
  (* E_P24(p21, c8, p24): status and the 24 bytes written to p24 *)
  E_P24 : bytes -> bytes -> Z * bytes;
  (* smb_mdfour(out, in, n): the 16 bytes written to out *)
  smb_mdfour : bytes -> bytes;
  (* smb_strtoUTF16: the code units stored before the terminating zero unit *)
  strtoUTF16 : Z -> bytes -> list Z;
  UniToupper : Z -> Z;
  (* conversion of scanned UTF-16 units to an allocated local string,
     [None] when the allocation fails and NULL is returned *)
  strndup_from_utf16 : Z -> list Z -> option bytes;
  get_random_bytes : Z -> bytes
}.

(** A value of exactly [n] bytes. *)
Definition fit (n : nat) (b : bytes) : bytes := firstn n (b ++ repeat 0 n).

(** ** Connection, session and user *)

(** A transform ([crypto_shash *]) is [None] when the pointer is NULL and
    otherwise holds the key last set; a descriptor ([sdesc *]) is [None]
    when NULL and otherwise holds the bytes absorbed since the last init. *)
Record mac_crypto : Type := {
  md5 : option bytes;        sdescmd5 : option bytes;
  hmacmd5 : option bytes;    sdeschmacmd5 : option bytes;
  hmacsha256 : option bytes; sdeschmacsha256 : option bytes;
  cmacaes : option bytes;    sdesccmacaes : option bytes;
  sha512 : option bytes;     sdescsha512 : option bytes
}.

Definition get_tfm (a : shash_alg) (m : mac_crypto) : option bytes :=
  match a with
  | MD5 => md5 m | HMAC_MD5 => hmacmd5 m | HMAC_SHA256 => hmacsha256 m
  | CMAC_AES => cmacaes m | SHA512 => sha512 m
  end.

Definition get_sdesc (a : shash_alg) (m : mac_crypto) : option bytes :=
  match a with
  | MD5 => sdescmd5 m | HMAC_MD5 => sdeschmacmd5 m
  | HMAC_SHA256 => sdeschmacsha256 m
  | CMAC_AES => sdesccmacaes m | SHA512 => sdescsha512 m
  end.

Definition set_tfm (a : shash_alg) (v : option bytes) (m : mac_crypto)
  : mac_crypto :=
  {| md5 := match a with MD5 => v | _ => md5 m end;
     sdescmd5 := sdescmd5 m;
     hmacmd5 := match a with HMAC_MD5 => v | _ => hmacmd5 m end;
     sdeschmacmd5 := sdeschmacmd5 m;
     hmacsha256 := match a with HMAC_SHA256 => v | _ => hmacsha256 m end;
     sdeschmacsha256 := sdeschmacsha256 m;
     cmacaes := match a with CMAC_AES => v | _ => cmacaes m end;
     sdesccmacaes := sdesccmacaes m;
     sha512 := match a with SHA512 => v | _ => sha512 m end;
     sdescsha512 := sdescsha512 m |}.

Definition set_sdesc (a : shash_alg) (v : option bytes) (m : mac_crypto)
  : mac_crypto :=
  {| md5 := md5 m;
     sdescmd5 := match a with MD5 => v | _ => sdescmd5 m end;
     hmacmd5 := hmacmd5 m;
     sdeschmacmd5 := match a with HMAC_MD5 => v | _ => sdeschmacmd5 m end;
     hmacsha256 := hmacsha256 m;
     sdeschmacsha256 :=
       match a with HMAC_SHA256 => v | _ => sdeschmacsha256 m end;
     cmacaes := cmacaes m;
     sdesccmacaes := match a with CMAC_AES => v | _ => sdesccmacaes m end;
     sha512 := sha512 m;
     sdescsha512 := match a with SHA512 => v | _ => sdescsha512 m end |}.

Record tcp_server_info : Type := {
  secmech : mac_crypto;
  dialect : Z;
  srv_Preauth_HashValue : bytes;   (* server->Preauth_HashValue[64] *)
  local_nls : Z
}.

Record cifssrv_usr : Type := {
  name : bytes;        (* the account name, a C string without its NUL *)
  passkey : bytes      (* the NT hash *)
}.

Record ntlmssp_auth : Type := {
  client_flags : Z;
  cryptkey : bytes     (* the 8-byte server challenge *)
}.

Record cifssrv_sess : Type := {
  server : tcp_server_info;
  usr : cifssrv_usr;
  ntlmssp : ntlmssp_auth;
  sess_key : bytes;                (* sess_key[CIFS_SESS_KEY_SIZE] *)
  sequence_number : Z;
  Preauth_HashValue : bytes        (* sess->Preauth_HashValue[64] *)
}.

(** Where the [pi_hash] argument of calc_preauth_integrity_hash points: to
    an object of the caller that is no part of the connection, given by its
    contents, or to the running hash of the connection itself, which the
    function reads. *)
Inductive hash_ptr : Type :=
| Caller_object (obj : bytes)
| Conn_Preauth_HashValue.      (* server->Preauth_HashValue *)

(** A channel of a session: its connection and the signing key derived
    for it. *)
Record channel : Type := {
  chann_server : tcp_server_info;  (* chann->server *)
  smb3signingkey : bytes           (* chann->smb3signingkey[16] *)
}.

Definition with_secmech (srv : tcp_server_info) (m : mac_crypto) :=
  {| secmech := m; dialect := dialect srv;
     srv_Preauth_HashValue := srv_Preauth_HashValue srv;
     local_nls := local_nls srv |}.

Definition with_srv_Preauth_HashValue (srv : tcp_server_info) (h : bytes) :=
  {| secmech := secmech srv; dialect := dialect srv;
     srv_Preauth_HashValue := h; local_nls := local_nls srv |}.

Definition with_server (s : cifssrv_sess) (srv : tcp_server_info) :=
  {| server := srv; usr := usr s; ntlmssp := ntlmssp s;
     sess_key := sess_key s; sequence_number := sequence_number s;
     Preauth_HashValue := Preauth_HashValue s |}.

Definition with_sess_key (s : cifssrv_sess) (k : bytes) :=
  {| server := server s; usr := usr s; ntlmssp := ntlmssp s;
     sess_key := k; sequence_number := sequence_number s;
     Preauth_HashValue := Preauth_HashValue s |}.

Definition with_sequence_number (s : cifssrv_sess) (n : Z) :=
  {| server := server s; usr := usr s; ntlmssp := ntlmssp s;
     sess_key := sess_key s; sequence_number := n;
     Preauth_HashValue := Preauth_HashValue s |}.

Definition with_ntlmssp (s : cifssrv_sess) (n : ntlmssp_auth) :=
  {| server := server s; usr := usr s; ntlmssp := n;
     sess_key := sess_key s; sequence_number := sequence_number s;
     Preauth_HashValue := Preauth_HashValue s |}.

(** ** Calls that read and update a state and may fault *)

Definition St (S A : Type) : Type := S -> outcome (A * S).

Definition ret {S A} (a : A) : St S A := fun s => Ret (a, s).

Definition bind {S A B} (m : St S A) (k : A -> St S B) : St S B :=
  fun s => match m s with
           | Ret (a, s') => k a s'
           | Fault => Fault
           end.

(** A memory access inside a call. *)
Definition lift {S A} (o : outcome A) : St S A :=
  fun s => match o with Ret a => Ret (a, s) | Fault => Fault end.

Definition get {S} : St S S := fun s => Ret (s, s).
Definition put {S} (s : S) : St S unit := fun _ => Ret (tt, s).

(** A call on [sess->server] made from a function that holds [sess]. *)
Definition on_server {A} (m : St tcp_server_info A) : St cifssrv_sess A :=
  fun sess => match m (server sess) with
              | Ret (a, srv) => Ret (a, with_server sess srv)
              | Fault => Fault
              end.

(** A call on [chann->server] made from a function that holds [chann]. *)
Definition on_chann_server {A} (m : St tcp_server_info A) : St channel A :=
  fun chann => match m (chann_server chann) with
               | Ret (a, srv) =>
                   Ret (a, {| chann_server := srv;
                              smb3signingkey := smb3signingkey chann |})
               | Fault => Fault
               end.

Declare Scope st_scope.
Delimit Scope st_scope with st.
Notation "x <- m ;; k" := (bind m (fun x => k))
  (at level 61, m at next level, right associativity) : st_scope.
Notation "' pat <- m ;; k" := (bind m (fun x => match x with pat => k end))
  (at level 61, pat pattern, m at next level, right associativity) : st_scope.
Notation "m ;; k" := (bind m (fun _ => k))
  (at level 61, right associativity) : st_scope.
(** [rc = m; if (rc) goto out; k ... out: return rc;] *)
Notation "'TRY' m ;; k" :=
  (bind m (fun rc => if rc =? 0 then k else ret rc))
  (at level 61, m at next level, right associativity) : st_scope.
(** The same for a function that also hands back an output buffer [out]. *)
Notation "'TRY' m 'KEEP' out ;; k" :=
  (bind m (fun rc => if rc =? 0 then k else ret (rc, out)))
  (at level 61, m at next level, out at next level, right associativity)
  : st_scope.
Open Scope st_scope.

Section Auth.

Variable kern : kernel.

(** The global [netbios_name], a C string without its NUL. *)
Variable netbios_name : bytes.

(** *** The shash interface *)

Definition crypto_shash_setkey (a : shash_alg) (key : bytes) (keylen : Z)
  : St tcp_server_info Z :=
  fun srv =>
    match get_tfm a (secmech srv) with
    | None => Fault
    | Some _ =>
        match load key keylen with
        | Fault => Fault
        | Ret k =>
            let rc := setkey_err kern a k in
            if rc =? 0
            then Ret (0, with_secmech srv (set_tfm a (Some k) (secmech srv)))
            else Ret (rc, srv)
        end
    end.

Definition crypto_shash_init (a : shash_alg) : St tcp_server_info Z :=
  fun srv =>
    match get_sdesc a (secmech srv), get_tfm a (secmech srv) with
    | Some _, Some k =>
        let rc := init_err kern a k in
        if rc =? 0
        then Ret (0, with_secmech srv (set_sdesc a (Some []) (secmech srv)))
        else Ret (rc, srv)
    | _, _ => Fault
    end.

Definition crypto_shash_update (a : shash_alg) (data : bytes) (n : Z)
  : St tcp_server_info Z :=
  fun srv =>
    match get_sdesc a (secmech srv), get_tfm a (secmech srv) with
    | Some absorbed, Some k =>
        match load data n with
        | Fault => Fault
        | Ret d =>
            let rc := update_err kern a absorbed d in
            if rc =? 0
            then Ret (0, with_secmech srv
                           (set_sdesc a (Some (absorbed ++ d)) (secmech srv)))
            else Ret (rc, srv)
        end
    | _, _ => Fault
    end.

(** The digestsize bytes a transform produces; md5 and sha512 take no key. *)
Definition digest (a : shash_alg) (k absorbed : bytes) : bytes :=
  fit (digestsize a)
    (shash_mac kern a
       (match a with MD5 | SHA512 => [] | _ => k end) absorbed).

(** crypto_shash_final(desc, out): the status and the new contents of the
    object [out], whose first digestsize bytes receive the result. *)
Definition crypto_shash_final (a : shash_alg) (out : bytes)
  : St tcp_server_info (Z * bytes) :=
  fun srv =>
    match get_sdesc a (secmech srv), get_tfm a (secmech srv) with
    | Some absorbed, Some k =>
        let rc := final_err kern a k absorbed in
        if rc =? 0
        then match store out 0 (digest a k absorbed) with
             | Ret out' => Ret ((0, out'), srv)
             | Fault => Fault
             end
        else Ret ((rc, out), srv)
    | _, _ => Fault
    end.

(** *** Allocation of the per-connection transforms *)

(** The part the five allocators share, after the already-allocated test:
    allocate the transform, then its descriptor. *)
Definition shash_alloc (a : shash_alg) : St tcp_server_info Z :=
  fun srv =>
    let rc := crypto_alloc_shash_err kern a in
    if negb (rc =? 0)
    then Ret (rc, with_secmech srv (set_tfm a None (secmech srv)))
    else if kmalloc_ok kern (to_u32 (sdesc_size kern a))
    then Ret (0, with_secmech srv
                   (set_sdesc a (Some []) (set_tfm a (Some []) (secmech srv))))
    else Ret (- ENOMEM,
              with_secmech srv
                (set_tfm a None (set_sdesc a None (secmech srv)))).

Definition crypto_md5_alloc : St tcp_server_info Z :=
  fun srv =>
    match md5 (secmech srv) with
    | Some _ => Ret (0, srv)
    | None => shash_alloc MD5 srv
    end.

Definition crypto_hmacmd5_alloc : St tcp_server_info Z :=
  fun srv =>
    match sdeschmacmd5 (secmech srv) with
    | Some _ => Ret (0, srv)
    | None => shash_alloc HMAC_MD5 srv
    end.

Definition crypto_hmacsha256_alloc : St tcp_server_info Z :=
  fun srv =>
    match hmacsha256 (secmech srv) with
    | Some _ => Ret (0, srv)
    | None => shash_alloc HMAC_SHA256 srv
    end.

Definition crypto_cmac_alloc : St tcp_server_info Z :=
  fun srv =>
    match sdesccmacaes (secmech srv) with
    | Some _ => Ret (0, srv)
    | None => shash_alloc CMAC_AES srv
    end.

Definition crypto_sha512_alloc : St tcp_server_info Z :=
  fun srv =>
    match sdescsha512 (secmech srv) with
    | Some _ => Ret (0, srv)
    | None => shash_alloc SHA512 srv
    end.

(** *** Strings *)

(** A [char *] argument: NULL, the global [netbios_name] itself, or another
    C string. *)
Inductive char_ptr : Type :=
| NullPtr
| NetbiosName
| Str (s : bytes).

Definition is_netbios_name (p : char_ptr) : bool :=
  match p with NetbiosName => true | _ => false end.

(** The string a [char *] points to; strlen and the conversions read it. *)
Definition c_string (p : char_ptr) : outcome bytes :=
  match p with
  | NullPtr => Fault
  | NetbiosName => Ret netbios_name
  | Str s => Ret s
  end.

(** Modelled from the spec: smb_strtoUTF16, UniStrupr and
    smb_strndup_from_utf16 are defined in the unicode helper of the module,
    which is not among the sources; the specification has them as the
    UTF-16 encoding of a name, its upper-casing, and the decoding of a
    UTF-16 security buffer.  The conversion of characters is the parameter
    [strtoUTF16]; what is written out here is which bytes the calls touch.

    smb_strtoUTF16(to, from, len, nls) with [to] an array of [cap] code
    units: the converted units are stored followed by a zero unit, and the
    number of units before the terminator is returned.  The result is the
    list of those units. *)
Definition smb_strtoUTF16 (cap : Z) (from : bytes) (nls : Z)
  : outcome (list Z) :=
  let u := strtoUTF16 kern nls from in
  if len u + 1 <=? cap then Ret u else Fault.

(** UniStrupr(up): upper-case in place up to the terminating zero unit. *)
Fixpoint UniStrupr (up : list Z) : list Z :=
  match up with
  | [] => []
  | c :: rest =>
      if c =? 0 then c :: rest else UniToupper kern c :: UniStrupr rest
  end.

(** The code units smb_strndup_from_utf16 reads through [from]: at most
    [maxwords], up to the first zero unit. *)
Fixpoint utf16_scan (from : bytes) (maxwords : nat) : outcome (list Z) :=
  match maxwords with
  | O => Ret []
  | S m =>
      match from with
      | lo :: hi :: rest =>
          let w := lo + 256 * hi in
          if w =? 0 then Ret []
          else match utf16_scan rest m with
               | Ret u => Ret (w :: u)
               | Fault => Fault
               end
      | _ => Fault
      end
  end.

(** smb_strndup_from_utf16(src, maxlen, true, nls) *)
Definition smb_strndup_from_utf16 (src : bytes) (maxlen : Z) (nls : Z)
  : outcome char_ptr :=
  match utf16_scan src (Z.to_nat (maxlen / 2)) with
  | Fault => Fault
  | Ret u =>
      Ret (match strndup_from_utf16 kern nls u with
           | None => NullPtr
           | Some s => Str s
           end)
  end.

(** kzalloc(size, GFP_KERNEL) for an [int] size: NULL, or a zeroed object. *)
Definition kzalloc (size : Z) : option bytes :=
  if kmalloc_ok kern (to_size_t size)
  then Some (repeat 0 (Z.to_nat (to_size_t size)))
  else None.

(** *** Session key and NTLMv2 hash *)

Definition compute_sess_key (hash hmac : bytes) : St cifssrv_sess Z :=
  TRY on_server crypto_hmacmd5_alloc ;;
  TRY on_server (crypto_shash_setkey HMAC_MD5 hash CIFS_HMAC_MD5_HASH_SIZE) ;;
  TRY on_server (crypto_shash_init HMAC_MD5) ;;
  TRY on_server (crypto_shash_update HMAC_MD5 hmac SMB2_NTLMV2_SESSKEY_SIZE) ;;
  sess <- get ;;
  '(rc, k) <- on_server (crypto_shash_final HMAC_MD5 (sess_key sess)) ;;
  sess <- get ;;
  put (with_sess_key sess k) ;;
  ret rc.

(** [ntlmv2_hash] is the object the result is written to; the call returns
    its status and the object's contents afterwards. *)
Definition calc_ntlmv2_hash (ntlmv2_hash : bytes) (dname : char_ptr)
  : St cifssrv_sess (Z * bytes) :=
  sess <- get ;;
  match sdeschmacmd5 (secmech (server sess)) with
  | None => ret (- 1, ntlmv2_hash)
  | Some _ =>
      TRY on_server (crypto_shash_setkey HMAC_MD5 (passkey (usr sess))
                       CIFS_ENCPWD_SIZE)
        KEEP ntlmv2_hash ;;
      TRY on_server (crypto_shash_init HMAC_MD5) KEEP ntlmv2_hash ;;
      (* convert user_name to unicode *)
      let len0 := len (name (usr sess)) in
      match kzalloc (2 + UNICODE_LEN len0) with
      | None => ret (- ENOMEM, ntlmv2_hash)
      | Some _ =>
          uniname <- lift (if len0 =? 0 then Ret []
                           else match smb_strtoUTF16 (1 + len0)
                                        (name (usr sess))
                                        (local_nls (server sess)) with
                                | Ret u => Ret (UniStrupr u)
                                | Fault => Fault
                                end) ;;
          TRY on_server (crypto_shash_update HMAC_MD5 (le16s uniname)
                           (to_u32 (UNICODE_LEN (len uniname))))
            KEEP ntlmv2_hash ;;
          (* convert domain name or server name to unicode *)
          d <- lift (c_string dname) ;;
          let len1 := len d in
          match kzalloc (2 + UNICODE_LEN len1) with
          | None => ret (- ENOMEM, ntlmv2_hash)
          | Some _ =>
              domain <- lift (smb_strtoUTF16 (1 + len1) d
                                (local_nls (server sess))) ;;
              TRY on_server (crypto_shash_update HMAC_MD5 (le16s domain)
                               (to_u32 (UNICODE_LEN (len domain))))
                KEEP ntlmv2_hash ;;
              on_server (crypto_shash_final HMAC_MD5 ntlmv2_hash)
          end
      end
  end.

(** *** NTLM and NTLMv2 verification *)

Definition process_ntlm (pw_buf : bytes) : St cifssrv_sess Z :=
  sess <- get ;;
  p21 <- lift (memset (local_buf 21) 0 21) ;;
  p21 <- lift (memcpy p21 (passkey (usr sess)) CIFS_NTHASH_SIZE) ;;
  c8 <- lift (load (cryptkey (ntlmssp sess)) CIFS_CRYPTO_KEY_SIZE) ;;
  let rc := fst (E_P24 kern p21 c8) in
  let key := fit 24 (snd (E_P24 kern p21 c8)) in
  if negb (rc =? 0) then ret rc
  else
    nthash <- lift (load (passkey (usr sess)) CIFS_SMB1_SESSKEY_SIZE) ;;
    k <- lift (store (sess_key sess) 0 (fit 16 (smb_mdfour kern nthash))) ;;
    k <- lift (store k CIFS_SMB1_SESSKEY_SIZE key) ;;
    put (with_sequence_number (with_sess_key sess k) 1) ;;
    cmp <- lift (strncmp pw_buf key (Z.to_nat CIFS_AUTH_RESP_SIZE)) ;;
    if negb (cmp =? 0) then ret (- EINVAL) else ret rc.

(** [ntlmv2] points at a struct ntlmv2_resp inside the received message;
    [blen] is an [int]. *)
Definition process_ntlmv2 (ntlmv2 : bytes) (blen : Z)
    (domain_name : char_ptr) : St cifssrv_sess Z :=
  TRY on_server crypto_hmacmd5_alloc ;;
  '(rc, ntlmv2_hash) <-
     (if is_netbios_name domain_name
      then calc_ntlmv2_hash (local_buf 16) NetbiosName
      else calc_ntlmv2_hash (local_buf 16) domain_name) ;;
  if negb (rc =? 0) then ret rc
  else
    TRY on_server (crypto_shash_setkey HMAC_MD5 ntlmv2_hash
                     CIFS_HMAC_MD5_HASH_SIZE) ;;
    TRY on_server (crypto_shash_init HMAC_MD5) ;;
    let len0 := to_int (CIFS_CRYPTO_KEY_SIZE + blen) in
    match kzalloc len0 with
    | None => ret (- ENOMEM)
    | Some construct =>
        sess <- get ;;
        construct <- lift (memcpy construct (cryptkey (ntlmssp sess))
                             CIFS_CRYPTO_KEY_SIZE) ;;
        blob <- lift (load (ptr_add ntlmv2 Layout.Resp_blob_signature)
                        (to_size_t blen)) ;;
        construct <- lift (store construct CIFS_CRYPTO_KEY_SIZE blob) ;;
        TRY on_server (crypto_shash_update HMAC_MD5 construct
                         (to_u32 len0)) ;;
        '(rc, ntlmv2_rsp) <-
           on_server (crypto_shash_final HMAC_MD5 (local_buf 16)) ;;
        if negb (rc =? 0) then ret rc
        else
          TRY compute_sess_key ntlmv2_hash ntlmv2_rsp ;;
          lift (memcmp (ptr_add ntlmv2 Layout.Resp_ntlmv2_hash) ntlmv2_rsp
                  CIFS_HMAC_MD5_HASH_SIZE)
    end.

(** *** NTLMSSP messages *)

(** [authblob] is the received message, [blob_len] the [int] the caller
    passes as its length. *)
Definition decode_ntlmssp_authenticate_blob (authblob : bytes) (blob_len : Z)
  : St cifssrv_sess Z :=
  if to_size_t blob_len <? Layout.sizeof_AUTHENTICATE_MESSAGE
  then ret (- EINVAL)
  else
    cmp <- lift (memcmp (ptr_add authblob Layout.Auth_Signature)
                   (literal "NTLMSSP") 8) ;;
    if negb (cmp =? 0) then ret (- EINVAL)
    else
      ntlen <- lift (read_le16 authblob
                       (Layout.Auth_NtChallengeResponse
                        + Layout.SecBuf_Length)) ;;
      (* process NTLM authentication *)
      if ntlen =? CIFS_AUTH_RESP_SIZE
      then
        ntoff <- lift (read_le32 authblob
                         (Layout.Auth_NtChallengeResponse
                          + Layout.SecBuf_BufferOffset)) ;;
        process_ntlm (ptr_add authblob ntoff)
      else
        sess <- get ;;
        doff <- lift (read_le32 authblob
                        (Layout.Auth_DomainName
                         + Layout.SecBuf_BufferOffset)) ;;
        dlen <- lift (read_le16 authblob
                        (Layout.Auth_DomainName + Layout.SecBuf_Length)) ;;
        domain_name <- lift (smb_strndup_from_utf16 (ptr_add authblob doff)
                               dlen (local_nls (server sess))) ;;
        (* process NTLMv2 authentication *)
        ntoff <- lift (read_le32 authblob
                         (Layout.Auth_NtChallengeResponse
                          + Layout.SecBuf_BufferOffset)) ;;
        process_ntlmv2 (ptr_add authblob ntoff) (ntlen - CIFS_ENCPWD_SIZE)
          domain_name.

Definition decode_ntlmssp_negotiate_blob (negblob : bytes) (blob_len : Z)
  : St cifssrv_sess Z :=
  if to_size_t blob_len <? Layout.sizeof_NEGOTIATE_MESSAGE
  then ret (- EINVAL)
  else
    cmp <- lift (memcmp (ptr_add negblob Layout.Neg_Signature)
                   (literal "NTLMSSP") 8) ;;
    if negb (cmp =? 0) then ret (- EINVAL)
    else
      flags <- lift (read_le32 negblob Layout.Neg_NegotiateFlags) ;;
      sess <- get ;;
      put (with_ntlmssp sess {| client_flags := flags;
                                cryptkey := cryptkey (ntlmssp sess) |}) ;;
      ret 0.

(** One round of the target-info loop: [tinfo] is the offset of the current
    TargetInfo inside [chgblob], [name] the local array of code units. *)
Definition add_target_info (name : bytes) (len0 : Z) (type : Z)
    (st : bytes * Z) : outcome (bytes * Z) :=
  (let '(chgblob, tinfo) := st in
   chgblob <- store chgblob (tinfo + Layout.Tinfo_Type) (le16 type) ;;
   chgblob <- store chgblob (tinfo + Layout.Tinfo_Length) (le16 len0) ;;
   content <- load name len0 ;;
   chgblob <- store chgblob (tinfo + Layout.Tinfo_Content) content ;;
   cur <- read_le16 chgblob
            (Layout.Chg_TargetInfoArray + Layout.SecBuf_Length) ;;
   chgblob <- store chgblob
                (Layout.Chg_TargetInfoArray + Layout.SecBuf_Length)
                (le16 (cur + to_u16 (4 + len0))) ;;
   Ret (chgblob, tinfo + 4 + len0))%c.

(** [for (type = first; type <= ...; type++)], [n] rounds. *)
Fixpoint target_info_loop (n : nat) (name : bytes) (len0 : Z) (type : Z)
    (st : bytes * Z) : outcome (bytes * Z) :=
  match n with
  | O => Ret st
  | S n' =>
      match add_target_info name len0 type st with
      | Ret st' => target_info_loop n' name len0 (type + 1) st'
      | Fault => Fault
      end
  end.

(** The writes of build_ntlmssp_challenge_blob into the object [chgblob],
    given the client flags, the converted name and the fresh challenge. *)
Definition fill_challenge_blob (chgblob : bytes) (cflags : Z)
    (uname : list Z) (challenge : bytes) : outcome (Z * bytes) :=
  (let name := le16s (uname ++ [0]) in
   chgblob <- (sig <- load NTLMSSP_SIGNATURE 8 ;;
               store chgblob Layout.Chg_Signature sig) ;;
   chgblob <- store chgblob Layout.Chg_MessageType (le32 NtLmChallenge) ;;
   let flags :=
     Z.lor NTLMSSP_NEGOTIATE_UNICODE
       (Z.lor NTLMSSP_NEGOTIATE_NTLM
          (Z.lor NTLMSSP_TARGET_TYPE_SERVER
             (Z.lor NTLMSSP_NEGOTIATE_TARGET_INFO
                (Z.lor NTLMSSP_NEGOTIATE_128
                   (Z.lor NTLMSSP_NEGOTIATE_56
                      NTLMSSP_NEGOTIATE_VERSION))))) in
   let flags :=
     if negb (Z.land cflags NTLMSSP_REQUEST_TARGET =? 0)
     then Z.lor flags NTLMSSP_REQUEST_TARGET else flags in
   chgblob <- store chgblob Layout.Chg_NegotiateFlags (le32 flags) ;;
   let len0 := to_u32 (UNICODE_LEN (len uname)) in
   chgblob <- store chgblob (Layout.Chg_TargetName + Layout.SecBuf_Length)
                (le16 len0) ;;
   chgblob <- store chgblob
                (Layout.Chg_TargetName + Layout.SecBuf_MaximumLength)
                (le16 len0) ;;
   chgblob <- store chgblob
                (Layout.Chg_TargetName + Layout.SecBuf_BufferOffset)
                (le32 Layout.sizeof_CHALLENGE_MESSAGE) ;;
   (* Initialize random server challenge *)
   chgblob <- (c <- load challenge CIFS_CRYPTO_KEY_SIZE ;;
               store chgblob Layout.Chg_Challenge c) ;;
   (* Add Target Information to security buffer *)
   tnoff <- read_le32 chgblob
              (Layout.Chg_TargetName + Layout.SecBuf_BufferOffset) ;;
   chgblob <- store chgblob
                (Layout.Chg_TargetInfoArray + Layout.SecBuf_BufferOffset)
                (le32 (tnoff + len0)) ;;
   let target_name := tnoff in
   chgblob <- (n <- load name len0 ;; store chgblob target_name n) ;;
   let blob_len := to_u16 (Layout.sizeof_CHALLENGE_MESSAGE + len0) in
   let tinfo := target_name + len0 in
   chgblob <- store chgblob
                (Layout.Chg_TargetInfoArray + Layout.SecBuf_Length)
                (le16 0) ;;
   (* Add target info list for NetBIOS/DNS settings *)
   '(chgblob, tinfo) <-
      target_info_loop
        (Z.to_nat (NTLMSSP_AV_DNS_DOMAIN_NAME + 1
                   - NTLMSSP_AV_NB_COMPUTER_NAME))
        name len0 NTLMSSP_AV_NB_COMPUTER_NAME (chgblob, tinfo) ;;
   (* Add terminator subblock *)
   chgblob <- store chgblob (tinfo + Layout.Tinfo_Type) (le16 0) ;;
   chgblob <- store chgblob (tinfo + Layout.Tinfo_Length) (le16 0) ;;
   cur <- read_le16 chgblob
            (Layout.Chg_TargetInfoArray + Layout.SecBuf_Length) ;;
   chgblob <- store chgblob
                (Layout.Chg_TargetInfoArray + Layout.SecBuf_Length)
                (le16 (cur + to_u16 4)) ;;
   tilen <- read_le16 chgblob
              (Layout.Chg_TargetInfoArray + Layout.SecBuf_Length) ;;
   chgblob <- store chgblob
                (Layout.Chg_TargetInfoArray + Layout.SecBuf_MaximumLength)
                (le16 tilen) ;;
   Ret (to_u32 (blob_len + tilen), chgblob))%c.

(** [chgblob] is the object the caller provides for the message; the call
    returns the length of the blob and the object's contents afterwards.
    The local [name] is an array of 8 code units. *)
Definition build_ntlmssp_challenge_blob (chgblob : bytes)
  : St cifssrv_sess (Z * bytes) :=
  sess <- get ;;
  uname <- lift (smb_strtoUTF16 8 netbios_name (local_nls (server sess))) ;;
  let challenge := fit 8 (get_random_bytes kern 8) in
  put (with_ntlmssp sess {| client_flags := client_flags (ntlmssp sess);
                            cryptkey := challenge |}) ;;
  lift (fill_challenge_blob chgblob (client_flags (ntlmssp sess)) uname
          challenge).

(** *** Packet signatures *)

(** [buf] is the packet, [sz] its size, an [int]; [sig] is the object the
    signature is written to.  The calls return their status and the
    contents of [sig] afterwards. *)
Definition smb1_sign_smbpdu (buf : bytes) (sz : Z) (sig : bytes)
  : St cifssrv_sess (Z * bytes) :=
  TRY on_server crypto_md5_alloc KEEP sig ;;
  TRY on_server (crypto_shash_init MD5) KEEP sig ;;
  sess <- get ;;
  TRY on_server (crypto_shash_update MD5 (sess_key sess) 40) KEEP sig ;;
  TRY on_server (crypto_shash_update MD5 buf (to_u32 sz)) KEEP sig ;;
  on_server (crypto_shash_final MD5 sig).

Definition smb2_sign_smbpdu (buf : bytes) (sz : Z) (sig : bytes)
  : St cifssrv_sess (Z * bytes) :=
  TRY on_server crypto_hmacsha256_alloc KEEP sig ;;
  sess <- get ;;
  TRY on_server (crypto_shash_setkey HMAC_SHA256 (sess_key sess)
                   SMB2_NTLMV2_SESSKEY_SIZE) KEEP sig ;;
  TRY on_server (crypto_shash_init HMAC_SHA256) KEEP sig ;;
  TRY on_server (crypto_shash_update HMAC_SHA256 buf (to_u32 sz))
    KEEP sig ;;
  on_server (crypto_shash_final HMAC_SHA256 sig).

(** No allocation here: the transform is the one compute_smb3xsigningkey
    has allocated. *)
Definition smb3_sign_smbpdu (buf : bytes) (sz : Z) (sig : bytes)
  : St channel (Z * bytes) :=
  chann <- get ;;
  TRY on_chann_server (crypto_shash_setkey CMAC_AES (smb3signingkey chann)
                         SMB2_CMACAES_SIZE) KEEP sig ;;
  TRY on_chann_server (crypto_shash_init CMAC_AES) KEEP sig ;;
  TRY on_chann_server (crypto_shash_update CMAC_AES buf (to_u32 sz))
    KEEP sig ;;
  on_chann_server (crypto_shash_final CMAC_AES sig).

(** *** SMB3 signing key and preauthentication integrity hash *)

Definition compute_smb3xsigningkey (key : bytes) (key_size : Z)
  : St cifssrv_sess (Z * bytes) :=
  let zero := [0] in
  let i := [0; 0; 0; 1] in
  let L := [0; 0; 0; 128] in
  prfhash <- lift (memset (local_buf 32) 0 SMB2_HMACSHA256_SIZE) ;;
  key <- lift (memset key 0 key_size) ;;
  TRY on_server crypto_hmacsha256_alloc KEEP key ;;
  TRY on_server crypto_cmac_alloc KEEP key ;;
  sess <- get ;;
  TRY on_server (crypto_shash_setkey HMAC_SHA256 (sess_key sess)
                   SMB2_NTLMV2_SESSKEY_SIZE) KEEP key ;;
  TRY on_server (crypto_shash_init HMAC_SHA256) KEEP key ;;
  TRY on_server (crypto_shash_update HMAC_SHA256 i 4) KEEP key ;;
  TRY (if dialect (server sess) =? SMB311_PROT_ID
       then on_server (crypto_shash_update HMAC_SHA256
                         (literal "SMBSigningKey") 14)
       else on_server (crypto_shash_update HMAC_SHA256
                         (literal "SMB2AESCMAC") 12)) KEEP key ;;
  TRY on_server (crypto_shash_update HMAC_SHA256 zero 1) KEEP key ;;
  TRY (if dialect (server sess) =? SMB311_PROT_ID
       then on_server (crypto_shash_update HMAC_SHA256
                         (Preauth_HashValue sess) 64)
       else on_server (crypto_shash_update HMAC_SHA256
                         (literal "SmbSign") 8)) KEEP key ;;
  TRY on_server (crypto_shash_update HMAC_SHA256 L 4) KEEP key ;;
  '(rc, prfhash) <- on_server (crypto_shash_final HMAC_SHA256 prfhash) ;;
  if negb (rc =? 0) then ret (rc, key)
  else
    key <- lift (memcpy key prfhash key_size) ;;
    ret (rc, key).

(** [buf] is the received PDU from its length field on, [pi_hash] the
    object that receives the hash. *)
Definition calc_preauth_integrity_hash (hash_id : Z) (buf : bytes)
    (pi_hash : bytes) : St tcp_server_info (Z * bytes) :=
  let all_bytes_msg := ptr_add buf Layout.Hdr_ProtocolId in
  msg_size <- lift (read_be32 buf Layout.Hdr_smb2_buf_length) ;;
  let msg_size := to_int msg_size in
  if hash_id =? SMB2_PREAUTH_INTEGRITY_SHA512
  then
    TRY crypto_sha512_alloc KEEP pi_hash ;;
    TRY crypto_shash_init SHA512 KEEP pi_hash ;;
    server <- get ;;
    TRY crypto_shash_update SHA512 (srv_Preauth_HashValue server) 64
      KEEP pi_hash ;;
    TRY crypto_shash_update SHA512 all_bytes_msg (to_u32 msg_size)
      KEEP pi_hash ;;
    crypto_shash_final SHA512 pi_hash
  else ret (- 1, pi_hash).

(** crypto_shash_final(desc, pi_hash) with the result written through the
    pointer. *)
Definition crypto_shash_final_to (a : shash_alg) (pi_hash : hash_ptr)
  : St tcp_server_info (Z * hash_ptr) :=
  match pi_hash with
  | Caller_object obj =>
      '(rc, out) <- crypto_shash_final a obj ;;
      ret (rc, Caller_object out)
  | Conn_Preauth_HashValue =>
      server <- get ;;
      '(rc, out) <- crypto_shash_final a (srv_Preauth_HashValue server) ;;
      server <- get ;;
      put (with_srv_Preauth_HashValue server out) ;;
      ret (rc, Conn_Preauth_HashValue)
  end.

(** The same function with [pi_hash] as a pointer that may alias
    [server->Preauth_HashValue]: the update of the running hash in place.
    The function reads the running hash before it writes through
    [pi_hash]. *)
Definition calc_preauth_integrity_hash_ptr (hash_id : Z) (buf : bytes)
    (pi_hash : hash_ptr) : St tcp_server_info (Z * hash_ptr) :=
  let all_bytes_msg := ptr_add buf Layout.Hdr_ProtocolId in
  msg_size <- lift (read_be32 buf Layout.Hdr_smb2_buf_length) ;;
  let msg_size := to_int msg_size in
  if hash_id =? SMB2_PREAUTH_INTEGRITY_SHA512
  then
    TRY crypto_sha512_alloc KEEP pi_hash ;;
    TRY crypto_shash_init SHA512 KEEP pi_hash ;;
    server <- get ;;
    TRY crypto_shash_update SHA512 (srv_Preauth_HashValue server) 64
      KEEP pi_hash ;;
    TRY crypto_shash_update SHA512 all_bytes_msg (to_u32 msg_size)
      KEEP pi_hash ;;
    crypto_shash_final_to SHA512 pi_hash
  else ret (- 1, pi_hash).

End Auth.

(** ** Well-formed connections and a kernel without failures *)

(** Transforms and descriptors are allocated and released together. *)
Definition paired (a : shash_alg) (srv : tcp_server_info) : Prop :=
  get_tfm a (secmech srv) = None <-> get_sdesc a (secmech srv) = None.

Definition wf_server (srv : tcp_server_info) : Prop := forall a, paired a srv.

(** Every allocation and every shash step succeeds. *)
Record always_succeeds (kern : kernel) : Prop := {
  ok_alloc : forall a, crypto_alloc_shash_err kern a = 0;
  ok_kmalloc : forall n, kmalloc_ok kern n = true;
  ok_setkey : forall a k, setkey_err kern a k = 0;
  ok_init : forall a k, init_err kern a k = 0;
  ok_update : forall a d x, update_err kern a d x = 0;
  ok_final : forall a k d, final_err kern a k d = 0;
  ok_E_P24 : forall p c, fst (E_P24 kern p c) = 0
}.

(** What an allocator leaves behind: a well-formed connection that differs
    from the one before in the slot of [a] only, allocated when the status
    is 0. *)
Definition alloc_post (kern : kernel) (a : shash_alg)
    (srv : tcp_server_info) (rc : Z) (srv' : tcp_server_info) : Prop :=
  wf_server srv'
  /\ dialect srv' = dialect srv
  /\ srv_Preauth_HashValue srv' = srv_Preauth_HashValue srv
  /\ local_nls srv' = local_nls srv
  /\ (forall b, b <> a ->
        get_tfm b (secmech srv') = get_tfm b (secmech srv)
        /\ get_sdesc b (secmech srv') = get_sdesc b (secmech srv))
  /\ (rc = 0 -> exists k d, get_tfm a (secmech srv') = Some k
                            /\ get_sdesc a (secmech srv') = Some d)
  /\ (always_succeeds kern -> rc = 0).

(** ** The DES step of NTLMv1 *)

(** Modelled from the spec: E_P24 lives in the DES helper file of the
    module, which is not part of auth.c; the spec calls it the "DES-based
    challenge-response (external primitive)" that is "keyed by that padded
    key and the server challenge".  This is the construction of the NTLM
    protocol: the 21-byte key is cut in three 7-byte thirds, each third is
    spread to a DES key, and the 8-byte challenge is encrypted under each.
    It is used for the concrete runs below; the theorems hold for every
    [kernel]. *)
Module SmbDes.

Definition IP : list nat :=
  [58;50;42;34;26;18;10;2;60;52;44;36;28;20;12;4;
   62;54;46;38;30;22;14;6;64;56;48;40;32;24;16;8;
   57;49;41;33;25;17;9;1;59;51;43;35;27;19;11;3;
   61;53;45;37;29;21;13;5;63;55;47;39;31;23;15;7]%nat.

Definition FP : list nat :=
  [40;8;48;16;56;24;64;32;39;7;47;15;55;23;63;31;
   38;6;46;14;54;22;62;30;37;5;45;13;53;21;61;29;
   36;4;44;12;52;20;60;28;35;3;43;11;51;19;59;27;
   34;2;42;10;50;18;58;26;33;1;41;9;49;17;57;25]%nat.

Definition E : list nat :=
  [32;1;2;3;4;5;4;5;6;7;8;9;8;9;10;11;12;13;12;13;14;15;16;17;
   16;17;18;19;20;21;20;21;22;23;24;25;24;25;26;27;28;29;28;29;30;31;32;1]%nat.

Definition P : list nat :=
  [16;7;20;21;29;12;28;17;1;15;23;26;5;18;31;10;
   2;8;24;14;32;27;3;9;19;13;30;6;22;11;4;25]%nat.

Definition PC1 : list nat :=
  [57;49;41;33;25;17;9;1;58;50;42;34;26;18;10;2;59;51;43;35;27;19;11;3;
   60;52;44;36;63;55;47;39;31;23;15;7;62;54;46;38;30;22;14;6;
   61;53;45;37;29;21;13;5;28;20;12;4]%nat.

Definition PC2 : list nat :=
  [14;17;11;24;1;5;3;28;15;6;21;10;23;19;12;4;26;8;16;7;27;20;13;2;
   41;52;31;37;47;55;30;40;51;45;33;48;44;49;39;56;34;53;46;42;50;36;29;32]%nat.

Definition SHIFTS : list nat := [1;1;2;2;2;2;2;2;1;2;2;2;2;2;2;1]%nat.

Definition SBOX : list (list Z) :=
  [[14;4;13;1;2;15;11;8;3;10;6;12;5;9;0;7;0;15;7;4;14;2;13;1;10;6;12;11;9;5;3;8;
    4;1;14;8;13;6;2;11;15;12;9;7;3;10;5;0;15;12;8;2;4;9;1;7;5;11;3;14;10;0;6;13];
   [15;1;8;14;6;11;3;4;9;7;2;13;12;0;5;10;3;13;4;7;15;2;8;14;12;0;1;10;6;9;11;5;
    0;14;7;11;10;4;13;1;5;8;12;6;9;3;2;15;13;8;10;1;3;15;4;2;11;6;7;12;0;5;14;9];
   [10;0;9;14;6;3;15;5;1;13;12;7;11;4;2;8;13;7;0;9;3;4;6;10;2;8;5;14;12;11;15;1;
    13;6;4;9;8;15;3;0;11;1;2;12;5;10;14;7;1;10;13;0;6;9;8;7;4;15;14;3;11;5;2;12];
   [7;13;14;3;0;6;9;10;1;2;8;5;11;12;4;15;13;8;11;5;6;15;0;3;4;7;2;12;1;10;14;9;
    10;6;9;0;12;11;7;13;15;1;3;14;5;2;8;4;3;15;0;6;10;1;13;8;9;4;5;11;12;7;2;14];
   [2;12;4;1;7;10;11;6;8;5;3;15;13;0;14;9;14;11;2;12;4;7;13;1;5;0;15;10;3;9;8;6;
    4;2;1;11;10;13;7;8;15;9;12;5;6;3;0;14;11;8;12;7;1;14;2;13;6;15;0;9;10;4;5;3];
   [12;1;10;15;9;2;6;8;0;13;3;4;14;7;5;11;10;15;4;2;7;12;9;5;6;1;13;14;0;11;3;8;
    9;14;15;5;2;8;12;3;7;0;4;10;1;13;11;6;4;3;2;12;9;5;15;10;11;14;1;7;6;0;8;13];
   [4;11;2;14;15;0;8;13;3;12;9;7;5;10;6;1;13;0;11;7;4;9;1;10;14;3;5;12;2;15;8;6;
    1;4;11;13;12;3;7;14;10;15;6;8;0;5;9;2;6;11;13;8;1;4;10;7;9;5;0;15;14;2;3;12];
   [13;2;8;4;6;15;11;1;10;9;3;14;5;0;12;7;1;15;13;8;10;3;7;4;12;5;6;11;0;14;9;2;
    7;11;4;1;9;12;14;2;0;6;10;13;15;3;5;8;2;1;14;7;4;10;8;13;15;12;9;0;3;5;6;11]].

(** Bits of a byte, most significant first. *)
Definition byte_bits (b : Z) : list bool :=
  map (fun i => Z.testbit b (Z.of_nat i)) [7;6;5;4;3;2;1;0]%nat.

Definition bits (bs : bytes) : list bool := flat_map byte_bits bs.

Definition bits_val (l : list bool) : Z :=
  fold_left (fun acc (b : bool) => 2 * acc + (if b then 1 else 0)) l 0.

Fixpoint unbits (n : nat) (l : list bool) : bytes :=
  match n with
  | O => []
  | S n' => bits_val (firstn 8 l) :: unbits n' (skipn 8 l)
  end.

Definition permute (t : list nat) (b : list bool) : list bool :=
  map (fun i => nth (i - 1) b false) t.

Definition rotl (s : nat) (l : list bool) : list bool :=
  skipn s l ++ firstn s l.

Definition xor (a b : list bool) : list bool :=
  map (fun p => xorb (fst p) (snd p)) (combine a b).

Definition sbox (i : nat) (six : list bool) : list bool :=
  let b := fun k => nth k six false in
  let row := bits_val [b 0; b 5]%nat in
  let col := bits_val [b 1; b 2; b 3; b 4]%nat in
  let v := nth (Z.to_nat (row * 16 + col)) (nth i SBOX []) 0 in
  map (fun k => Z.testbit v (Z.of_nat k)) [3;2;1;0]%nat.

Definition feistel (r sk : list bool) : list bool :=
  let x := xor (permute E r) sk in
  permute P
    (flat_map (fun i => sbox i (firstn 6 (skipn (6 * i) x)))
       (seq 0 8)).

(** One round: the halves of the key schedule and of the block. *)
Definition round (st : (list bool * list bool) * (list bool * list bool))
    (s : nat) :=
  let '((c, d), (l, r)) := st in
  let c' := rotl s c in
  let d' := rotl s d in
  let sk := permute PC2 (c' ++ d') in
  ((c', d'), (r, xor l (feistel r sk))).

(** DES encryption of one 8-byte block under an 8-byte key. *)
Definition des_encrypt (key block : bytes) : bytes :=
  let k := permute PC1 (bits key) in
  let b := permute IP (bits block) in
  let '(_, (l, r)) :=
    fold_left round SHIFTS
      ((firstn 28 k, skipn 28 k), (firstn 32 b, skipn 32 b)) in
  unbits 8 (permute FP (r ++ l)).

(** str_to_key: spread 56 key bits over 8 bytes, low bit left for parity. *)
Definition str_to_key (str : bytes) : bytes :=
  let s := fun i => nth i str 0 in
  map (fun x => Z.shiftl x 1 mod 256)
    [ Z.shiftr (s 0%nat) 1;
      Z.lor (Z.shiftl (Z.land (s 0%nat) 0x01) 6) (Z.shiftr (s 1%nat) 2);
      Z.lor (Z.shiftl (Z.land (s 1%nat) 0x03) 5) (Z.shiftr (s 2%nat) 3);
      Z.lor (Z.shiftl (Z.land (s 2%nat) 0x07) 4) (Z.shiftr (s 3%nat) 4);
      Z.lor (Z.shiftl (Z.land (s 3%nat) 0x0F) 3) (Z.shiftr (s 4%nat) 5);
      Z.lor (Z.shiftl (Z.land (s 4%nat) 0x1F) 2) (Z.shiftr (s 5%nat) 6);
      Z.lor (Z.shiftl (Z.land (s 5%nat) 0x3F) 1) (Z.shiftr (s 6%nat) 7);
      Z.land (s 6%nat) 0x7F ].

Definition smbhash (inp key : bytes) : bytes :=
  des_encrypt (str_to_key key) inp.

(** E_P24(p21, c8, p24): the challenge encrypted under each third of the
    21-byte key; the three blocks fill p24. *)
Definition E_P24 (p21 c8 : bytes) : bytes :=
  smbhash c8 p21 ++ smbhash c8 (skipn 7 p21) ++ smbhash c8 (skipn 14 p21).

End SmbDes.

(** ** A concrete kernel and a concrete session *)

(** A stand-in for the hash and MAC transforms, total and deterministic:
    byte [i] of the result is the sum of the key and data bytes plus [i].
    Only the place of the result in the data flow matters below. *)
Definition sum_mac (k d : bytes) : bytes :=
  map (fun i => (fold_left Z.add (k ++ d) (Z.of_nat i)) mod 256) (seq 0 64).

Definition ascii_toupper (c : Z) : Z :=
  if (97 <=? c) && (c <=? 122) then c - 32 else c.

(** Every step succeeds; E_P24 is the DES construction; the character set
    is ISO 8859-1, where a character and its code unit coincide; the random
    source hands out a fixed challenge. *)
Definition ref_kernel : kernel := {|
  crypto_alloc_shash_err := fun _ => 0;
  kmalloc_ok := fun _ => true;
  sdesc_size := fun _ => 512;
  setkey_err := fun _ _ => 0;
  init_err := fun _ _ => 0;
  update_err := fun _ _ _ => 0;
  final_err := fun _ _ _ => 0;
  shash_mac := fun _ k d => sum_mac k d;
  E_P24 := fun p21 c8 => (0, SmbDes.E_P24 p21 c8);
  smb_mdfour := fun b => sum_mac [] b;
  strtoUTF16 := fun _ s => s;
  UniToupper := ascii_toupper;
  strndup_from_utf16 := fun _ u => Some (map (fun w => w mod 256) u);
  get_random_bytes := fun _ => [0x01; 0x23; 0x45; 0x67; 0x89; 0xab; 0x00; 0x29]
|}.

(** The NT hash of the password "Password". *)
Definition nthash_Password : bytes :=
  [0xa4; 0xf4; 0x9c; 0x40; 0x65; 0x10; 0xbd; 0xca;
   0xb6; 0x82; 0x4e; 0xe7; 0xc3; 0x0f; 0xd8; 0x52].

Definition challenge0 : bytes :=
  [0x01; 0x23; 0x45; 0x67; 0x89; 0xab; 0x00; 0x29].

Definition no_crypto : mac_crypto := {|
  md5 := None; sdescmd5 := None;
  hmacmd5 := None; sdeschmacmd5 := None;
  hmacsha256 := None; sdeschmacsha256 := None;
  cmacaes := None; sdesccmacaes := None;
  sha512 := None; sdescsha512 := None
|}.

(** A connection that has not used any transform yet. *)
Definition srv0 : tcp_server_info := {|
  secmech := no_crypto;
  dialect := SMB311_PROT_ID;
  srv_Preauth_HashValue := repeat 0 64;
  local_nls := 0
|}.

(** A session of the user "User" with password "Password", after the
    challenge [challenge0] was sent. *)
Definition sess0 : cifssrv_sess := {|
  server := srv0;
  usr := {| name := chars "User"; passkey := nthash_Password |};
  ntlmssp := {| client_flags := 0; cryptkey := challenge0 |};
  sess_key := repeat 0 40;
  sequence_number := 0;
  Preauth_HashValue := repeat 0 64
|}.

(** The same session once the HMAC-MD5 transform has been allocated. *)
Definition sess1 : cifssrv_sess :=
  with_server sess0
    (with_secmech srv0
       (set_sdesc HMAC_MD5 (Some []) (set_tfm HMAC_MD5 (Some []) no_crypto))).

(** A message of 12 bytes: the signature and the message type 1. *)
Definition short_negotiate : bytes := NTLMSSP_SIGNATURE ++ le32 1.

(** ** The derivations in the words of the specification *)

(** Input of the SMB3 signing-key derivation: the counter 1, the
    NUL-terminated label, one zero byte, the context and the length 128, the
    two numbers as 4-byte big-endian values.  The context of the dialects
    before 3.1.1 is the string literal "SmbSign" as C stores it, with its
    terminating NUL. *)
Definition signing_label (d : Z) : bytes :=
  if d =? SMB311_PROT_ID
  then chars "SMBSigningKey" ++ [0]
  else chars "SMB2AESCMAC" ++ [0].

Definition signing_context (d : Z) (preauth_hash : bytes) : bytes :=
  if d =? SMB311_PROT_ID then firstn 64 preauth_hash else literal "SmbSign".

Definition signing_kdf_input (d : Z) (preauth_hash : bytes) : bytes :=
  be32 1 ++ signing_label d ++ [0] ++ signing_context d preauth_hash
    ++ be32 128.

(** The leftmost [key_size] bytes of the 32-byte HMAC-SHA256 value. *)
Definition derive_smb3_signing_key (kern : kernel) (session_key : bytes)
    (d : Z) (preauth_hash : bytes) (key_size : Z) : bytes :=
  firstn (Z.to_nat key_size)
    (fit 32 (shash_mac kern HMAC_SHA256 session_key
               (signing_kdf_input d preauth_hash))).

(** ** NTLMv1 in closed form *)

(** The 21-byte key, the status and the 24 bytes of E_P24, and the 40-byte
    session key process_ntlm stores. *)
Definition ntlm_p21 (sess : cifssrv_sess) : bytes :=
  firstn 16 (passkey (usr sess)) ++ [0; 0; 0; 0; 0].

Definition ntlm_status (kern : kernel) (sess : cifssrv_sess) : Z :=
  fst (E_P24 kern (ntlm_p21 sess) (firstn 8 (cryptkey (ntlmssp sess)))).

Definition ntlm_response (kern : kernel) (sess : cifssrv_sess) : bytes :=
  fit 24
    (snd (E_P24 kern (ntlm_p21 sess) (firstn 8 (cryptkey (ntlmssp sess))))).

Definition ntlm_sess_key (kern : kernel) (sess : cifssrv_sess) : bytes :=
  fit 16 (smb_mdfour kern (firstn 16 (passkey (usr sess))))
    ++ ntlm_response kern sess.

(** The session after process_ntlm has stored the key and the sequence
    number. *)
Definition ntlm_committed (kern : kernel) (sess : cifssrv_sess)
  : cifssrv_sess :=
  with_sequence_number
    (with_sess_key sess
       (ntlm_sess_key kern sess ++ skipn 40 (sess_key sess))) 1.

(** The response of the user of [sess0] to [challenge0]; its first byte is
    zero. *)
Definition response0 : bytes :=
  [0x00; 0x07; 0x8e; 0xa8; 0x11; 0x7f; 0x3f; 0xc5; 0xab; 0xf8; 0x5a; 0x07;
   0xf0; 0xa3; 0xdc; 0xe8; 0xc7; 0x5f; 0x6c; 0xb3; 0x57; 0x5c; 0xcb; 0xa9].

(** An NTLMv2 response whose 16-byte value is wrong, followed by a blob of
    8 bytes. *)
Definition wrong_ntlmv2 : bytes := repeat 0xff 16 ++ [1; 1; 0; 0; 0; 0; 0; 0].

(** What process_ntlmv2 leaves in a session whose key was [k0] and whose
    sequence number was [n0]: the sequence number as it was, and the key
    either as it was or overwritten by compute_sess_key, in which case the
    status is the result of comparing the client's value with the computed
    response [rsp]. *)
Definition ntlmv2_post (kern : kernel) (ntlmv2 : bytes) (k0 : bytes) (n0 : Z)
    (rc : Z) (s' : cifssrv_sess) : Prop :=
  sequence_number s' = n0
  /\ (sess_key s' = k0
      \/ exists hash rsp,
           sess_key s'
           = digest kern HMAC_MD5 (firstn 16 hash) (firstn 16 rsp)
               ++ skipn 16 k0
           /\ rc = bytes_diff (firstn 16 ntlmv2) (firstn 16 rsp)).

(** ** Partial correctness of a call *)

(** [wp m Q s]: if the call [m] returns from state [s], its result and
    final state satisfy [Q]. *)
Definition wp {S A : Type} (m : St S A) (Q : A -> S -> Prop) (s : S) : Prop :=
  match m s with
  | Ret (a, s') => Q a s'
  | Fault => True
  end.

(** A call that leaves the session key and the sequence number alone. *)
Definition keeps {A : Type} (m : St cifssrv_sess A) : Prop :=
  forall s a s',
    m s = Ret (a, s') ->
    sess_key s' = sess_key s /\ sequence_number s' = sequence_number s.

(** The sentence "no session state is committed when verification fails",
    for both verifiers. *)
Definition commits_nothing_on_failure (kern : kernel) (netbios_name : bytes)
  : Prop :=
  (forall sess pw_buf rc sess',
      process_ntlm kern pw_buf sess = Ret (rc, sess') -> rc <> 0 ->
      sess_key sess' = sess_key sess
      /\ sequence_number sess' = sequence_number sess)
  /\ (forall sess ntlmv2 blen domain_name rc sess',
         process_ntlmv2 kern netbios_name ntlmv2 blen domain_name sess
         = Ret (rc, sess') -> rc <> 0 ->
         sess_key sess' = sess_key sess
         /\ sequence_number sess' = sequence_number sess).

(** ** Authenticate messages *)

(** The security buffers of an authenticate message that decoding uses. *)
Definition auth_nt_len (authblob : bytes) : Z :=
  le_val (firstn 2 (skipn 20 authblob)).
Definition auth_nt_off (authblob : bytes) : Z :=
  le_val (firstn 4 (skipn 24 authblob)).
Definition auth_dom_len (authblob : bytes) : Z :=
  le_val (firstn 2 (skipn 28 authblob)).
Definition auth_dom_off (authblob : bytes) : Z :=
  le_val (firstn 4 (skipn 32 authblob)).

Definition secbuf (length offset : Z) : bytes :=
  le16 length ++ le16 length ++ le32 offset.

(** An authenticate message with the given NtChallengeResponse and
    DomainName buffers, all other buffers empty, followed by [tail]. *)
Definition auth_message (ntlen ntoff dlen doff : Z) (tail : bytes) : bytes :=
  NTLMSSP_SIGNATURE ++ le32 3
    ++ secbuf 0 0 ++ secbuf ntlen ntoff ++ secbuf dlen doff
    ++ secbuf 0 0 ++ secbuf 0 0 ++ secbuf 0 0 ++ le32 0 ++ tail.

(** The NTLMv1 response of [sess0], carried right after the header. *)
Definition good_ntlm_message : bytes := auth_message 24 64 0 64 response0.

(** A header alone, 64 bytes, whose 24-byte NtChallengeResponse is said to
    start at offset 64. *)
Definition oob_ntlm_message : bytes := auth_message 24 64 0 64 [].

(** 104 bytes, with a 2-byte DomainName said to start at offset 200. *)
Definition oob_domain_message : bytes :=
  auth_message 40 64 2 200 (repeat 0xff 40).

(** An NtChallengeResponse of 8 bytes: shorter than an NTLMv2 hash. *)
Definition short_ntlmv2_message : bytes :=
  auth_message 8 64 0 72 (repeat 0xff 8).

(** ** The target-info list in the words of the specification *)

(** One attribute: its type, the length of its content, its content. *)
Definition av_pair (type : Z) (content : bytes) : bytes :=
  le16 type ++ le16 (len content) ++ content.

(** One attribute per type from NetBIOS computer name to DNS domain name,
    each with the encoded server name, then the terminator. *)
Definition target_info_list (name : bytes) : bytes :=
  flat_map (fun type => av_pair type name)
    [NTLMSSP_AV_NB_COMPUTER_NAME; NTLMSSP_AV_NB_DOMAIN_NAME;
     NTLMSSP_AV_DNS_COMPUTER_NAME; NTLMSSP_AV_DNS_DOMAIN_NAME]
    ++ av_pair 0 [].

(** The attributes of [n] consecutive types from [type] on. *)
Fixpoint av_pairs (n : nat) (type : Z) (content : bytes) : bytes :=
  match n with
  | O => []
  | S n' => av_pair type content ++ av_pairs n' (type + 1) content
  end.

(** ** The allocators, by transform *)

Definition crypto_alloc (kern : kernel) (a : shash_alg)
  : St tcp_server_info Z :=
  match a with
  | MD5 => crypto_md5_alloc kern
  | HMAC_MD5 => crypto_hmacmd5_alloc kern
  | HMAC_SHA256 => crypto_hmacsha256_alloc kern
  | CMAC_AES => crypto_cmac_alloc kern
  | SHA512 => crypto_sha512_alloc kern
  end.

(** The slot of a transform is allocated: transform and descriptor. *)
Definition allocated (a : shash_alg) (srv : tcp_server_info) : Prop :=
  get_tfm a (secmech srv) <> None /\ get_sdesc a (secmech srv) <> None.

(** What a call may do to a connection: nothing outside the transforms;
    a well-formed connection stays well-formed and an allocated slot stays
    allocated. *)
Definition srv_step (srv srv' : tcp_server_info) : Prop :=
  dialect srv' = dialect srv
  /\ srv_Preauth_HashValue srv' = srv_Preauth_HashValue srv
  /\ local_nls srv' = local_nls srv
  /\ (wf_server srv ->
      wf_server srv' /\ forall a, allocated a srv -> allocated a srv').

(** What a call may do to a session besides: the user and the preauth hash
    of the session stay, and the connection takes a [srv_step]. *)
Definition conn_step (s s' : cifssrv_sess) : Prop :=
  usr s' = usr s
  /\ Preauth_HashValue s' = Preauth_HashValue s
  /\ srv_step (server s) (server s').

(** A call that works on the transforms only. *)
Definition crypto_step (s s' : cifssrv_sess) : Prop :=
  conn_step s s'
  /\ ntlmssp s' = ntlmssp s
  /\ sess_key s' = sess_key s
  /\ sequence_number s' = sequence_number s.

Definition srv_quiet {A : Type} (m : St tcp_server_info A) : Prop :=
  forall srv a srv', m srv = Ret (a, srv') -> srv_step srv srv'.

(** ** Sequences of calls *)

(** The calls auth.c offers on a session, with their arguments. *)
Inductive auth_call : Type :=
| Decode_negotiate (negblob : bytes) (blob_len : Z)
| Build_challenge (chgblob : bytes)
| Decode_authenticate (authblob : bytes) (blob_len : Z)
| Process_ntlm (pw_buf : bytes)
| Process_ntlmv2 (ntlmv2 : bytes) (blen : Z) (domain_name : char_ptr)
| Compute_sess_key (hash hmac : bytes)
| Smb1_sign (buf : bytes) (sz : Z) (sig : bytes)
| Smb2_sign (buf : bytes) (sz : Z) (sig : bytes)
| Compute_smb3xsigningkey (key : bytes) (key_size : Z).

Definition call (kern : kernel) (netbios_name : bytes) (c : auth_call)
  : St cifssrv_sess unit :=
  match c with
  | Decode_negotiate negblob blob_len =>
      decode_ntlmssp_negotiate_blob negblob blob_len ;; ret tt
  | Build_challenge chgblob =>
      build_ntlmssp_challenge_blob kern netbios_name chgblob ;; ret tt
  | Decode_authenticate authblob blob_len =>
      decode_ntlmssp_authenticate_blob kern netbios_name authblob blob_len ;;
      ret tt
  | Process_ntlm pw_buf => process_ntlm kern pw_buf ;; ret tt
  | Process_ntlmv2 ntlmv2 blen domain_name =>
      process_ntlmv2 kern netbios_name ntlmv2 blen domain_name ;; ret tt
  | Compute_sess_key hash hmac => compute_sess_key kern hash hmac ;; ret tt
  | Smb1_sign buf sz sig => smb1_sign_smbpdu kern buf sz sig ;; ret tt
  | Smb2_sign buf sz sig => smb2_sign_smbpdu kern buf sz sig ;; ret tt
  | Compute_smb3xsigningkey key key_size =>
      compute_smb3xsigningkey kern key key_size ;; ret tt
  end.

(** The calls of a list, one after the other, whatever their statuses. *)
Fixpoint calls (kern : kernel) (netbios_name : bytes) (cs : list auth_call)
  : St cifssrv_sess unit :=
  match cs with
  | [] => ret tt
  | c :: cs' => call kern netbios_name c ;; calls kern netbios_name cs'
  end.

(** A negotiate message with the given flags and empty buffers. *)
Definition negotiate_message (flags : Z) : bytes :=
  NTLMSSP_SIGNATURE ++ le32 1 ++ le32 flags ++ secbuf 0 0 ++ secbuf 0 0.

(** A handshake of the user of [sess0] over NTLMv1, then two signatures. *)
Definition handshake0 : list auth_call :=
  [ Decode_negotiate (negotiate_message NTLMSSP_REQUEST_TARGET) 32;
    Build_challenge (repeat 0 120);
    Decode_authenticate good_ntlm_message 88;
    Smb1_sign (chars "pdu") 3 (repeat 0 16);
    Compute_smb3xsigningkey (repeat 0 16) 16 ].

(** A channel on a connection whose CMAC-AES transform is allocated. *)
Definition chann0 : channel := {|
  chann_server :=
    with_secmech srv0
      (set_sdesc CMAC_AES (Some []) (set_tfm CMAC_AES (Some []) no_crypto));
  smb3signingkey := repeat 5 16
|}.

(** ** NTLMv2 in closed form *)

(** The NTLMv2 hash of the user of a session for the target name [d], the
    response to the challenge of the session for a client blob, and the
    session key derived from the two. *)
Definition ntlmv2_hash (kern : kernel) (sess : cifssrv_sess) (d : bytes)
  : bytes :=
  digest kern HMAC_MD5 (firstn 16 (passkey (usr sess)))
    (le16s (UniStrupr kern
              (strtoUTF16 kern (local_nls (server sess)) (name (usr sess))))
     ++ le16s (strtoUTF16 kern (local_nls (server sess)) d)).

Definition ntlmv2_response (kern : kernel) (sess : cifssrv_sess)
    (d blob : bytes) : bytes :=
  digest kern HMAC_MD5 (ntlmv2_hash kern sess d)
    (firstn 8 (cryptkey (ntlmssp sess)) ++ blob).

Definition ntlmv2_sess_key (kern : kernel) (sess : cifssrv_sess)
    (d blob : bytes) : bytes :=
  digest kern HMAC_MD5 (ntlmv2_hash kern sess d)
    (ntlmv2_response kern sess d blob).

(** A client blob of 8 bytes, and the NTLMv2 response of the user of
    [sess0] for it and for the target name "FSRV". *)
Definition blob0 : bytes := [1; 1; 0; 0; 0; 0; 0; 0].

Definition good_ntlmv2 : bytes :=
  ntlmv2_response ref_kernel sess0 (chars "FSRV") blob0 ++ blob0.

(** ** The flags of a challenge message *)

(** What the server always announces, and the echo of the client's
    request for a target name. *)
Definition challenge_base_flags : Z :=
  Z.lor NTLMSSP_NEGOTIATE_UNICODE
    (Z.lor NTLMSSP_NEGOTIATE_NTLM
       (Z.lor NTLMSSP_TARGET_TYPE_SERVER
          (Z.lor NTLMSSP_NEGOTIATE_TARGET_INFO
             (Z.lor NTLMSSP_NEGOTIATE_128
                (Z.lor NTLMSSP_NEGOTIATE_56 NTLMSSP_NEGOTIATE_VERSION))))).

Definition challenge_flags (cflags : Z) : Z :=
  if Z.land cflags NTLMSSP_REQUEST_TARGET =? 0
  then challenge_base_flags
  else Z.lor challenge_base_flags NTLMSSP_REQUEST_TARGET.

(** * Properties *)

(** ** Lists, lengths and memory accesses *)

Lemma len_nonneg (b : bytes) : 0 <= len b.
Proof. unfold len. lia. Qed.

Lemma len_app (a b : bytes) : len (a ++ b) = len a + len b.
Proof. unfold len. rewrite length_app. lia. Qed.

Lemma len_repeat (c : Z) (n : nat) : len (repeat c n) = Z.of_nat n.
Proof. unfold len. now rewrite repeat_length. Qed.

Lemma len_firstn (n : Z) (b : bytes) :
  0 <= n <= len b -> len (firstn (Z.to_nat n) b) = n.
Proof. unfold len. intros H. rewrite length_firstn. lia. Qed.

Lemma len_skipn (n : Z) (b : bytes) :
  0 <= n <= len b -> len (skipn (Z.to_nat n) b) = len b - n.
Proof. unfold len. intros H. rewrite length_skipn. lia. Qed.

Lemma length_fit (n : nat) (b : bytes) : length (fit n b) = n.
Proof.
  unfold fit. rewrite length_firstn, length_app, repeat_length. lia.
Qed.

Lemma len_fit (n : nat) (b : bytes) : len (fit n b) = Z.of_nat n.
Proof. unfold len. now rewrite length_fit. Qed.

Lemma fit_exact (n : nat) (b : bytes) : length b = n -> fit n b = b.
Proof.
  intros H. unfold fit. rewrite firstn_app, H, Nat.sub_diag. simpl.
  rewrite app_nil_r. rewrite <- H. apply firstn_all.
Qed.

Lemma load_ok (p : bytes) (n : Z) :
  0 <= n <= len p -> load p n = Ret (firstn (Z.to_nat n) p).
Proof.
  intros [H0 H1]. unfold load.
  apply Z.leb_le in H0. apply Z.leb_le in H1. now rewrite H0, H1.
Qed.

Lemma load_all (p : bytes) : load p (len p) = Ret p.
Proof.
  rewrite load_ok by (pose proof (len_nonneg p); lia).
  unfold len. now rewrite Nat2Z.id, firstn_all.
Qed.

Lemma load_fault (p : bytes) (n : Z) : len p < n -> load p n = Fault.
Proof.
  intros H. unfold load. apply Z.leb_gt in H. rewrite H.
  now rewrite andb_false_r.
Qed.

Lemma store_ok (dst : bytes) (off : Z) (src : bytes) :
  0 <= off -> off + len src <= len dst ->
  store dst off src
  = Ret (firstn (Z.to_nat off) dst ++ src
           ++ skipn (Z.to_nat off + length src) dst).
Proof.
  intros H0 H1. unfold store.
  apply Z.leb_le in H0. apply Z.leb_le in H1. now rewrite H0, H1.
Qed.

Lemma store_len (dst : bytes) (off : Z) (src dst' : bytes) :
  store dst off src = Ret dst' -> len dst' = len dst.
Proof.
  unfold store.
  destruct (0 <=? off) eqn:H0; [|discriminate].
  destruct (off + len src <=? len dst) eqn:H1; [|discriminate].
  simpl. intros E. injection E as <-.
  apply Z.leb_le in H0. apply Z.leb_le in H1.
  unfold len in *.
  rewrite !length_app, length_firstn, length_skipn. lia.
Qed.

Lemma memset_ok (dst : bytes) (c n : Z) :
  0 <= n <= len dst ->
  memset dst c n = Ret (repeat c (Z.to_nat n) ++ skipn (Z.to_nat n) dst).
Proof.
  intros [H0 H1]. unfold memset.
  apply Z.leb_le in H0. apply Z.leb_le in H1. now rewrite H0, H1.
Qed.

Lemma memcpy_ok (dst src : bytes) (n : Z) :
  0 <= n -> n <= len src -> n <= len dst ->
  memcpy dst src n
  = Ret (firstn (Z.to_nat n) src ++ skipn (Z.to_nat n) dst).
Proof.
  intros H0 H1 H2. unfold memcpy. rewrite load_ok by lia. simpl.
  rewrite store_ok; rewrite ?len_firstn by lia; try lia.
  simpl. f_equal. f_equal. f_equal.
  rewrite length_firstn. unfold len in H1. lia.
Qed.

Lemma bytes_diff_refl (a : bytes) : bytes_diff a a = 0.
Proof. induction a; simpl; [reflexivity|]. now rewrite Z.eqb_refl. Qed.

Lemma bytes_diff_eq (a b : bytes) :
  length a = length b -> bytes_diff a b = 0 -> a = b.
Proof.
  revert b. induction a as [|x a IH]; intros [|y b] L D; simpl in *;
    try discriminate; try reflexivity.
  destruct (Z.eqb_spec x y) as [->|N].
  - f_equal. apply IH; [lia | assumption].
  - lia.
Qed.

Lemma to_size_t_small (z : Z) : 0 <= z < 2 ^ 64 -> to_size_t z = z.
Proof. intros H. unfold to_size_t. now apply Z.mod_small. Qed.

Lemma to_u32_small (z : Z) : 0 <= z < 2 ^ 32 -> to_u32 z = z.
Proof. intros H. unfold to_u32. now apply Z.mod_small. Qed.

Lemma to_u32_to_int (z : Z) : 0 <= z < 2 ^ 32 -> to_u32 (to_int z) = z.
Proof.
  intros H. unfold to_u32, to_int.
  rewrite Zminus_mod_idemp_l.
  replace (z + 2 ^ 31 - 2 ^ 31) with z by lia.
  now apply Z.mod_small.
Qed.

(** ** Running the calls *)

Lemma store_0 (dst src : bytes) :
  len src <= len dst -> store dst 0 src = Ret (src ++ skipn (length src) dst).
Proof.
  intros H. rewrite store_ok; [reflexivity | lia | lia].
Qed.

Lemma store_whole (dst src : bytes) :
  length src = length dst -> store dst 0 src = Ret src.
Proof.
  intros H. rewrite store_0 by (unfold len; lia).
  rewrite H, skipn_all, app_nil_r. reflexivity.
Qed.

Lemma len_memset_image (key : bytes) (c n : Z) :
  0 <= n <= len key ->
  len (repeat c (Z.to_nat n) ++ skipn (Z.to_nat n) key) = len key.
Proof.
  intros H. rewrite len_app, len_repeat, len_skipn by lia. lia.
Qed.

Lemma skipn_memset_image (key : bytes) (c n : Z) :
  0 <= n <= len key ->
  skipn (Z.to_nat n) (repeat c (Z.to_nat n) ++ skipn (Z.to_nat n) key)
  = skipn (Z.to_nat n) key.
Proof.
  intros H. rewrite skipn_app, repeat_length, Nat.sub_diag.
  rewrite skipn_all2 by (rewrite repeat_length; lia). reflexivity.
Qed.

Lemma firstn_prefix (n : nat) (a b : bytes) :
  length a = n -> firstn n (a ++ b) = a.
Proof.
  intros H. rewrite firstn_app, H, Nat.sub_diag. simpl.
  rewrite app_nil_r. rewrite <- H. apply firstn_all.
Qed.

Lemma skipn_prefix (n : nat) (a b : bytes) :
  length a = n -> skipn n (a ++ b) = b.
Proof.
  intros H. rewrite skipn_app, H, Nat.sub_diag. simpl.
  rewrite <- H, skipn_all. reflexivity.
Qed.

Section Run.
Context {S A B : Type}.

Lemma bind_run (m : St S A) (k : A -> St S B) (s : S) :
  bind m k s = match m s with Ret (a, s') => k a s' | Fault => Fault end.
Proof. reflexivity. Qed.

Lemma ret_run (a : A) (s : S) : ret a s = Ret (a, s).
Proof. reflexivity. Qed.

Lemma lift_run (o : outcome A) (s : S) :
  lift o s = match o with Ret a => Ret (a, s) | Fault => Fault end.
Proof. reflexivity. Qed.

Lemma get_run (s : S) : get s = Ret (s, s).
Proof. reflexivity. Qed.

Lemma put_run (s0 s : S) : put s0 s = Ret (tt, s0).
Proof. reflexivity. Qed.
End Run.

Lemma on_server_run {A} (m : St tcp_server_info A) (s : cifssrv_sess) :
  on_server m s = match m (server s) with
                  | Ret (a, srv) => Ret (a, with_server s srv)
                  | Fault => Fault
                  end.
Proof. reflexivity. Qed.

Lemma setkey_run kern a key n srv :
  crypto_shash_setkey kern a key n srv =
  match get_tfm a (secmech srv) with
  | None => Fault
  | Some _ =>
      match load key n with
      | Fault => Fault
      | Ret k =>
          if setkey_err kern a k =? 0
          then Ret (0, with_secmech srv (set_tfm a (Some k) (secmech srv)))
          else Ret (setkey_err kern a k, srv)
      end
  end.
Proof. reflexivity. Qed.

Lemma init_run kern a srv :
  crypto_shash_init kern a srv =
  match get_sdesc a (secmech srv), get_tfm a (secmech srv) with
  | Some _, Some k =>
      if init_err kern a k =? 0
      then Ret (0, with_secmech srv (set_sdesc a (Some []) (secmech srv)))
      else Ret (init_err kern a k, srv)
  | _, _ => Fault
  end.
Proof. reflexivity. Qed.

Lemma update_run kern a data n srv :
  crypto_shash_update kern a data n srv =
  match get_sdesc a (secmech srv), get_tfm a (secmech srv) with
  | Some absorbed, Some k =>
      match load data n with
      | Fault => Fault
      | Ret d =>
          if update_err kern a absorbed d =? 0
          then Ret (0, with_secmech srv
                         (set_sdesc a (Some (absorbed ++ d)) (secmech srv)))
          else Ret (update_err kern a absorbed d, srv)
      end
  | _, _ => Fault
  end.
Proof. reflexivity. Qed.

Lemma final_run kern a out srv :
  crypto_shash_final kern a out srv =
  match get_sdesc a (secmech srv), get_tfm a (secmech srv) with
  | Some absorbed, Some k =>
      if final_err kern a k absorbed =? 0
      then match store out 0 (digest kern a k absorbed) with
           | Ret out' => Ret ((0, out'), srv)
           | Fault => Fault
           end
      else Ret ((final_err kern a k absorbed, out), srv)
  | _, _ => Fault
  end.
Proof. reflexivity. Qed.

Lemma length_digest kern a k d : length (digest kern a k d) = digestsize a.
Proof. unfold digest. apply length_fit. Qed.

Lemma len_digest kern a k d :
  len (digest kern a k d) = Z.of_nat (digestsize a).
Proof. unfold len. now rewrite length_digest. Qed.

Lemma kzalloc_run kern (size : Z) :
  kzalloc kern size
  = if kmalloc_ok kern (to_size_t size)
    then Some (repeat 0 (Z.to_nat (to_size_t size)))
    else None.
Proof. reflexivity. Qed.

Create Rewrite HintDb run.
#[export] Hint Rewrite @bind_run @ret_run @lift_run @get_run @put_run
  @on_server_run setkey_run init_run update_run final_run kzalloc_run : run.

(** *** Allocation *)

Lemma alloc_post_same kern a srv k d :
  wf_server srv ->
  get_tfm a (secmech srv) = Some k -> get_sdesc a (secmech srv) = Some d ->
  alloc_post kern a srv 0 srv.
Proof.
  intros WF T D. repeat split; auto; try apply WF. intros _. eauto.
Qed.

Lemma alloc_post_set kern a srv v w rc :
  wf_server srv ->
  (v = None <-> w = None) ->
  (rc = 0 -> exists k d, v = Some k /\ w = Some d) ->
  (always_succeeds kern -> rc = 0) ->
  alloc_post kern a srv rc
    (with_secmech srv (set_tfm a v (set_sdesc a w (secmech srv)))).
Proof.
  intros WF VW OK AS. unfold alloc_post.
  split; [|split; [|split; [|split; [|split; [|split]]]]];
    try reflexivity; try assumption.
  - intros a0. specialize (WF a0). unfold paired in *.
    destruct a, a0; cbn in *; intuition congruence.
  - intros b NE. destruct a, b; cbn; split; congruence.
  - intros Z. destruct (OK Z) as (k & d & -> & ->). exists k, d.
    destruct a; cbn; split; reflexivity.
Qed.

Lemma shash_alloc_post kern a srv :
  wf_server srv -> get_sdesc a (secmech srv) = None ->
  exists rc srv', shash_alloc kern a srv = Ret (rc, srv')
                  /\ alloc_post kern a srv rc srv'.
Proof.
  intros WF N. unfold shash_alloc.
  assert (SW : forall v w,
             set_sdesc a w (set_tfm a v (secmech srv))
             = set_tfm a v (set_sdesc a w (secmech srv))).
  { intros v w. destruct a; reflexivity. }
  assert (NS : set_tfm a None (secmech srv)
               = set_tfm a None (set_sdesc a None (secmech srv))).
  { destruct (secmech srv); destruct a; cbn in *; now rewrite N. }
  destruct (crypto_alloc_shash_err kern a =? 0) eqn:E; simpl.
  - destruct (kmalloc_ok kern (to_u32 (sdesc_size kern a))) eqn:M.
    + do 2 eexists. split; [reflexivity|]. rewrite SW.
      apply alloc_post_set; auto.
      * intuition congruence.
      * intros _. exists [], []. split; reflexivity.
    + do 2 eexists. split; [reflexivity|].
      apply alloc_post_set; auto.
      * tauto.
      * unfold ENOMEM. lia.
      * intros OK. rewrite (ok_kmalloc _ OK) in M. discriminate.
  - do 2 eexists. split; [reflexivity|]. rewrite NS.
    apply Z.eqb_neq in E.
    apply alloc_post_set; auto.
    + tauto.
    + congruence.
    + intros OK. apply (ok_alloc _ OK).
Qed.

Lemma slot_empty a srv :
  wf_server srv ->
  get_tfm a (secmech srv) = None \/ get_sdesc a (secmech srv) = None ->
  get_sdesc a (secmech srv) = None.
Proof. intros WF [H|H]; [apply (WF a), H | exact H]. Qed.

Lemma slot_full a srv x :
  wf_server srv ->
  get_tfm a (secmech srv) = Some x \/ get_sdesc a (secmech srv) = Some x ->
  exists k d, get_tfm a (secmech srv) = Some k
              /\ get_sdesc a (secmech srv) = Some d.
Proof.
  intros WF H. specialize (WF a). unfold paired in WF.
  destruct (get_tfm a (secmech srv)) as [k|],
           (get_sdesc a (secmech srv)) as [d|];
    try (exists k, d; split; reflexivity);
    exfalso; intuition congruence.
Qed.

Lemma alloc_guarded kern a srv (chk : option bytes) :
  wf_server srv ->
  chk = get_tfm a (secmech srv) \/ chk = get_sdesc a (secmech srv) ->
  exists rc srv',
    match chk with
    | Some _ => Ret (0, srv)
    | None => shash_alloc kern a srv
    end = Ret (rc, srv')
    /\ alloc_post kern a srv rc srv'.
Proof.
  intros WF C. destruct chk as [x|].
  - destruct (slot_full a srv x WF) as (k & d & T & D).
    { destruct C as [C|C]; rewrite <- C; auto. }
    do 2 eexists. split; [reflexivity | eapply alloc_post_same; eauto].
  - apply shash_alloc_post; [exact WF|].
    apply slot_empty; [exact WF|]. destruct C as [C|C]; rewrite <- C; auto.
Qed.

Lemma crypto_hmacmd5_alloc_post kern srv :
  wf_server srv ->
  exists rc srv', crypto_hmacmd5_alloc kern srv = Ret (rc, srv')
                  /\ alloc_post kern HMAC_MD5 srv rc srv'.
Proof. intros WF. apply alloc_guarded; auto. Qed.

Lemma crypto_hmacsha256_alloc_post kern srv :
  wf_server srv ->
  exists rc srv', crypto_hmacsha256_alloc kern srv = Ret (rc, srv')
                  /\ alloc_post kern HMAC_SHA256 srv rc srv'.
Proof. intros WF. apply alloc_guarded; auto. Qed.

Lemma crypto_cmac_alloc_post kern srv :
  wf_server srv ->
  exists rc srv', crypto_cmac_alloc kern srv = Ret (rc, srv')
                  /\ alloc_post kern CMAC_AES srv rc srv'.
Proof. intros WF. apply alloc_guarded; auto. Qed.

Lemma crypto_sha512_alloc_post kern srv :
  wf_server srv ->
  exists rc srv', crypto_sha512_alloc kern srv = Ret (rc, srv')
                  /\ alloc_post kern SHA512 srv rc srv'.
Proof. intros WF. apply alloc_guarded; auto. Qed.

Lemma wf_srv0 : wf_server srv0.
Proof. intros a. unfold paired. destruct a; cbn; tauto. Qed.

Lemma ref_kernel_succeeds : always_succeeds ref_kernel.
Proof. constructor; reflexivity. Qed.

(** *** Tactics that step through a call *)

Ltac consts :=
  unfold SMB2_NTLMV2_SESSKEY_SIZE, CIFS_ENCPWD_SIZE, CIFS_HMAC_MD5_HASH_SIZE,
    CIFS_CRYPTO_KEY_SIZE, CIFS_NTHASH_SIZE, CIFS_SMB1_SESSKEY_SIZE,
    CIFS_AUTH_RESP_SIZE, SMB2_HMACSHA256_SIZE, CIFS_SESS_KEY_SIZE in *.

(** States in normal form: explicit records, projections reduced. *)
Ltac simp :=
  cbv beta iota delta [with_secmech with_server with_sess_key
                       with_sequence_number with_ntlmssp set_tfm set_sdesc];
  cbn [get_tfm get_sdesc
       secmech dialect srv_Preauth_HashValue local_nls
       server usr ntlmssp sess_key sequence_number Preauth_HashValue
       md5 sdescmd5 hmacmd5 sdeschmacmd5 hmacsha256 sdeschmacsha256
       cmacaes sdesccmacaes sha512 sdescsha512
       name passkey client_flags cryptkey
       fst snd negb digestsize app].

(** Evaluate the memory accesses whose arguments are closed terms. *)
Ltac closed_Z n :=
  lazymatch n with
  | Z0 => idtac
  | Zpos _ => idtac
  | Zneg _ => idtac
  | SMB2_HMACSHA256_SIZE => idtac
  | CIFS_CRYPTO_KEY_SIZE => idtac
  | to_u32 ?x => closed_Z x
  | UNICODE_LEN ?x => closed_Z x
  | len nil => idtac
  end.

Ltac closed_bytes p :=
  lazymatch p with
  | nil => idtac
  | cons ?x ?t => closed_Z x; closed_bytes t
  | literal _ => idtac
  | local_buf _ => idtac
  | NTLMSSP_SIGNATURE => idtac
  | le16s nil => idtac
  end.

Ltac eval_closed :=
  repeat match goal with
    | |- context [load ?p ?n] =>
        closed_bytes p; closed_Z n;
        let v := eval vm_compute in (load p n) in
        change (load p n) with v
    | |- context [memset ?p ?c ?n] =>
        closed_bytes p; closed_Z c; closed_Z n;
        let v := eval vm_compute in (memset p c n) in
        change (memset p c n) with v
    end.

(** Lengths of closed buffers. *)
Ltac lens :=
  repeat match goal with
    | |- context [len ?l] =>
        closed_bytes l;
        let v := eval vm_compute in (len l) in
        change (len l) with v
    end.

Ltac known :=
  match goal with
  | H : ?x = Some _ |- context [?x] => rewrite H
  | H : ?x = None |- context [?x] => rewrite H
  | H : ?x = true |- context [?x] => rewrite H
  | H : ?x = false |- context [?x] => rewrite H
  | H : ?x = Ret _ |- context [?x] => rewrite H
  end.

Ltac head_step :=
  first
    [ progress (autorewrite with run)
    | known
    | progress eval_closed
    | match goal with
      | |- context [load ?p ?n] =>
          rewrite (load_ok p n) by (consts; lia)
      | |- context [0 =? 0] => change (0 =? 0) with true
      | |- context [- ENOMEM =? 0] => change (- ENOMEM =? 0) with false
      | |- context [- EINVAL =? 0] => change (- EINVAL =? 0) with false
      | |- context [-1 =? 0] => change (-1 =? 0) with false
      end
    | match goal with
      | |- context [if ?b then _ else _] =>
          lazymatch type of b with bool => destruct b eqn:? end
      end ].

Ltac exec := simp; repeat (head_step; simp).

(** Run an allocator through its postcondition. *)
Tactic Notation "alloc_step" constr(L) constr(WF)
    "as" ident(rc) ident(srv) ident(E) ident(P) ident(R) :=
  destruct (L _ WF) as (rc & srv & E & P);
  rewrite bind_run, on_server_run; simp; rewrite E; simp;
  destruct (rc =? 0) eqn:R.

Ltac ok_tac :=
  let OK := fresh "OK" in
  intros OK;
  first [ reflexivity
        | apply (ok_setkey _ OK) | apply (ok_init _ OK)
        | apply (ok_update _ OK) | apply (ok_final _ OK)
        | apply (ok_alloc _ OK) | apply (ok_E_P24 _ OK)
        | exfalso;
          match goal with
          | H : kmalloc_ok _ _ = false |- _ =>
              rewrite (ok_kmalloc _ OK) in H; discriminate
          end
        | auto ].

(** The status of a failed step is not 0. *)
Ltac failed := first [ assumption | reflexivity ].

(** ** Malformed NTLMSSP messages *)

Lemma ptr_add_0 (p : bytes) : ptr_add p 0 = p.
Proof. reflexivity. Qed.

Lemma memcmp_signature (buf : bytes) :
  8 <= len buf ->
  memcmp buf (literal "NTLMSSP") 8
  = Ret (bytes_diff (firstn 8 buf) NTLMSSP_SIGNATURE).
Proof.
  intros H. unfold memcmp. rewrite load_ok by lia. simpl. reflexivity.
Qed.

Lemma signature_diff (buf : bytes) :
  8 <= len buf -> firstn 8 buf <> NTLMSSP_SIGNATURE ->
  (bytes_diff (firstn 8 buf) NTLMSSP_SIGNATURE =? 0) = false.
Proof.
  intros H N. apply Z.eqb_neq. intros D. apply N.
  apply bytes_diff_eq; [|assumption].
  rewrite length_firstn. unfold len in H.
  change (length NTLMSSP_SIGNATURE) with 8%nat. lia.
Qed.

Lemma size_check_passed (blob_len n : Z) :
  0 <= blob_len -> (to_size_t blob_len <? n) = false -> n <= blob_len.
Proof.
  intros P T. apply Z.ltb_ge in T. unfold to_size_t in T.
  pose proof (Z.mod_le blob_len (2 ^ 64)). lia.
Qed.

(** C5: a buffer shorter than the fixed size of the message, or one that
    does not start with the 8 bytes "NTLMSSP\0", makes
    decode_ntlmssp_negotiate_blob and decode_ntlmssp_authenticate_blob
    return -EINVAL with the session, and the connection inside it, exactly
    as they were: no field is extracted, nothing is verified. *)
Theorem decode_rejects_malformed (kern : kernel) (netbios_name : bytes)
    (buf : bytes) (blob_len : Z) (sess : cifssrv_sess) :
  blob_len = len buf ->
  (blob_len < Layout.sizeof_AUTHENTICATE_MESSAGE
   \/ firstn 8 buf <> NTLMSSP_SIGNATURE ->
   decode_ntlmssp_authenticate_blob kern netbios_name buf blob_len sess
   = Ret (- EINVAL, sess))
  /\ (blob_len < Layout.sizeof_NEGOTIATE_MESSAGE
      \/ firstn 8 buf <> NTLMSSP_SIGNATURE ->
      decode_ntlmssp_negotiate_blob buf blob_len sess
      = Ret (- EINVAL, sess)).
Proof.
  intros L. pose proof (len_nonneg buf) as P. split; intros H.
  - unfold decode_ntlmssp_authenticate_blob.
    destruct (to_size_t blob_len <? Layout.sizeof_AUTHENTICATE_MESSAGE) eqn:T;
      [reflexivity|].
    apply size_check_passed in T; [|lia].
    destruct H as [H|H]; [lia|].
    unfold Layout.sizeof_AUTHENTICATE_MESSAGE in T.
    unfold bind, lift. rewrite ptr_add_0.
    rewrite memcmp_signature by lia.
    rewrite signature_diff by (assumption || lia). reflexivity.
  - unfold decode_ntlmssp_negotiate_blob.
    destruct (to_size_t blob_len <? Layout.sizeof_NEGOTIATE_MESSAGE) eqn:T;
      [reflexivity|].
    apply size_check_passed in T; [|lia].
    destruct H as [H|H]; [lia|].
    unfold Layout.sizeof_NEGOTIATE_MESSAGE in T.
    unfold bind, lift. rewrite ptr_add_0.
    rewrite memcmp_signature by lia.
    rewrite signature_diff by (assumption || lia). reflexivity.
Qed.

Lemma decode_rejects_malformed_witness :
  decode_ntlmssp_authenticate_blob ref_kernel (chars "FSRV")
    short_negotiate 12 sess0 = Ret (- EINVAL, sess0)
  /\ decode_ntlmssp_negotiate_blob short_negotiate 12 sess0
     = Ret (- EINVAL, sess0).
Proof.
  destruct (decode_rejects_malformed ref_kernel (chars "FSRV")
              short_negotiate 12 sess0 eq_refl) as [A N].
  split; [apply A | apply N]; left; reflexivity.
Defined.

(** ** The SMB3 signing key *)

Lemma length_firstn_fit (n : Z) (m : nat) (b : bytes) :
  0 <= n <= Z.of_nat m -> length (firstn (Z.to_nat n) (fit m b)) = Z.to_nat n.
Proof. intros H. rewrite length_firstn, length_fit. lia. Qed.

(** The run of compute_smb3xsigningkey: the buffer is zeroed, and it
    receives the derived bytes only when the last step has succeeded. *)
Lemma smb3_key_run kern sess key key_size :
  wf_server (server sess) ->
  0 <= key_size <= len key -> key_size <= 32 ->
  16 <= len (sess_key sess) ->
  64 <= len (Preauth_HashValue sess) ->
  exists rc key' sess',
    compute_smb3xsigningkey kern key key_size sess = Ret ((rc, key'), sess')
    /\ ((rc <> 0
         /\ key' = repeat 0 (Z.to_nat key_size)
                     ++ skipn (Z.to_nat key_size) key)
        \/ (rc = 0
            /\ key' = derive_smb3_signing_key kern
                        (firstn 16 (sess_key sess)) (dialect (server sess))
                        (Preauth_HashValue sess) key_size
                        ++ skipn (Z.to_nat key_size) key))
    /\ (always_succeeds kern -> rc = 0).
Proof.
  intros WF Hk Hk32 Hs Hp.
  unfold compute_smb3xsigningkey.
  rewrite bind_run, lift_run. eval_closed. cbv beta iota.
  rewrite bind_run, lift_run, memset_ok by lia. cbv beta iota.
  set (key0 := repeat 0 (Z.to_nat key_size) ++ skipn (Z.to_nat key_size) key).
  set (good := derive_smb3_signing_key kern (firstn 16 (sess_key sess))
                 (dialect (server sess)) (Preauth_HashValue sess) key_size
                 ++ skipn (Z.to_nat key_size) key).
  assert (FAIL : forall (rc : Z) (sess' : cifssrv_sess),
             (rc =? 0) = false -> (always_succeeds kern -> rc = 0) ->
             exists rc0 key' sess0,
               Ret (rc, key0, sess') = Ret (rc0, key', sess0)
               /\ ((rc0 <> 0 /\ key' = key0) \/ (rc0 = 0 /\ key' = good))
               /\ (always_succeeds kern -> rc0 = 0)).
  { intros rc sess' R A. exists rc, key0, sess'.
    apply Z.eqb_neq in R. auto. }
  alloc_step (crypto_hmacsha256_alloc_post kern) WF as rc1 s1 E1 P1 R1.
  2: { apply FAIL; [assumption | apply P1]. }
  destruct P1 as (WF1 & D1 & _ & _ & FR1 & OK1 & AS1).
  destruct (OK1 ltac:(lia)) as (k1 & d1 & T1 & S1).
  alloc_step (crypto_cmac_alloc_post kern) WF1 as rc2 s2 E2 P2 R2.
  2: { apply FAIL; [assumption | apply P2]. }
  destruct P2 as (WF2 & D2 & _ & _ & FR2 & OK2 & AS2).
  destruct (FR2 HMAC_SHA256 ltac:(discriminate)) as (T2 & S2).
  rewrite T1 in T2. rewrite S1 in S2. cbn in T2, S2.
  assert (DD : dialect s2 = dialect (server sess)) by congruence.
  exec; try (apply FAIL; [failed | ok_tac]).
  all: rewrite store_whole by (rewrite length_digest; reflexivity); simp;
    autorewrite with run;
    rewrite memcpy_ok
      by (rewrite ?len_digest; unfold key0; rewrite ?len_memset_image;
          simpl; lia);
    simp; autorewrite with run.
  all: do 3 eexists; split; [reflexivity|];
    split; [right; split; [reflexivity|] | reflexivity].
  all: unfold key0, good; rewrite skipn_memset_image by lia; f_equal.
  all: unfold derive_smb3_signing_key, signing_kdf_input, signing_label,
         signing_context, digest; rewrite <- DD.
  all: match goal with H : (dialect _ =? _) = _ |- _ => rewrite H end.
  all: reflexivity.
Qed.

(** C6: the SMB3 signing key is the leftmost key_size bytes of HMAC-SHA256,
    keyed by the session key, over the 4-byte big-endian counter 1, the
    NUL-terminated label ("SMBSigningKey" for 3.1.1, "SMB2AESCMAC"
    otherwise), one zero byte, the context (the 64-byte preauth hash for
    3.1.1, the literal "SmbSign" otherwise) and the 4-byte big-endian 128.
    The session key is the 16 bytes at the head of sess_key; key_size is at
    most the 32 bytes of the MAC. *)
Theorem smb3_signing_key_is_kdf (kern : kernel) (sess : cifssrv_sess)
    (key : bytes) (key_size : Z) :
  wf_server (server sess) ->
  0 <= key_size <= len key -> key_size <= 32 ->
  16 <= len (sess_key sess) ->
  64 <= len (Preauth_HashValue sess) ->
  exists rc key' sess',
    compute_smb3xsigningkey kern key key_size sess = Ret ((rc, key'), sess')
    /\ (rc = 0 ->
        firstn (Z.to_nat key_size) key'
        = firstn (Z.to_nat key_size)
            (fit 32
               (shash_mac kern HMAC_SHA256 (firstn 16 (sess_key sess))
                  (be32 1
                   ++ (if dialect (server sess) =? SMB311_PROT_ID
                       then chars "SMBSigningKey" ++ [0]
                       else chars "SMB2AESCMAC" ++ [0])
                   ++ [0]
                   ++ (if dialect (server sess) =? SMB311_PROT_ID
                       then firstn 64 (Preauth_HashValue sess)
                       else literal "SmbSign")
                   ++ be32 128))))
    /\ (always_succeeds kern -> rc = 0).
Proof.
  intros WF Hk Hk32 Hs Hp.
  destruct (smb3_key_run kern sess key key_size WF Hk Hk32 Hs Hp)
    as (rc & key' & sess' & E & [[N _] | [_ K]] & A);
    exists rc, key', sess'; (split; [exact E|]); (split; [|exact A]);
    intros Z; [contradiction|].
  rewrite K. apply firstn_prefix.
  unfold derive_smb3_signing_key. apply length_firstn_fit. lia.
Qed.

Lemma smb3_signing_key_is_kdf_witness :
  exists rc key' sess',
    compute_smb3xsigningkey ref_kernel (repeat 7 16) 16 sess0
    = Ret ((rc, key'), sess')
    /\ (rc = 0 ->
        firstn 16 key'
        = firstn 16
            (fit 32
               (sum_mac (repeat 0 16)
                  ([0; 0; 0; 1] ++ literal "SMBSigningKey" ++ [0]
                   ++ repeat 0 64 ++ [0; 0; 0; 128]))))
    /\ (always_succeeds ref_kernel -> rc = 0).
Proof.
  apply (smb3_signing_key_is_kdf ref_kernel sess0 (repeat 7 16) 16).
  - exact wf_srv0.
  - vm_compute. split; discriminate.
  - lia.
  - vm_compute. discriminate.
  - vm_compute. discriminate.
Defined.

(** C10: compute_smb3xsigningkey never leaves the key buffer partially
    written.  The first key_size bytes are all zero whenever a step fails,
    and are the derived value when every step has succeeded; the bytes of
    the buffer after them are not touched. *)
Theorem smb3_key_never_partial (kern : kernel) (sess : cifssrv_sess)
    (key : bytes) (key_size : Z) :
  wf_server (server sess) ->
  0 <= key_size <= len key -> key_size <= 32 ->
  16 <= len (sess_key sess) ->
  64 <= len (Preauth_HashValue sess) ->
  exists rc key' sess',
    compute_smb3xsigningkey kern key key_size sess = Ret ((rc, key'), sess')
    /\ skipn (Z.to_nat key_size) key' = skipn (Z.to_nat key_size) key
    /\ (rc <> 0 ->
        firstn (Z.to_nat key_size) key' = repeat 0 (Z.to_nat key_size))
    /\ (rc = 0 ->
        firstn (Z.to_nat key_size) key'
        = derive_smb3_signing_key kern (firstn 16 (sess_key sess))
            (dialect (server sess)) (Preauth_HashValue sess) key_size).
Proof.
  intros WF Hk Hk32 Hs Hp.
  destruct (smb3_key_run kern sess key key_size WF Hk Hk32 Hs Hp)
    as (rc & key' & sess' & E & [[N K] | [Z K]] & A);
    exists rc, key', sess'; (split; [exact E|]); rewrite K.
  - split; [|split].
    + apply skipn_prefix, repeat_length.
    + intros _. apply firstn_prefix, repeat_length.
    + intros Z. contradiction.
  - assert (L : length (derive_smb3_signing_key kern
                          (firstn 16 (sess_key sess)) (dialect (server sess))
                          (Preauth_HashValue sess) key_size)
                = Z.to_nat key_size).
    { unfold derive_smb3_signing_key. apply length_firstn_fit. lia. }
    split; [|split].
    + apply skipn_prefix, L.
    + intros N. contradiction.
    + intros _. apply firstn_prefix, L.
Qed.

Lemma smb3_key_never_partial_witness :
  exists rc key' sess',
    compute_smb3xsigningkey ref_kernel (repeat 7 20) 16 sess0
    = Ret ((rc, key'), sess')
    /\ skipn 16 key' = [7; 7; 7; 7]
    /\ (rc <> 0 -> firstn 16 key' = repeat 0 16)
    /\ (rc = 0 ->
        firstn 16 key'
        = derive_smb3_signing_key ref_kernel (repeat 0 16) SMB311_PROT_ID
            (repeat 0 64) 16).
Proof.
  apply (smb3_key_never_partial ref_kernel sess0 (repeat 7 20) 16).
  - exact wf_srv0.
  - vm_compute. split; discriminate.
  - lia.
  - vm_compute. discriminate.
  - vm_compute. discriminate.
Defined.

(** ** The preauthentication integrity hash *)

Lemma read_be32_head (buf : bytes) :
  4 <= len buf ->
  read_be32 buf Layout.Hdr_smb2_buf_length = Ret (be_val (firstn 4 buf)).
Proof.
  intros H. unfold read_be32. rewrite ptr_add_0, load_ok by lia. reflexivity.
Qed.

(** C9: for the hash id SHA-512, calc_preauth_integrity_hash writes to
    pi_hash the SHA-512 of the 64-byte running hash of the connection
    followed by the bytes of the message from its ProtocolId field on, as
    many as the big-endian length field in front of them declares. *)
Theorem preauth_hash_is_sha512 (kern : kernel) (srv : tcp_server_info)
    (buf pi_hash : bytes) (n : Z) :
  wf_server srv ->
  64 <= len (srv_Preauth_HashValue srv) ->
  64 <= len pi_hash ->
  4 <= len buf ->
  be_val (firstn 4 buf) = n -> 0 <= n < 2 ^ 32 ->
  4 + n <= len buf ->
  exists rc out srv',
    calc_preauth_integrity_hash kern SMB2_PREAUTH_INTEGRITY_SHA512 buf
      pi_hash srv = Ret ((rc, out), srv')
    /\ (rc = 0 ->
        firstn 64 out
        = fit 64 (shash_mac kern SHA512 []
                    (firstn 64 (srv_Preauth_HashValue srv)
                     ++ firstn (Z.to_nat n) (skipn 4 buf))))
    /\ (always_succeeds kern -> rc = 0).
Proof.
  intros WF Hh Ho Hb Hn Hr Hm.
  unfold calc_preauth_integrity_hash.
  rewrite bind_run, lift_run, read_be32_head by lia. rewrite Hn.
  cbv beta iota. rewrite Z.eqb_refl.
  rewrite to_u32_to_int by lia.
  assert (FAIL : forall (rc : Z) (srv' : tcp_server_info),
             (rc =? 0) = false -> (always_succeeds kern -> rc = 0) ->
             exists rc0 out srv0,
               Ret (rc, pi_hash, srv') = Ret (rc0, out, srv0)
               /\ (rc0 = 0 ->
                   firstn 64 out
                   = fit 64 (shash_mac kern SHA512 []
                               (firstn 64 (srv_Preauth_HashValue srv)
                                ++ firstn (Z.to_nat n) (skipn 4 buf))))
               /\ (always_succeeds kern -> rc0 = 0)).
  { intros rc srv' R A. exists rc, pi_hash, srv'.
    apply Z.eqb_neq in R. split; [reflexivity|]. split; [lia | exact A]. }
  destruct (crypto_sha512_alloc_post kern srv WF) as (rc1 & s1 & E1 & P1).
  rewrite bind_run, E1. cbv beta iota.
  destruct (rc1 =? 0) eqn:R1.
  2: { apply FAIL; [assumption | apply P1]. }
  destruct P1 as (WF1 & _ & PH & _ & _ & OK1 & _).
  apply Z.eqb_eq in R1.
  destruct (OK1 R1) as (k1 & d1 & T1 & S1). cbn in T1, S1.
  change (ptr_add buf Layout.Hdr_ProtocolId) with (skipn 4 buf).
  assert (Ls : len (skipn 4 buf) = len buf - 4)
    by (apply (len_skipn 4); lia).
  rewrite <- PH in Hh.
  exec; try (apply FAIL; [failed | ok_tac]).
  rewrite store_0 by (rewrite len_digest; simpl; lia).
  do 3 eexists. split; [reflexivity|]. split; [|reflexivity].
  intros _. rewrite firstn_prefix by apply length_digest.
  rewrite PH. reflexivity.
Qed.

Lemma preauth_hash_is_sha512_witness :
  exists rc out srv',
    calc_preauth_integrity_hash ref_kernel SMB2_PREAUTH_INTEGRITY_SHA512
      ([0; 0; 0; 4; 0xFE; 83; 77; 66; 9; 9]) (repeat 5 64) srv0
    = Ret ((rc, out), srv')
    /\ (rc = 0 ->
        firstn 64 out
        = fit 64 (sum_mac [] (repeat 0 64 ++ [0xFE; 83; 77; 66])))
    /\ (always_succeeds ref_kernel -> rc = 0).
Proof.
  apply (preauth_hash_is_sha512 ref_kernel srv0
           [0; 0; 0; 4; 0xFE; 83; 77; 66; 9; 9] (repeat 5 64) 4).
  - exact wf_srv0.
  - vm_compute. discriminate.
  - vm_compute. discriminate.
  - vm_compute. discriminate.
  - reflexivity.
  - lia.
  - vm_compute. discriminate.
Defined.

(** ** The NTLMv2 hash *)

Lemma length_le16s (u : list Z) : length (le16s u) = (2 * length u)%nat.
Proof.
  unfold le16s. induction u as [|w u IH]; simpl; [reflexivity|].
  rewrite IH. lia.
Qed.

Lemma len_le16s (u : list Z) : len (le16s u) = 2 * len u.
Proof. unfold len. rewrite length_le16s. lia. Qed.

Lemma length_UniStrupr kern (u : list Z) :
  length (UniStrupr kern u) = length u.
Proof.
  induction u as [|c u IH]; simpl; [reflexivity|].
  destruct (c =? 0); simpl; [reflexivity | now rewrite IH].
Qed.

Lemma load_le16s (u : list Z) :
  2 * len u < 2 ^ 32 ->
  load (le16s u) (to_u32 (UNICODE_LEN (len u))) = Ret (le16s u).
Proof.
  intros H. unfold UNICODE_LEN.
  rewrite to_u32_small by (pose proof (len_nonneg u); lia).
  rewrite <- len_le16s. apply load_all.
Qed.

Lemma smb_strtoUTF16_ok kern (cap : Z) (from : bytes) (nls : Z) :
  len (strtoUTF16 kern nls from) + 1 <= cap ->
  smb_strtoUTF16 kern cap from nls = Ret (strtoUTF16 kern nls from).
Proof.
  intros H. unfold smb_strtoUTF16. apply Z.leb_le in H. now rewrite H.
Qed.

Lemma len_0_nil (b : bytes) : len b <= 0 -> b = [].
Proof. destruct b; [reflexivity|]. unfold len. simpl. lia. Qed.

Lemma wf_sess1 : wf_server (server sess1).
Proof. intros a. unfold paired. destruct a; vm_compute; split; congruence. Qed.

(** C7: the NTLMv2 hash is HMAC-MD5, keyed by the NT hash of the user, of
    the upper-cased UTF-16 account name followed by the UTF-16 target name
    as it is; and when the connection has no HMAC-MD5 descriptor yet,
    calc_ntlmv2_hash returns -1 and touches neither the session nor the
    output buffer.  The conversion yields at most one code unit per
    character, which is what the buffers of the function are sized for. *)
Theorem ntlmv2_hash_is_hmac_md5 (kern : kernel) (netbios_name : bytes)
    (sess : cifssrv_sess) (out : bytes) (dname : char_ptr) (d : bytes) :
  wf_server (server sess) ->
  16 <= len (passkey (usr sess)) ->
  16 <= len out ->
  c_string netbios_name dname = Ret d ->
  len (strtoUTF16 kern (local_nls (server sess)) (name (usr sess)))
    <= len (name (usr sess)) ->
  len (strtoUTF16 kern (local_nls (server sess)) d) <= len d ->
  len (name (usr sess)) < 2 ^ 31 -> len d < 2 ^ 31 ->
  (sdeschmacmd5 (secmech (server sess)) = None ->
   calc_ntlmv2_hash kern netbios_name out dname sess
   = Ret ((- 1, out), sess))
  /\ (sdeschmacmd5 (secmech (server sess)) <> None ->
      exists rc out' sess',
        calc_ntlmv2_hash kern netbios_name out dname sess
        = Ret ((rc, out'), sess')
        /\ (rc = 0 ->
            firstn 16 out'
            = fit 16
                (shash_mac kern HMAC_MD5 (firstn 16 (passkey (usr sess)))
                   (le16s (UniStrupr kern
                             (strtoUTF16 kern (local_nls (server sess))
                                (name (usr sess))))
                    ++ le16s (strtoUTF16 kern (local_nls (server sess)) d))))
        /\ (always_succeeds kern -> rc = 0)).
Proof.
  intros WF Hp Ho Hd Bn Bd Ln Ld.
  unfold calc_ntlmv2_hash. rewrite bind_run, get_run. cbv beta iota.
  split; [intros N; now rewrite N|].
  intros N.
  destruct (sdeschmacmd5 (secmech (server sess))) as [dd|] eqn:S;
    [clear N | contradiction].
  destruct (slot_full HMAC_MD5 (server sess) dd WF) as (k0 & d0 & T & D);
    [right; exact S|].
  cbn in T, D.
  pose proof (len_nonneg (name (usr sess))) as Pn.
  pose proof (len_nonneg d) as Pd.
  pose proof (smb_strtoUTF16_ok kern (1 + len (name (usr sess)))
                (name (usr sess)) (local_nls (server sess))
                ltac:(lia)) as C1.
  pose proof (smb_strtoUTF16_ok kern (1 + len d) d
                (local_nls (server sess)) ltac:(lia)) as C2.
  assert (L1 : load (le16s (UniStrupr kern
                              (strtoUTF16 kern (local_nls (server sess))
                                 (name (usr sess)))))
                 (to_u32 (UNICODE_LEN
                            (len (UniStrupr kern
                                    (strtoUTF16 kern
                                       (local_nls (server sess))
                                       (name (usr sess)))))))
               = Ret (le16s (UniStrupr kern
                               (strtoUTF16 kern (local_nls (server sess))
                                  (name (usr sess)))))).
  { apply load_le16s. unfold len in *. rewrite length_UniStrupr. lia. }
  pose proof (load_le16s (strtoUTF16 kern (local_nls (server sess)) d)
                ltac:(lia)) as L2.
  assert (FAIL : forall (rc : Z) (sess' : cifssrv_sess),
             (rc =? 0) = false -> (always_succeeds kern -> rc = 0) ->
             exists rc0 out' sess0,
               Ret (rc, out, sess') = Ret (rc0, out', sess0)
               /\ (rc0 = 0 ->
                   firstn 16 out'
                   = fit 16
                       (shash_mac kern HMAC_MD5
                          (firstn 16 (passkey (usr sess)))
                          (le16s (UniStrupr kern
                                    (strtoUTF16 kern
                                       (local_nls (server sess))
                                       (name (usr sess))))
                           ++ le16s (strtoUTF16 kern
                                       (local_nls (server sess)) d))))
               /\ (always_succeeds kern -> rc0 = 0)).
  { intros rc sess' R A. exists rc, out, sess'.
    apply Z.eqb_neq in R. split; [reflexivity|]. split; [lia | exact A]. }
  exec.
  all: try (apply FAIL; [failed | ok_tac]).
  all: rewrite store_0 by (rewrite len_digest; simpl; lia); simp;
    do 3 eexists; (split; [reflexivity|]); (split; [intros _ | reflexivity]);
    rewrite firstn_prefix by apply length_digest; unfold digest.
  - match goal with H : (len _ =? 0) = true |- _ => apply Z.eqb_eq in H end.
    rewrite (len_0_nil (strtoUTF16 kern (local_nls (server sess))
                          (name (usr sess)))) by lia.
    reflexivity.
  - reflexivity.
Qed.

Lemma ntlmv2_hash_is_hmac_md5_witness :
  calc_ntlmv2_hash ref_kernel (chars "FSRV") (local_buf 16) NetbiosName sess0
  = Ret ((- 1, local_buf 16), sess0)
  /\ exists rc out' sess',
       calc_ntlmv2_hash ref_kernel (chars "FSRV") (local_buf 16) NetbiosName
         sess1 = Ret ((rc, out'), sess')
       /\ (rc = 0 ->
           firstn 16 out'
           = fit 16 (sum_mac nthash_Password
                       (le16s (chars "USER") ++ le16s (chars "FSRV"))))
       /\ (always_succeeds ref_kernel -> rc = 0).
Proof.
  split.
  - apply (ntlmv2_hash_is_hmac_md5 ref_kernel (chars "FSRV") sess0
             (local_buf 16) NetbiosName (chars "FSRV"));
      try reflexivity; try exact wf_srv0; vm_compute; discriminate.
  - apply (ntlmv2_hash_is_hmac_md5 ref_kernel (chars "FSRV") sess1
             (local_buf 16) NetbiosName (chars "FSRV"));
      try reflexivity; try (vm_compute; discriminate).
    exact wf_sess1.
Defined.

(** ** NTLMv1 verification *)

Lemma store_after (a b c : bytes) (src : bytes) :
  length b = length src ->
  store (a ++ b ++ c) (len a) src = Ret (a ++ src ++ c).
Proof.
  intros L. rewrite store_ok.
  - unfold len. rewrite Nat2Z.id.
    rewrite firstn_prefix by reflexivity.
    rewrite skipn_app.
    rewrite skipn_all2 by lia. simpl.
    replace (length a + length src - length a)%nat with (length b) by lia.
    rewrite skipn_prefix by reflexivity. reflexivity.
  - apply len_nonneg.
  - unfold len. rewrite !length_app. lia.
Qed.

Lemma process_ntlm_run kern sess pw_buf :
  16 <= len (passkey (usr sess)) ->
  8 <= len (cryptkey (ntlmssp sess)) ->
  40 <= len (sess_key sess) ->
  process_ntlm kern pw_buf sess
  = if ntlm_status kern sess =? 0
    then match strncmp pw_buf (ntlm_response kern sess) 24 with
         | Ret cmp =>
             Ret (if cmp =? 0 then ntlm_status kern sess else - EINVAL,
                  ntlm_committed kern sess)
         | Fault => Fault
         end
    else Ret (ntlm_status kern sess, sess).
Proof.
  intros Hp Hc Hk. unfold process_ntlm.
  autorewrite with run. eval_closed. simp. autorewrite with run.
  rewrite memcpy_ok by (consts; lens; lia). simp. autorewrite with run.
  rewrite (load_ok (cryptkey (ntlmssp sess))) by (consts; lia).
  simp. autorewrite with run.
  change (firstn (Z.to_nat CIFS_NTHASH_SIZE) (passkey (usr sess))
          ++ skipn (Z.to_nat CIFS_NTHASH_SIZE)
               [0; 0; 0; 0; 0; 0; 0; 0; 0; 0; 0; 0; 0; 0; 0; 0; 0; 0; 0; 0; 0])
    with (ntlm_p21 sess).
  change (fst (E_P24 kern (ntlm_p21 sess)
                 (firstn (Z.to_nat CIFS_CRYPTO_KEY_SIZE)
                    (cryptkey (ntlmssp sess)))))
    with (ntlm_status kern sess).
  change (fit 24 (snd (E_P24 kern (ntlm_p21 sess)
                         (firstn (Z.to_nat CIFS_CRYPTO_KEY_SIZE)
                            (cryptkey (ntlmssp sess))))))
    with (ntlm_response kern sess).
  destruct (ntlm_status kern sess =? 0) eqn:St; simp; [|reflexivity].
  autorewrite with run.
  rewrite (load_ok (passkey (usr sess))) by (consts; lia).
  simp. autorewrite with run.
  set (md := fit 16 (smb_mdfour kern
                        (firstn (Z.to_nat CIFS_SMB1_SESSKEY_SIZE)
                           (passkey (usr sess))))).
  assert (Lmd : length md = 16%nat) by apply length_fit.
  rewrite store_0 by (unfold len; rewrite Lmd; unfold len in Hk; lia).
  simp. autorewrite with run. rewrite Lmd.
  rewrite <- (firstn_skipn 24 (skipn 16 (sess_key sess))) at 1.
  rewrite skipn_skipn. simpl (24 + 16)%nat.
  replace CIFS_SMB1_SESSKEY_SIZE with (len md) by (unfold len; now rewrite Lmd).
  rewrite store_after.
  2: { rewrite length_firstn, length_skipn. unfold ntlm_response.
       rewrite length_fit. unfold len in Hk. lia. }
  simp. autorewrite with run. simp.
  change (Z.to_nat CIFS_AUTH_RESP_SIZE) with 24%nat.
  destruct (strncmp pw_buf (ntlm_response kern sess) 24) as [cmp|];
    simp; [|reflexivity].
  autorewrite with run.
  rewrite app_assoc.
  destruct (cmp =? 0); simp; reflexivity.
Qed.

(** strncmp stops at the first NUL the two strings share: what follows it
    is not compared. *)
Lemma strncmp_stops_at_zero (i n : nat) (r key : bytes) :
  (i < length key)%nat ->
  nth i key 1 = 0 ->
  firstn (S i) r = firstn (S i) key ->
  strncmp r key n = Ret 0.
Proof.
  revert n r key. induction i as [|i IH]; intros n r key L Z P.
  - destruct key as [|c key]; [simpl in L; lia|].
    destruct r as [|c' r]; [discriminate|].
    simpl in Z, P. injection P as ->. subst c.
    destruct n; simpl; reflexivity.
  - destruct key as [|c key]; [simpl in L; lia|].
    destruct r as [|c' r]; [discriminate|].
    simpl in L, Z. change (firstn (S (S i)) (c' :: r))
      with (c' :: firstn (S i) r) in P.
    change (firstn (S (S i)) (c :: key)) with (c :: firstn (S i) key) in P.
    injection P as -> P.
    destruct n; simpl; [reflexivity|].
    rewrite Z.eqb_refl. destruct (c =? 0); [reflexivity|].
    apply IH; [lia | assumption | assumption].
Qed.

(** A response that agrees with the computed one up to and including a
    zero byte of the computed one is accepted, whatever follows. *)
Lemma process_ntlm_accepts_prefix (kern : kernel) (sess : cifssrv_sess)
    (i : nat) (r : bytes) :
  16 <= len (passkey (usr sess)) ->
  8 <= len (cryptkey (ntlmssp sess)) ->
  40 <= len (sess_key sess) ->
  ntlm_status kern sess = 0 ->
  (i < 24)%nat ->
  nth i (ntlm_response kern sess) 1 = 0 ->
  firstn (S i) r = firstn (S i) (ntlm_response kern sess) ->
  process_ntlm kern r sess = Ret (0, ntlm_committed kern sess).
Proof.
  intros Hp Hc Hk St Hi Z P.
  rewrite process_ntlm_run by assumption. rewrite St. simpl.
  rewrite (strncmp_stops_at_zero i 24 r (ntlm_response kern sess));
    [reflexivity | | assumption | assumption].
  unfold ntlm_response. rewrite length_fit. exact Hi.
Qed.

(** The computed response with every byte after position [i] changed. *)
Lemma changed_tail (i : nat) (key : bytes) :
  (S i < length key)%nat ->
  let r := firstn (S i) key ++ map (Z.add 1) (skipn (S i) key) in
  r <> key /\ length r = length key /\ firstn (S i) r = firstn (S i) key.
Proof.
  intros L r. subst r. split; [|split].
  - intros E. rewrite <- (firstn_skipn (S i) key) in E at 3.
    apply app_inv_head in E.
    destruct (skipn (S i) key) as [|x t] eqn:K.
    + apply (f_equal (@length Z)) in K. rewrite length_skipn in K.
      simpl in K. lia.
    + apply (f_equal (fun l => nth 0 l 0)) in E. cbn [map nth] in E. lia.
  - rewrite length_app, length_map, length_firstn, length_skipn. lia.
  - apply firstn_prefix. rewrite length_firstn. lia.
Qed.

(** C4: the comparison of process_ntlm ends at the first zero byte of the
    computed response: a response that agrees with the computed one up to
    and including that byte is accepted, whatever follows.  So whenever the
    computed response has a zero byte before its last byte, two distinct
    24-byte responses are accepted; the user "User" with the password
    "Password" and the challenge 01 23 45 67 89 ab 00 29 are such a case,
    the computed response starting with a zero byte. *)
Theorem ntlm_compare_stops_at_zero (kern : kernel) (sess : cifssrv_sess)
    (i : nat) :
  16 <= len (passkey (usr sess)) ->
  8 <= len (cryptkey (ntlmssp sess)) ->
  40 <= len (sess_key sess) ->
  ntlm_status kern sess = 0 ->
  (i < 23)%nat ->
  nth i (ntlm_response kern sess) 1 = 0 ->
  (forall r : bytes,
      firstn (S i) r = firstn (S i) (ntlm_response kern sess) ->
      process_ntlm kern r sess = Ret (0, ntlm_committed kern sess))
  /\ (exists r1 r2 : bytes,
        r1 <> r2 /\ length r1 = 24%nat /\ length r2 = 24%nat
        /\ process_ntlm kern r1 sess = Ret (0, ntlm_committed kern sess)
        /\ process_ntlm kern r2 sess = Ret (0, ntlm_committed kern sess)).
Proof.
  intros Hp Hc Hk St Hi Z.
  assert (A : forall r : bytes,
             firstn (S i) r = firstn (S i) (ntlm_response kern sess) ->
             process_ntlm kern r sess = Ret (0, ntlm_committed kern sess)).
  { intros r P.
    apply (process_ntlm_accepts_prefix kern sess i r); try assumption. lia. }
  split; [exact A|].
  assert (L : length (ntlm_response kern sess) = 24%nat)
    by (unfold ntlm_response; apply length_fit).
  destruct (changed_tail i (ntlm_response kern sess)) as (N & L2 & P);
    [lia|].
  exists (firstn (S i) (ntlm_response kern sess)
          ++ map (Z.add 1) (skipn (S i) (ntlm_response kern sess))),
         (ntlm_response kern sess).
  split; [exact N|]. split; [lia|]. split; [exact L|].
  split; apply A; [exact P | reflexivity].
Qed.

Lemma ntlm_compare_stops_at_zero_witness :
  (forall r : bytes,
      firstn 1 r = firstn 1 (ntlm_response ref_kernel sess0) ->
      process_ntlm ref_kernel r sess0
      = Ret (0, ntlm_committed ref_kernel sess0))
  /\ (exists r1 r2 : bytes,
        r1 <> r2 /\ length r1 = 24%nat /\ length r2 = 24%nat
        /\ process_ntlm ref_kernel r1 sess0
           = Ret (0, ntlm_committed ref_kernel sess0)
        /\ process_ntlm ref_kernel r2 sess0
           = Ret (0, ntlm_committed ref_kernel sess0)).
Proof.
  apply (ntlm_compare_stops_at_zero ref_kernel sess0 0);
    try (vm_compute; discriminate); try reflexivity; try lia.
Defined.

(** The two responses at hand: the computed one, and 24 zero bytes. *)
Example ntlm_accepts_zero_response :
  response0 = ntlm_response ref_kernel sess0
  /\ process_ntlm ref_kernel response0 sess0
     = Ret (0, ntlm_committed ref_kernel sess0)
  /\ process_ntlm ref_kernel (repeat 0 24) sess0
     = Ret (0, ntlm_committed ref_kernel sess0).
Proof. split; [|split]; vm_compute; reflexivity. Qed.

(** ** Session state after a failed verification *)

Lemma keeps_ret {A} (a : A) : keeps (ret a).
Proof. intros s a' s' H. injection H as _ <-. auto. Qed.

Lemma keeps_lift {A} (o : outcome A) : keeps (lift o).
Proof.
  intros s a s' H. unfold lift in H. destruct o; [|discriminate].
  injection H as _ <-. auto.
Qed.

Lemma keeps_get : keeps get.
Proof. intros s a s' H. injection H as _ <-. auto. Qed.

Lemma keeps_on_server {A} (m : St tcp_server_info A) : keeps (on_server m).
Proof.
  intros s a s' H. unfold on_server in H.
  destruct (m (server s)) as [[a0 srv]|]; [|discriminate].
  injection H as _ <-. auto.
Qed.

Lemma keeps_bind {A B} (m : St cifssrv_sess A) (k : A -> St cifssrv_sess B) :
  keeps m -> (forall a, keeps (k a)) -> keeps (bind m k).
Proof.
  intros Hm Hk s b s' H. unfold bind in H.
  destruct (m s) as [[a s1]|] eqn:E; [|discriminate].
  destruct (Hm _ _ _ E) as [K1 N1]. destruct (Hk a _ _ _ H) as [K2 N2].
  split; congruence.
Qed.

Create HintDb keeps.
#[export] Hint Resolve keeps_ret keeps_lift keeps_get keeps_on_server : keeps.

Ltac keeps_tac :=
  repeat first
    [ solve [auto with keeps]
    | apply keeps_bind; [|intros ?]
    | match goal with
      | |- keeps (if ?b then _ else _) => destruct b
      | |- keeps (match ?x with _ => _ end) => destruct x
      end ].

Lemma keeps_calc_ntlmv2_hash kern netbios_name out dname :
  keeps (calc_ntlmv2_hash kern netbios_name out dname).
Proof. unfold calc_ntlmv2_hash. keeps_tac. Qed.

Lemma wp_ret {S A} (a : A) (Q : A -> S -> Prop) (s : S) :
  Q a s -> wp (ret a) Q s.
Proof. intros H. exact H. Qed.

Lemma wp_bind {S A B} (m : St S A) (k : A -> St S B) (Q : B -> S -> Prop)
    (s : S) :
  wp m (fun a s' => wp (k a) Q s') s -> wp (bind m k) Q s.
Proof. unfold wp, bind. destruct (m s) as [[a s']|]; auto. Qed.

Lemma wp_mono {S A} (m : St S A) (Q Q' : A -> S -> Prop) (s : S) :
  wp m Q s -> (forall a s', Q a s' -> Q' a s') -> wp m Q' s.
Proof. unfold wp. destruct (m s) as [[a s']|]; auto. Qed.

Lemma wp_elim {S A} (m : St S A) (Q : A -> S -> Prop) (s : S) a s' :
  wp m Q s -> m s = Ret (a, s') -> Q a s'.
Proof. unfold wp. intros H E. now rewrite E in H. Qed.

(** A step that keeps the key and the sequence number hands the rest of the
    call a state that agrees with the first one on both. *)
Lemma wp_bind_keeps {A B} (m : St cifssrv_sess A)
    (k : A -> St cifssrv_sess B) (Q : B -> cifssrv_sess -> Prop)
    (s : cifssrv_sess) :
  keeps m ->
  (forall a s1,
      sess_key s1 = sess_key s -> sequence_number s1 = sequence_number s ->
      wp (k a) Q s1) ->
  wp (bind m k) Q s.
Proof.
  intros Hm Hk. apply wp_bind. unfold wp at 1.
  destruct (m s) as [[a s1]|] eqn:E; [|exact I].
  destruct (Hm _ _ _ E). auto.
Qed.

Ltac head_any :=
  first
    [ head_step
    | match goal with
      | |- context [match ?x with Some _ => _ | None => _ end] =>
          destruct x eqn:?
      | |- context [match ?o with Ret _ => _ | Fault => _ end] =>
          lazymatch o with
          | load _ _ => idtac
          | store _ _ _ => idtac
          | memcpy _ _ _ => idtac
          | memcmp _ _ _ => idtac
          end;
          destruct o eqn:?
      end ].

Ltac exec_any := simp; repeat (head_any; simp).

Lemma alloc_hmacmd5_run kern srv :
  crypto_hmacmd5_alloc kern srv
  = match sdeschmacmd5 (secmech srv) with
    | Some _ => Ret (0, srv)
    | None => shash_alloc kern HMAC_MD5 srv
    end.
Proof. reflexivity. Qed.

Lemma shash_alloc_run kern a srv :
  shash_alloc kern a srv
  = if negb (crypto_alloc_shash_err kern a =? 0)
    then Ret (crypto_alloc_shash_err kern a,
              with_secmech srv (set_tfm a None (secmech srv)))
    else if kmalloc_ok kern (to_u32 (sdesc_size kern a))
    then Ret (0, with_secmech srv
                   (set_sdesc a (Some []) (set_tfm a (Some []) (secmech srv))))
    else Ret (- ENOMEM,
              with_secmech srv
                (set_tfm a None (set_sdesc a None (secmech srv)))).
Proof. reflexivity. Qed.

Lemma load_inv (p : bytes) (n : Z) (b : bytes) :
  load p n = Ret b -> b = firstn (Z.to_nat n) p.
Proof.
  unfold load. destruct ((0 <=? n) && (n <=? len p)); [|discriminate].
  now intros [= <-].
Qed.

Lemma store_0_inv (dst src out : bytes) :
  store dst 0 src = Ret out -> out = src ++ skipn (length src) dst.
Proof.
  unfold store. destruct ((0 <=? 0) && (0 + len src <=? len dst));
    [|discriminate].
  now intros [= <-].
Qed.

Ltac invert_mem :=
  repeat match goal with
    | H : load _ _ = Ret _ |- _ => apply load_inv in H; subst
    | H : store _ 0 _ = Ret _ |- _ => apply store_0_inv in H; subst
    end.

Lemma compute_sess_key_post kern hash hmac s :
  wp (compute_sess_key kern hash hmac)
     (fun rc s' =>
        sequence_number s' = sequence_number s
        /\ ((rc <> 0 /\ sess_key s' = sess_key s)
            \/ (rc = 0
                /\ sess_key s'
                   = digest kern HMAC_MD5 (firstn 16 hash) (firstn 16 hmac)
                       ++ skipn 16 (sess_key s)))) s.
Proof.
  unfold wp, compute_sess_key.
  autorewrite with run. rewrite alloc_hmacmd5_run, shash_alloc_run.
  exec_any.
  all: try exact I.
  all: split; [reflexivity|].
  all: try (left; split; [first [apply Z.eqb_neq; assumption | discriminate]
                         | reflexivity]).
  all: right; split; [reflexivity|]; invert_mem.
  all: rewrite length_digest; reflexivity.
Qed.

Lemma process_ntlmv2_post kern netbios_name ntlmv2 blen domain_name s :
  wp (process_ntlmv2 kern netbios_name ntlmv2 blen domain_name)
     (ntlmv2_post kern ntlmv2 (sess_key s) (sequence_number s)) s.
Proof.
  assert (SAME : forall (rc : Z) (s1 : cifssrv_sess),
             sess_key s1 = sess_key s ->
             sequence_number s1 = sequence_number s ->
             ntlmv2_post kern ntlmv2 (sess_key s) (sequence_number s) rc s1).
  { intros rc s1 K N. split; [exact N | left; exact K]. }
  unfold process_ntlmv2.
  apply wp_bind_keeps; [auto with keeps|]. intros rc1 s1 K1 N1.
  destruct (rc1 =? 0); [|apply wp_ret; auto].
  apply wp_bind_keeps.
  { destruct (is_netbios_name domain_name); apply keeps_calc_ntlmv2_hash. }
  intros [rc2 ntlmv2_hash] s2 K2 N2. rewrite K1 in K2. rewrite N1 in N2.
  destruct (negb (rc2 =? 0)); [apply wp_ret; auto|].
  apply wp_bind_keeps; [auto with keeps|]. intros rc3 s3 K3 N3.
  rewrite K2 in K3. rewrite N2 in N3.
  destruct (rc3 =? 0); [|apply wp_ret; auto].
  apply wp_bind_keeps; [auto with keeps|]. intros rc4 s4 K4 N4.
  rewrite K3 in K4. rewrite N3 in N4.
  destruct (rc4 =? 0); [|apply wp_ret; auto].
  destruct (kzalloc kern (to_int (CIFS_CRYPTO_KEY_SIZE + blen)))
    as [construct|]; [|apply wp_ret; auto].
  apply wp_bind_keeps; [auto with keeps|]. intros sess5 s5 K5 N5.
  rewrite K4 in K5. rewrite N4 in N5.
  apply wp_bind_keeps; [auto with keeps|]. intros c6 s6 K6 N6.
  rewrite K5 in K6. rewrite N5 in N6.
  apply wp_bind_keeps; [auto with keeps|]. intros blob s7 K7 N7.
  rewrite K6 in K7. rewrite N6 in N7.
  apply wp_bind_keeps; [auto with keeps|]. intros c8 s8 K8 N8.
  rewrite K7 in K8. rewrite N7 in N8.
  apply wp_bind_keeps; [auto with keeps|]. intros rc9 s9 K9 N9.
  rewrite K8 in K9. rewrite N8 in N9.
  destruct (rc9 =? 0); [|apply wp_ret; auto].
  apply wp_bind_keeps; [auto with keeps|].
  intros [rc10 ntlmv2_rsp] s10 K10 N10.
  rewrite K9 in K10. rewrite N9 in N10.
  destruct (negb (rc10 =? 0)); [apply wp_ret; auto|].
  apply wp_bind.
  apply (wp_mono _ _ _ _ (compute_sess_key_post kern ntlmv2_hash ntlmv2_rsp
                            s10)).
  intros rc11 s11 (N11 & KK).
  rewrite K10 in KK. rewrite N10 in N11.
  destruct KK as [[NZ K11] | [Z11 K11]].
  - apply Z.eqb_neq in NZ. rewrite NZ. apply wp_ret; auto.
  - subst rc11. simpl.
    unfold wp, lift, memcmp.
    destruct (load (ptr_add ntlmv2 Layout.Resp_ntlmv2_hash)
                CIFS_HMAC_MD5_HASH_SIZE) as [a|] eqn:La; simpl; [|exact I].
    destruct (load ntlmv2_rsp CIFS_HMAC_MD5_HASH_SIZE) as [b|] eqn:Lb; simpl;
      [|exact I].
    apply load_inv in La, Lb. subst a b.
    split; [exact N11|]. right. exists ntlmv2_hash, ntlmv2_rsp.
    split; [exact K11 | reflexivity].
Qed.

(** ** Decoding the authenticate message *)

Lemma read_le16_at (p : bytes) (off : Z) :
  0 <= off -> off + 2 <= len p ->
  read_le16 p off = Ret (le_val (firstn 2 (skipn (Z.to_nat off) p))).
Proof.
  intros H0 H. unfold read_le16, ptr_add.
  destruct (off <? 0) eqn:N; [apply Z.ltb_lt in N; lia|].
  rewrite load_ok by (rewrite len_skipn by lia; lia). reflexivity.
Qed.

Lemma read_le32_at (p : bytes) (off : Z) :
  0 <= off -> off + 4 <= len p ->
  read_le32 p off = Ret (le_val (firstn 4 (skipn (Z.to_nat off) p))).
Proof.
  intros H0 H. unfold read_le32, ptr_add.
  destruct (off <? 0) eqn:N; [apply Z.ltb_lt in N; lia|].
  rewrite load_ok by (rewrite len_skipn by lia; lia). reflexivity.
Qed.

(** Past the size and signature checks the call is the dispatch on
    NtChallengeResponse.Length, with the security buffers used as they
    come. *)
Lemma decode_authenticate_checked (kern : kernel) (netbios_name : bytes)
    (authblob : bytes) (blob_len : Z) (sess : cifssrv_sess) :
  blob_len = len authblob ->
  Layout.sizeof_AUTHENTICATE_MESSAGE <= blob_len < 2 ^ 31 ->
  firstn 8 authblob = NTLMSSP_SIGNATURE ->
  decode_ntlmssp_authenticate_blob kern netbios_name authblob blob_len sess
  = if auth_nt_len authblob =? CIFS_AUTH_RESP_SIZE
    then process_ntlm kern (ptr_add authblob (auth_nt_off authblob)) sess
    else match smb_strndup_from_utf16 kern
                 (ptr_add authblob (auth_dom_off authblob))
                 (auth_dom_len authblob) (local_nls (server sess)) with
         | Ret domain_name =>
             process_ntlmv2 kern netbios_name
               (ptr_add authblob (auth_nt_off authblob))
               (auth_nt_len authblob - CIFS_ENCPWD_SIZE) domain_name sess
         | Fault => Fault
         end.
Proof.
  intros L [S64 S31] Sig. unfold Layout.sizeof_AUTHENTICATE_MESSAGE in S64.
  subst blob_len. unfold decode_ntlmssp_authenticate_blob.
  change (Layout.Auth_NtChallengeResponse + Layout.SecBuf_Length) with 20.
  change (Layout.Auth_NtChallengeResponse + Layout.SecBuf_BufferOffset)
    with 24.
  change (Layout.Auth_DomainName + Layout.SecBuf_Length) with 28.
  change (Layout.Auth_DomainName + Layout.SecBuf_BufferOffset) with 32.
  rewrite to_size_t_small by lia.
  destruct (len authblob <? Layout.sizeof_AUTHENTICATE_MESSAGE) eqn:T;
    [apply Z.ltb_lt in T; unfold Layout.sizeof_AUTHENTICATE_MESSAGE in T;
     lia|].
  rewrite bind_run, lift_run, ptr_add_0, memcmp_signature by lia.
  rewrite Sig, bytes_diff_refl. change (0 =? 0) with true.
  cbv beta iota delta [negb].
  rewrite bind_run, lift_run, read_le16_at by lia.
  cbv beta iota.
  change (le_val (firstn 2 (skipn (Z.to_nat 20) authblob)))
    with (auth_nt_len authblob).
  destruct (auth_nt_len authblob =? CIFS_AUTH_RESP_SIZE); cbv beta iota.
  - rewrite bind_run, lift_run, read_le32_at by lia. reflexivity.
  - rewrite bind_run, get_run. cbv beta iota.
    rewrite bind_run, lift_run, read_le32_at by lia. cbv beta iota.
    rewrite bind_run, lift_run, read_le16_at by lia. cbv beta iota.
    change (le_val (firstn 4 (skipn (Z.to_nat 32) authblob)))
      with (auth_dom_off authblob).
    change (le_val (firstn 2 (skipn (Z.to_nat 28) authblob)))
      with (auth_dom_len authblob).
    rewrite bind_run, lift_run.
    destruct (smb_strndup_from_utf16 kern
                (ptr_add authblob (auth_dom_off authblob))
                (auth_dom_len authblob) (local_nls (server sess)));
      [|reflexivity].
    rewrite bind_run, lift_run, read_le32_at by lia. reflexivity.
Qed.

(** C3: in a message that passes the size and signature checks, an
    NtChallengeResponse.Length of exactly 24 hands the bytes at
    NtChallengeResponse.BufferOffset to process_ntlm; every other length
    hands them to process_ntlmv2 with the domain name and with the blob
    length Length - 16, whatever the length is: no test that it is at least
    16 comes first. *)
Theorem authenticate_dispatch (kern : kernel) (netbios_name : bytes)
    (authblob : bytes) (blob_len : Z) (sess : cifssrv_sess) :
  blob_len = len authblob ->
  Layout.sizeof_AUTHENTICATE_MESSAGE <= blob_len < 2 ^ 31 ->
  firstn 8 authblob = NTLMSSP_SIGNATURE ->
  (auth_nt_len authblob = CIFS_AUTH_RESP_SIZE ->
   decode_ntlmssp_authenticate_blob kern netbios_name authblob blob_len sess
   = process_ntlm kern (ptr_add authblob (auth_nt_off authblob)) sess)
  /\ (auth_nt_len authblob <> CIFS_AUTH_RESP_SIZE ->
      decode_ntlmssp_authenticate_blob kern netbios_name authblob blob_len
        sess
      = match smb_strndup_from_utf16 kern
                (ptr_add authblob (auth_dom_off authblob))
                (auth_dom_len authblob) (local_nls (server sess)) with
        | Ret domain_name =>
            process_ntlmv2 kern netbios_name
              (ptr_add authblob (auth_nt_off authblob))
              (auth_nt_len authblob - CIFS_ENCPWD_SIZE) domain_name sess
        | Fault => Fault
        end).
Proof.
  intros L S Sig.
  split; intros H;
    rewrite (decode_authenticate_checked kern netbios_name authblob blob_len
               sess L S Sig).
  - apply Z.eqb_eq in H. now rewrite H.
  - apply Z.eqb_neq in H. now rewrite H.
Qed.

Lemma authenticate_dispatch_witness :
  decode_ntlmssp_authenticate_blob ref_kernel (chars "FSRV")
    good_ntlm_message 88 sess0
  = process_ntlm ref_kernel response0 sess0
  /\ decode_ntlmssp_authenticate_blob ref_kernel (chars "FSRV")
       short_ntlmv2_message 72 sess0
     = process_ntlmv2 ref_kernel (chars "FSRV") (repeat 0xff 8) (- 8)
         (Str []) sess0.
Proof.
  split.
  - apply (authenticate_dispatch ref_kernel (chars "FSRV") good_ntlm_message
             88 sess0); try reflexivity.
    vm_compute. split; [discriminate | reflexivity].
  - apply (authenticate_dispatch ref_kernel (chars "FSRV")
             short_ntlmv2_message 72 sess0); try reflexivity.
    + vm_compute. split; [discriminate | reflexivity].
    + vm_compute. discriminate.
Defined.

Lemma strncmp_nil (key : bytes) (n : nat) :
  (0 < n)%nat -> strncmp [] key n = Fault.
Proof. destruct n; [lia|]. reflexivity. Qed.

Lemma ptr_add_past (p : bytes) (off : Z) : len p <= off -> ptr_add p off = [].
Proof.
  intros H. unfold ptr_add. pose proof (len_nonneg p).
  destruct (off <? 0) eqn:N; [reflexivity|].
  apply skipn_all2. unfold len in H. lia.
Qed.

(** C2 does not hold of the code.  decode_ntlmssp_authenticate_blob checks
    the length of the message against the fixed header only; the offset
    and length of a security buffer are used as they come.  A message that
    passes the two checks and places its 24-byte NtChallengeResponse at or
    past the end of the message is not rejected with -EINVAL: once E_P24
    has succeeded, strncmp reads through the pointer, outside the
    message. *)
Theorem authenticate_reads_out_of_bounds (kern : kernel)
    (netbios_name : bytes) (authblob : bytes) (blob_len : Z)
    (sess : cifssrv_sess) :
  blob_len = len authblob ->
  Layout.sizeof_AUTHENTICATE_MESSAGE <= blob_len < 2 ^ 31 ->
  firstn 8 authblob = NTLMSSP_SIGNATURE ->
  auth_nt_len authblob = CIFS_AUTH_RESP_SIZE ->
  blob_len <= auth_nt_off authblob ->
  16 <= len (passkey (usr sess)) ->
  8 <= len (cryptkey (ntlmssp sess)) ->
  40 <= len (sess_key sess) ->
  ntlm_status kern sess = 0 ->
  decode_ntlmssp_authenticate_blob kern netbios_name authblob blob_len sess
  = Fault.
Proof.
  intros L S Sig N24 Off Hp Hc Hk St.
  rewrite (decode_authenticate_checked kern netbios_name authblob blob_len
             sess L S Sig).
  apply Z.eqb_eq in N24. rewrite N24, ptr_add_past by lia.
  rewrite process_ntlm_run by assumption.
  rewrite St. simpl. reflexivity.
Qed.

Lemma authenticate_reads_out_of_bounds_witness :
  decode_ntlmssp_authenticate_blob ref_kernel (chars "FSRV")
    oob_ntlm_message 64 sess0 = Fault.
Proof.
  apply authenticate_reads_out_of_bounds; try reflexivity;
    vm_compute; try discriminate.
  split; [discriminate | reflexivity].
Defined.

(** The DomainName buffer is not validated either: the 2-byte name that
    [oob_domain_message] places at offset 200 of its 104 bytes is read. *)
Example domain_name_read_out_of_bounds :
  decode_ntlmssp_authenticate_blob ref_kernel (chars "FSRV")
    oob_domain_message 104 sess0 = Fault.
Proof. vm_compute. reflexivity. Qed.

(** The scenario of the specification: a full-size authenticate message
    with an NtChallengeResponse of 24 bytes, the right user and challenge:
    success, a 40-byte session key, sequence number 1. *)
Example good_ntlm_message_accepted :
  decode_ntlmssp_authenticate_blob ref_kernel (chars "FSRV")
    good_ntlm_message 88 sess0
  = Ret (0, ntlm_committed ref_kernel sess0)
  /\ length (sess_key (ntlm_committed ref_kernel sess0)) = 40%nat.
Proof. split; vm_compute; reflexivity. Qed.

(** ** The challenge message *)

(** *** Reads after writes *)

Lemma store_succeeds (d : bytes) (off : Z) (s : bytes) :
  0 <= off -> off + len s <= len d ->
  exists d', store d off s = Ret d' /\ len d' = len d.
Proof.
  intros H0 H1. rewrite store_ok by assumption. eexists. split; [reflexivity|].
  unfold len in *. rewrite !length_app, length_firstn, length_skipn. lia.
Qed.

Lemma load_at (d : bytes) (o n : Z) :
  0 <= o -> 0 <= n -> o + n <= len d ->
  load (ptr_add d o) n
  = Ret (firstn (Z.to_nat n) (skipn (Z.to_nat o) d)).
Proof.
  intros Ho Hn H. unfold ptr_add.
  destruct (o <? 0) eqn:N; [apply Z.ltb_lt in N; lia|].
  apply load_ok. rewrite len_skipn by lia. lia.
Qed.

Lemma load_store_same (d : bytes) (off : Z) (s d' : bytes) :
  store d off s = Ret d' -> load (ptr_add d' off) (len s) = Ret s.
Proof.
  unfold store.
  destruct (0 <=? off) eqn:H0; [|discriminate].
  destruct (off + len s <=? len d) eqn:H1; [|discriminate].
  simpl. intros [= <-]. apply Z.leb_le in H0, H1.
  pose proof (len_nonneg s).
  rewrite load_at; try lia.
  2: { unfold len in *. rewrite !length_app, length_firstn, length_skipn. lia. }
  f_equal. rewrite skipn_app.
  rewrite skipn_all2 by (rewrite length_firstn; unfold len in *; lia).
  rewrite length_firstn. simpl.
  replace (Z.to_nat off - Nat.min (Z.to_nat off) (length d))%nat with 0%nat
    by (unfold len in *; lia).
  simpl. unfold len. rewrite Nat2Z.id. apply firstn_prefix. reflexivity.
Qed.

Lemma nth_store_other (d : bytes) (off : Z) (s d' : bytes) (i : nat) :
  store d off s = Ret d' ->
  (Z.of_nat i < off \/ off + len s <= Z.of_nat i) ->
  nth_error d' i = nth_error d i.
Proof.
  unfold store.
  destruct (0 <=? off) eqn:H0; [|discriminate].
  destruct (off + len s <=? len d) eqn:H1; [|discriminate].
  simpl. intros [= <-] H. apply Z.leb_le in H0, H1.
  unfold len in *.
  destruct H as [H|H].
  - rewrite nth_error_app1 by (rewrite length_firstn; lia).
    rewrite nth_error_firstn.
    destruct (Nat.ltb_spec i (Z.to_nat off)); [reflexivity|lia].
  - rewrite nth_error_app2 by (rewrite length_firstn; lia).
    rewrite nth_error_app2 by (rewrite length_firstn; lia).
    rewrite nth_error_skipn, length_firstn. f_equal. lia.
Qed.

Lemma firstn_skipn_ext (a b : bytes) (o n : nat) :
  length a = length b ->
  (forall i, (o <= i < o + n)%nat -> nth_error a i = nth_error b i) ->
  firstn n (skipn o a) = firstn n (skipn o b).
Proof.
  intros L H. apply nth_error_ext. intros i.
  destruct (Nat.lt_ge_cases i n) as [Lt|Ge].
  - rewrite !nth_error_firstn.
    destruct (Nat.ltb_spec i n); [|lia].
    rewrite !nth_error_skipn. apply H. lia.
  - rewrite !(proj2 (nth_error_None _ _)); [reflexivity| |];
      rewrite length_firstn; lia.
Qed.

Lemma load_store_other (d : bytes) (off : Z) (s d' : bytes) (o n : Z) :
  store d off s = Ret d' ->
  0 <= o -> 0 <= n ->
  (o + n <= off \/ off + len s <= o) ->
  load (ptr_add d' o) n = load (ptr_add d o) n.
Proof.
  intros St Ho Hn Dis.
  pose proof (store_len _ _ _ _ St) as L.
  destruct (Z.le_gt_cases (o + n) (len d)) as [In|Out].
  - rewrite !load_at by lia. f_equal.
    apply firstn_skipn_ext; [unfold len in L; lia|].
    intros i Hi. apply (nth_store_other _ _ _ _ _ St). lia.
  - unfold ptr_add. destruct (o <? 0); [reflexivity|].
    destruct (Z.le_gt_cases o (len d)).
    + rewrite !load_fault; [reflexivity| |]; rewrite len_skipn; lia.
    + rewrite !skipn_all2 by (unfold len in *; lia). reflexivity.
Qed.

Lemma load_app (d : bytes) (o n1 n2 : Z) (a b : bytes) :
  0 <= o -> 0 <= n1 -> 0 <= n2 -> o + n1 + n2 <= len d ->
  load (ptr_add d o) n1 = Ret a ->
  load (ptr_add d (o + n1)) n2 = Ret b ->
  load (ptr_add d o) (n1 + n2) = Ret (a ++ b).
Proof.
  intros Ho H1 H2 B La Lb.
  rewrite load_at in La, Lb by lia. rewrite load_at by lia.
  injection La as <-. injection Lb as <-. f_equal.
  replace (Z.to_nat (n1 + n2)) with (Z.to_nat n1 + Z.to_nat n2)%nat by lia.
  rewrite <- (firstn_skipn (Z.to_nat n1)
                (firstn (Z.to_nat n1 + Z.to_nat n2) (skipn (Z.to_nat o) d))).
  f_equal.
  - rewrite firstn_firstn. f_equal. lia.
  - rewrite skipn_firstn_comm, skipn_skipn.
    replace (Z.to_nat n1 + Z.to_nat n2 - Z.to_nat n1)%nat
      with (Z.to_nat n2) by lia.
    replace (Z.to_nat n1 + Z.to_nat o)%nat with (Z.to_nat (o + n1)) by lia.
    reflexivity.
Qed.

Lemma le_val_le16 (v : Z) : 0 <= v < 65536 -> le_val (le16 v) = v.
Proof.
  intros H. unfold le_val, le16. cbn [fold_right].
  Z.div_mod_to_equations. lia.
Qed.

Lemma le_val_le32 (v : Z) : 0 <= v < 2 ^ 32 -> le_val (le32 v) = v.
Proof.
  intros H. unfold le_val, le32. cbn [fold_right].
  change (2 ^ 32) with 4294967296 in H.
  Z.div_mod_to_equations. lia.
Qed.

Lemma len_le16 (v : Z) : len (le16 v) = 2.
Proof. reflexivity. Qed.

Lemma len_le32 (v : Z) : len (le32 v) = 4.
Proof. reflexivity. Qed.

Lemma read_le16_store (d : bytes) (off v : Z) (d' : bytes) :
  0 <= v < 65536 -> store d off (le16 v) = Ret d' -> read_le16 d' off = Ret v.
Proof.
  intros Hv St. unfold read_le16.
  change 2 with (len (le16 v)). rewrite (load_store_same _ _ _ _ St).
  cbn [obind]. now rewrite le_val_le16.
Qed.

Lemma read_le32_store (d : bytes) (off v : Z) (d' : bytes) :
  0 <= v < 2 ^ 32 -> store d off (le32 v) = Ret d' ->
  read_le32 d' off = Ret v.
Proof.
  intros Hv St. unfold read_le32.
  change 4 with (len (le32 v)). rewrite (load_store_same _ _ _ _ St).
  cbn [obind]. now rewrite le_val_le32.
Qed.

Lemma read_le16_store_other (d : bytes) (off : Z) (s d' : bytes) (o : Z) :
  store d off s = Ret d' -> 0 <= o -> (o + 2 <= off \/ off + len s <= o) ->
  read_le16 d' o = read_le16 d o.
Proof.
  intros St Ho Dis. unfold read_le16.
  now rewrite (load_store_other _ _ _ _ o 2 St) by lia.
Qed.

Lemma read_le32_store_other (d : bytes) (off : Z) (s d' : bytes) (o : Z) :
  store d off s = Ret d' -> 0 <= o -> (o + 4 <= off \/ off + len s <= o) ->
  read_le32 d' o = read_le32 d o.
Proof.
  intros St Ho Dis. unfold read_le32.
  now rewrite (load_store_other _ _ _ _ o 4 St) by lia.
Qed.

(** The next store of the goal succeeds; name the object it leaves. *)
Tactic Notation "store_step" "as" ident(d') ident(E) ident(L) :=
  lazymatch goal with
  | |- context [obind (store ?d ?off ?s) _] =>
      destruct (store_succeeds d off s) as (d' & E & L);
      [ | | rewrite E; cbn [obind] ]
  end.

Ltac field_offsets :=
  unfold Layout.Chg_Signature, Layout.Chg_MessageType, Layout.Chg_TargetName,
    Layout.Chg_NegotiateFlags, Layout.Chg_Challenge,
    Layout.Chg_TargetInfoArray, Layout.SecBuf_Length,
    Layout.SecBuf_MaximumLength, Layout.SecBuf_BufferOffset,
    Layout.Tinfo_Type, Layout.Tinfo_Length, Layout.Tinfo_Content,
    Layout.sizeof_CHALLENGE_MESSAGE in *.

Ltac sizes := rewrite ?len_le16, ?len_le32 in *; try lia.

(** *** One round of the target-info loop *)

(** What one round leaves in the blob: the attribute at [tinfo], the length
    field of TargetInfoArray advanced by the attribute's size, and every
    other byte as it was. *)
Lemma add_target_info_round (name nm : bytes) (type cur tinfo : Z)
    (chg : bytes) :
  load name (len nm) = Ret nm ->
  0 <= type < 65536 ->
  42 <= tinfo -> tinfo + 4 + len nm <= len chg ->
  read_le16 chg 40 = Ret cur -> 0 <= cur -> cur + 4 + len nm < 65536 ->
  exists chg',
    add_target_info name (len nm) type (chg, tinfo)
    = Ret (chg', tinfo + 4 + len nm)
    /\ len chg' = len chg
    /\ read_le16 chg' 40 = Ret (cur + 4 + len nm)
    /\ load (ptr_add chg' tinfo) (4 + len nm) = Ret (av_pair type nm)
    /\ (forall o m, 0 <= o -> 0 <= m ->
          (o + m <= 40 \/ 42 <= o) ->
          (o + m <= tinfo \/ tinfo + 4 + len nm <= o) ->
          load (ptr_add chg' o) m = load (ptr_add chg o) m).
Proof.
  intros Ln Ht Lo Hi Cur C0 C1.
  pose proof (len_nonneg nm) as N0.
  unfold add_target_info. field_offsets. rewrite !Z.add_0_r.
  store_step as c1 E1 L1; sizes.
  store_step as c2 E2 L2; sizes.
  rewrite Ln. cbn [obind].
  store_step as c3 E3 L3; sizes.
  assert (R3 : read_le16 c3 40 = Ret cur).
  { rewrite (read_le16_store_other _ _ _ _ _ E3) by lia.
    rewrite (read_le16_store_other _ _ _ _ _ E2) by sizes.
    rewrite (read_le16_store_other _ _ _ _ _ E1) by sizes.
    exact Cur. }
  rewrite R3. cbn [obind].
  store_step as c4 E4 L4; sizes.
  assert (U : cur + to_u16 (4 + len nm) = cur + 4 + len nm).
  { unfold to_u16. rewrite Z.mod_small; [lia|].
    change (2 ^ 16) with 65536. lia. }
  rewrite U in E4.
  exists c4. split; [reflexivity|]. split; [lia|]. split.
  { eapply read_le16_store; [|exact E4]. lia. }
  split.
  - unfold av_pair.
    assert (P1 : load (ptr_add c4 tinfo) 2 = Ret (le16 type)).
    { rewrite (load_store_other _ _ _ _ tinfo 2 E4) by sizes.
      rewrite (load_store_other _ _ _ _ tinfo 2 E3) by sizes.
      rewrite (load_store_other _ _ _ _ tinfo 2 E2) by sizes.
      apply (load_store_same _ _ _ _ E1). }
    assert (P2 : load (ptr_add c4 (tinfo + 2)) 2 = Ret (le16 (len nm))).
    { rewrite (load_store_other _ _ _ _ (tinfo + 2) 2 E4) by sizes.
      rewrite (load_store_other _ _ _ _ (tinfo + 2) 2 E3) by sizes.
      apply (load_store_same _ _ _ _ E2). }
    assert (P3 : load (ptr_add c4 (tinfo + 4)) (len nm) = Ret nm).
    { rewrite (load_store_other _ _ _ _ (tinfo + 4) (len nm) E4) by sizes.
      apply (load_store_same _ _ _ _ E3). }
    replace (4 + len nm) with (2 + (2 + len nm)) by lia.
    apply load_app; try lia; [exact P1|].
    apply load_app; try lia; [exact P2|].
    replace (tinfo + 2 + 2) with (tinfo + 4) by lia. exact P3.
  - intros o m Ho Hm D1 D2.
    rewrite (load_store_other _ _ _ _ o m E4) by sizes.
    rewrite (load_store_other _ _ _ _ o m E3) by sizes.
    rewrite (load_store_other _ _ _ _ o m E2) by sizes.
    rewrite (load_store_other _ _ _ _ o m E1) by sizes.
    reflexivity.
Qed.

Lemma target_info_list_pairs (name : bytes) :
  target_info_list name
  = av_pairs 4 NTLMSSP_AV_NB_COMPUTER_NAME name ++ av_pair 0 [].
Proof.
  unfold target_info_list. cbn [flat_map av_pairs].
  rewrite !app_nil_r, <- !app_assoc. reflexivity.
Qed.

(** *** The whole loop *)

Lemma target_info_rounds (name nm : bytes) (n : nat) :
  load name (len nm) = Ret nm ->
  forall (type cur tinfo : Z) (chg : bytes),
  0 <= type -> type + Z.of_nat n <= 65536 ->
  42 <= tinfo -> tinfo + Z.of_nat n * (4 + len nm) <= len chg ->
  read_le16 chg 40 = Ret cur ->
  0 <= cur -> cur + Z.of_nat n * (4 + len nm) < 65536 ->
  exists chg',
    target_info_loop n name (len nm) type (chg, tinfo)
    = Ret (chg', tinfo + Z.of_nat n * (4 + len nm))
    /\ len chg' = len chg
    /\ read_le16 chg' 40 = Ret (cur + Z.of_nat n * (4 + len nm))
    /\ load (ptr_add chg' tinfo) (Z.of_nat n * (4 + len nm))
       = Ret (av_pairs n type nm)
    /\ (forall o m, 0 <= o -> 0 <= m ->
          (o + m <= 40 \/ 42 <= o) ->
          (o + m <= tinfo \/ tinfo + Z.of_nat n * (4 + len nm) <= o) ->
          load (ptr_add chg' o) m = load (ptr_add chg o) m).
Proof.
  intros Ln. pose proof (len_nonneg nm) as N0.
  induction n as [|n IH]; intros type cur tinfo chg T0 T1 Lo Hi Cur C0 C1.
  - exists chg. cbn [target_info_loop av_pairs]. change (Z.of_nat 0) with 0.
    rewrite !Z.mul_0_l, !Z.add_0_r in *.
    repeat split; try assumption; try reflexivity.
    rewrite load_at by lia. reflexivity.
  - rewrite Nat2Z.inj_succ, Z.mul_succ_l in *.
    set (k := Z.of_nat n * (4 + len nm)) in *.
    assert (K0 : 0 <= k) by (subst k; nia).
    destruct (add_target_info_round name nm type cur tinfo chg)
      as (c1 & E1 & L1 & R1 & A1 & F1); try assumption; try lia.
    destruct (IH (type + 1) (cur + 4 + len nm) (tinfo + 4 + len nm) c1)
      as (c2 & E2 & L2 & R2 & A2 & F2); try assumption; try lia.
    exists c2. cbn [target_info_loop av_pairs]. rewrite E1.
    split; [rewrite E2; do 2 f_equal; lia|].
    split; [lia|].
    split; [rewrite R2; f_equal; lia|].
    split.
    + replace (k + (4 + len nm)) with ((4 + len nm) + k) by lia.
      apply load_app; try lia.
      * rewrite F2 by lia. exact A1.
      * replace (tinfo + (4 + len nm)) with (tinfo + 4 + len nm) by lia.
        exact A2.
    + intros o m Ho Hm D1 D2.
      rewrite F2 by lia. apply F1; lia.
Qed.

Lemma le16s_terminated (u : list Z) : le16s (u ++ [0]) = le16s u ++ [0; 0].
Proof. unfold le16s. rewrite flat_map_app. reflexivity. Qed.

Ltac past E := rewrite (load_store_other _ _ _ _ _ _ E) by sizes.
Ltac past16 E := rewrite (read_le16_store_other _ _ _ _ _ E) by sizes.
Ltac past32 E := rewrite (read_le32_store_other _ _ _ _ _ E) by sizes.

(** For a name that fits the local array the blob is as the NTLMSSP layout
    asks: TargetInfoArray describes the attribute list that follows the
    target name, one attribute per type with the encoded name, then the
    terminator. *)
Lemma fill_challenge_blob_layout (chgblob : bytes) (cflags : Z)
    (uname : list Z) (challenge : bytes) :
  let nm := le16s uname in
  let tilen := 4 * (4 + len nm) + 4 in
  8 <= len challenge ->
  tilen < 65536 ->
  Layout.sizeof_CHALLENGE_MESSAGE + len nm + tilen <= len chgblob ->
  exists blob,
    fill_challenge_blob chgblob cflags uname challenge
    = Ret (Layout.sizeof_CHALLENGE_MESSAGE + len nm + tilen, blob)
    /\ len blob = len chgblob
    /\ read_le16 blob Layout.Chg_TargetInfoArray = Ret tilen
    /\ read_le16 blob (Layout.Chg_TargetInfoArray + 2) = Ret tilen
    /\ read_le32 blob (Layout.Chg_TargetInfoArray + 4)
       = Ret (Layout.sizeof_CHALLENGE_MESSAGE + len nm)
    /\ load (ptr_add blob (Layout.sizeof_CHALLENGE_MESSAGE + len nm)) tilen
       = Ret (target_info_list nm).
Proof.
  intros nm tilen HC HT HB. subst tilen.
  pose proof (len_nonneg nm) as N0.
  assert (N2 : len nm = 2 * len uname) by apply len_le16s.
  assert (LN : to_u32 (UNICODE_LEN (len uname)) = len nm).
  { unfold UNICODE_LEN. rewrite <- N2.
    apply to_u32_small. change (2 ^ 32) with 4294967296. lia. }
  assert (Ln : load (le16s (uname ++ [0])) (len nm) = Ret nm).
  { rewrite le16s_terminated, load_ok 
      by (rewrite len_app; fold nm; change (len [0; 0]) with 2; lia).
    f_equal. apply firstn_prefix. unfold len. now rewrite Nat2Z.id. }
  clearbody nm.
  unfold fill_challenge_blob. cbv zeta. rewrite LN.
  set (flags := if negb _ then _ else _).
  field_offsets. rewrite ?Z.add_0_r.
  change (12 + 2) with 14. change (12 + 4) with 16.
  change (40 + 2) with 42. change (40 + 4) with 44.
  change (load NTLMSSP_SIGNATURE 8) with (Ret NTLMSSP_SIGNATURE).
  cbn [obind].
  store_step as c1 E1 L1; [lia | change (len NTLMSSP_SIGNATURE) with 8; lia |].
  store_step as c2 E2 L2; sizes.
  store_step as c3 E3 L3; sizes.
  store_step as c4 E4 L4; sizes.
  store_step as c5 E5 L5; sizes.
  store_step as c6 E6 L6; sizes.
  unfold CIFS_CRYPTO_KEY_SIZE. rewrite (load_ok challenge 8) by lia.
  cbn [obind].
  assert (LC : len (firstn (Z.to_nat 8) challenge) = 8).
  { unfold len in *. rewrite length_firstn. lia. }
  store_step as c7 E7 L7; [lia | lia |].
  assert (R7 : read_le32 c7 16 = Ret 48).
  { past32 E7. eapply read_le32_store; [|exact E6]. lia. }
  rewrite R7. cbn [obind].
  store_step as c8 E8 L8; sizes.
  rewrite Ln. cbn [obind].
  store_step as c9 E9 L9; [lia | lia |].
  store_step as c10 E10 L10; sizes.
  assert (R10 : read_le16 c10 40 = Ret 0).
  { eapply read_le16_store; [|exact E10]. lia. }
  change (Z.to_nat (NTLMSSP_AV_DNS_DOMAIN_NAME + 1
                    - NTLMSSP_AV_NB_COMPUTER_NAME)) with 4%nat.
  destruct (target_info_rounds (le16s (uname ++ [0])) nm 4 Ln
              NTLMSSP_AV_NB_COMPUTER_NAME 0 (48 + len nm) c10)
    as (c11 & E11 & L11 & R11 & A11 & F11);
    try assumption; try (unfold NTLMSSP_AV_NB_COMPUTER_NAME; lia).
  rewrite E11. cbn [obind].
  change (Z.of_nat 4) with 4 in *.
  set (tinfo := 48 + len nm + 4 * (4 + len nm)) in *.
  rewrite Z.add_0_r.
  store_step as c12 E12 L12; sizes.
  store_step as c13 E13 L13; sizes.
  assert (R13 : read_le16 c13 40 = Ret (4 * (4 + len nm))).
  { past16 E13. past16 E12. exact R11. }
  rewrite R13. cbn [obind].
  store_step as c14 E14 L14; sizes.
  assert (U : 4 * (4 + len nm) + to_u16 4 = 4 * (4 + len nm) + 4)
    by reflexivity.
  rewrite U in E14.
  assert (R14 : read_le16 c14 40 = Ret (4 * (4 + len nm) + 4)).
  { eapply read_le16_store; [|exact E14]. lia. }
  rewrite R14. cbn [obind].
  store_step as c15 E15 L15; sizes.
  exists c15. split.
  { do 2 f_equal. unfold to_u16, to_u32.
    rewrite (Z.mod_small (48 + len nm))
      by (change (2 ^ 16) with 65536; lia).
    apply Z.mod_small. change (2 ^ 32) with 4294967296. lia. }
  split; [lia|]. split; [|split; [|split]].
  - past16 E15. exact R14.
  - eapply read_le16_store; [|exact E15]. lia.
  - past32 E15. past32 E14. past32 E13. past32 E12.
    unfold read_le32. rewrite F11 by lia.
    fold (read_le32 c10 44).
    past32 E10. past32 E9.
    eapply read_le32_store; [|exact E8]. change (2 ^ 32) with 4294967296. lia.
  - rewrite target_info_list_pairs.
    apply load_app; try lia.
    + past E15. past E14. past E13. past E12.
      exact A11.
    + fold tinfo. unfold av_pair. rewrite app_nil_r.
      change 4 with (2 + 2) at 1.
      apply load_app; try lia.
      * past E15. past E14. past E13.
        apply (load_store_same _ _ _ _ E12).
      * past E15. past E14.
        apply (load_store_same _ _ _ _ E13).
Qed.

(** C8 does not hold for every server name.  The local array [name] of
    build_ntlmssp_challenge_blob has 8 code units, and smb_strtoUTF16
    stores the whole converted name and a terminator: a name of 8 units or
    more is written past the end of the array, where calc_ntlmv2_hash
    allocates 2 + UNICODE_LEN(len) bytes for the same conversion. *)
Theorem challenge_blob_overflows_name (kern : kernel) (netbios_name : bytes)
    (chgblob : bytes) (sess : cifssrv_sess) :
  8 <= len (strtoUTF16 kern (local_nls (server sess)) netbios_name) ->
  build_ntlmssp_challenge_blob kern netbios_name chgblob sess = Fault.
Proof.
  intros H. unfold build_ntlmssp_challenge_blob.
  rewrite bind_run, get_run. cbv beta iota.
  rewrite bind_run, lift_run. unfold smb_strtoUTF16.
  destruct (len (strtoUTF16 kern (local_nls (server sess)) netbios_name) + 1
            <=? 8) eqn:E; [apply Z.leb_le in E; lia | reflexivity].
Qed.

Lemma challenge_blob_overflows_name_witness :
  build_ntlmssp_challenge_blob ref_kernel (chars "FILESERVER")
    (repeat 0 256) sess0 = Fault.
Proof.
  apply challenge_blob_overflows_name. vm_compute. discriminate.
Defined.

(** X25: the challenge message of a server whose name fits the local array:
    the call returns the length of the blob, the session keeps the fresh
    challenge, and TargetInfoArray describes the list of the four attributes
    and the terminator that follows the target name. *)
Theorem challenge_blob_layout (kern : kernel) (netbios_name : bytes)
    (chgblob : bytes) (sess : cifssrv_sess) :
  let nm := le16s (strtoUTF16 kern (local_nls (server sess)) netbios_name) in
  let tilen := 4 * (4 + len nm) + 4 in
  len nm < 2 * 8 ->
  Layout.sizeof_CHALLENGE_MESSAGE + len nm + tilen <= len chgblob ->
  exists blob,
    build_ntlmssp_challenge_blob kern netbios_name chgblob sess
    = Ret ((Layout.sizeof_CHALLENGE_MESSAGE + len nm + tilen, blob),
           with_ntlmssp sess
             {| client_flags := client_flags (ntlmssp sess);
                cryptkey := fit 8 (get_random_bytes kern 8) |})
    /\ read_le16 blob Layout.Chg_TargetInfoArray = Ret tilen
    /\ read_le32 blob (Layout.Chg_TargetInfoArray + 4)
       = Ret (Layout.sizeof_CHALLENGE_MESSAGE + len nm)
    /\ load (ptr_add blob (Layout.sizeof_CHALLENGE_MESSAGE + len nm)) tilen
       = Ret (target_info_list nm).
Proof.
  intros nm tilen Fit Room.
  assert (N2 : len nm = 2 * len (strtoUTF16 kern (local_nls (server sess))
                                   netbios_name)) by apply len_le16s.
  destruct (fill_challenge_blob_layout chgblob (client_flags (ntlmssp sess))
              (strtoUTF16 kern (local_nls (server sess)) netbios_name)
              (fit 8 (get_random_bytes kern 8)))
    as (blob & E & _ & R1 & _ & R2 & A).
  { unfold len. rewrite length_fit. lia. }
  { fold nm. lia. }
  { exact Room. }
  exists blob. split; [|split; [exact R1 | split; [exact R2 | exact A]]].
  unfold build_ntlmssp_challenge_blob.
  rewrite bind_run, get_run. cbv beta iota.
  rewrite bind_run, lift_run, smb_strtoUTF16_ok by lia. cbv beta iota zeta.
  rewrite bind_run, put_run. cbv beta iota.
  rewrite lift_run. fold nm tilen in E. rewrite E. reflexivity.
Qed.

Lemma challenge_blob_layout_witness :
  exists blob,
    build_ntlmssp_challenge_blob ref_kernel (chars "FSRV") (repeat 0xEE 120)
      sess0
    = Ret ((108, blob),
           with_ntlmssp sess0
             {| client_flags := client_flags (ntlmssp sess0);
                cryptkey := challenge0 |})
    /\ read_le16 blob 40 = Ret 52
    /\ read_le32 blob 44 = Ret 56
    /\ load (ptr_add blob 56) 52
       = Ret (target_info_list (le16s (chars "FSRV"))).
Proof.
  apply (challenge_blob_layout ref_kernel (chars "FSRV") (repeat 0xEE 120)
           sess0); vm_compute; [reflexivity | discriminate].
Defined.

(** The scenario of the specification, a server called "FSRV": the four
    attributes and the terminator, and TargetInfoArray.Length equal to
    4 * (4 + len) + 4 with len = 8; a name of 7 characters still fits. *)
Example challenge_blob_FSRV :
  exists blob sess',
    build_ntlmssp_challenge_blob ref_kernel (chars "FSRV") (repeat 0xEE 120)
      sess0 = Ret ((108, blob), sess')
    /\ le_val (firstn 2 (skipn 40 blob)) = 4 * (4 + 8) + 4
    /\ le_val (firstn 4 (skipn 44 blob)) = 56
    /\ firstn 52 (skipn 56 blob) = target_info_list (le16s (chars "FSRV"))
    /\ cryptkey (ntlmssp sess') = firstn 8 (skipn 24 blob).
Proof.
  do 2 eexists. split; [vm_compute; reflexivity|].
  repeat split; vm_compute; reflexivity.
Qed.

Example challenge_blob_SERVER7 :
  exists blob sess',
    build_ntlmssp_challenge_blob ref_kernel (chars "SERVER7")
      (repeat 0xEE 150) sess0 = Ret ((138, blob), sess')
    /\ le_val (firstn 2 (skipn 40 blob)) = 4 * (4 + 14) + 4
    /\ firstn 76 (skipn 62 blob)
       = target_info_list (le16s (chars "SERVER7")).
Proof.
  do 2 eexists. split; [vm_compute; reflexivity|].
  repeat split; vm_compute; reflexivity.
Qed.

(** * The rest of auth.c *)

(** ** Allocation of the transforms *)

Lemma crypto_md5_alloc_post kern srv :
  wf_server srv ->
  exists rc srv', crypto_md5_alloc kern srv = Ret (rc, srv')
                  /\ alloc_post kern MD5 srv rc srv'.
Proof. intros WF. apply alloc_guarded; auto. Qed.

Lemma crypto_alloc_post kern a srv :
  wf_server srv ->
  exists rc srv', crypto_alloc kern a srv = Ret (rc, srv')
                  /\ alloc_post kern a srv rc srv'.
Proof.
  intros WF. destruct a; cbn [crypto_alloc].
  - now apply crypto_md5_alloc_post.
  - now apply crypto_hmacmd5_alloc_post.
  - now apply crypto_hmacsha256_alloc_post.
  - now apply crypto_cmac_alloc_post.
  - now apply crypto_sha512_alloc_post.
Qed.

(** The allocators are guarded by one pointer of the slot. *)
Lemma crypto_alloc_run kern a srv :
  crypto_alloc kern a srv
  = match (match a with
           | MD5 => md5 (secmech srv)
           | HMAC_MD5 => sdeschmacmd5 (secmech srv)
           | HMAC_SHA256 => hmacsha256 (secmech srv)
           | CMAC_AES => sdesccmacaes (secmech srv)
           | SHA512 => sdescsha512 (secmech srv)
           end) with
    | Some _ => Ret (0, srv)
    | None => shash_alloc kern a srv
    end.
Proof. destruct a; reflexivity. Qed.

(** X1: An allocator that has returned 0 returns 0 from then on and leaves the
    connection alone: a transform is allocated once. *)
Theorem alloc_once (kern : kernel) (a : shash_alg)
    (srv srv' : tcp_server_info) :
  crypto_alloc kern a srv = Ret (0, srv') ->
  crypto_alloc kern a srv' = Ret (0, srv').
Proof.
  rewrite !crypto_alloc_run, shash_alloc_run.
  destruct a; cbn [negb];
    match goal with
    | |- match ?g with _ => _ end = _ -> _ => destruct g eqn:G
    end;
    try (intros [= <-]; rewrite G; reflexivity);
    destruct (crypto_alloc_shash_err kern _ =? 0) eqn:E; cbn [negb];
    try (intros [= H _]; rewrite H in E; discriminate);
    destruct (kmalloc_ok kern _); intros [= <-]; try discriminate;
    reflexivity.
Qed.

Lemma alloc_once_witness :
  crypto_alloc ref_kernel HMAC_SHA256
    (with_secmech srv0
       (set_sdesc HMAC_SHA256 (Some [])
          (set_tfm HMAC_SHA256 (Some []) no_crypto)))
  = Ret (0, with_secmech srv0
              (set_sdesc HMAC_SHA256 (Some [])
                 (set_tfm HMAC_SHA256 (Some []) no_crypto))).
Proof.
  apply (alloc_once ref_kernel HMAC_SHA256 srv0). reflexivity.
Defined.

Lemma allocated_dec a srv :
  wf_server srv ->
  allocated a srv
  \/ (get_tfm a (secmech srv) = None /\ get_sdesc a (secmech srv) = None).
Proof.
  intros WF. specialize (WF a). unfold paired, allocated in *.
  destruct (get_tfm a (secmech srv)), (get_sdesc a (secmech srv));
    intuition congruence.
Qed.

Lemma guard_allocated a srv x :
  wf_server srv ->
  match a with
  | MD5 => md5 (secmech srv)
  | HMAC_MD5 => sdeschmacmd5 (secmech srv)
  | HMAC_SHA256 => hmacsha256 (secmech srv)
  | CMAC_AES => sdesccmacaes (secmech srv)
  | SHA512 => sdescsha512 (secmech srv)
  end = Some x ->
  allocated a srv.
Proof.
  intros WF G.
  destruct (slot_full a srv x WF) as (k & d & T & D).
  { destruct a; cbn; auto. }
  unfold allocated. rewrite T, D. split; discriminate.
Qed.

Lemma srv_step_refl srv : srv_step srv srv.
Proof. unfold srv_step. auto. Qed.

Lemma srv_step_trans s1 s2 s3 :
  srv_step s1 s2 -> srv_step s2 s3 -> srv_step s1 s3.
Proof.
  intros (D1 & P1 & N1 & W1) (D2 & P2 & N2 & W2).
  split; [congruence|]. split; [congruence|]. split; [congruence|].
  intros H. destruct (W1 H) as [H2 A2]. destruct (W2 H2) as [H3 A3].
  split; [exact H3|]. intros b A. apply A3, A2, A.
Qed.

(** An allocated slot makes its allocator return at once. *)
Lemma crypto_alloc_allocated kern a srv :
  allocated a srv -> crypto_alloc kern a srv = Ret (0, srv).
Proof.
  intros [T S]. rewrite crypto_alloc_run.
  destruct a; cbn in T, S |- *;
    match goal with
    | |- match ?g with _ => _ end = _ => destruct g; [|contradiction]
    end;
    reflexivity.
Qed.

Lemma crypto_alloc_steps (kern : kernel) (a : shash_alg)
    (srv : tcp_server_info) :
  wf_server srv ->
  exists rc srv',
    crypto_alloc kern a srv = Ret (rc, srv')
    /\ srv_step srv srv'
    /\ (forall b, b <> a ->
          get_tfm b (secmech srv') = get_tfm b (secmech srv)
          /\ get_sdesc b (secmech srv') = get_sdesc b (secmech srv))
    /\ (rc = 0 -> allocated a srv').
Proof.
  intros WF.
  destruct (crypto_alloc_post kern a srv WF) as (rc & srv' & E & P).
  exists rc, srv'. split; [exact E|].
  destruct P as (WF' & D & PH & NL & FR & OK & _).
  split; [|split; [exact FR|]].
  - split; [exact D|]. split; [exact PH|]. split; [exact NL|].
    intros _. split; [exact WF'|].
    intros b A. destruct a, b;
      first [ rewrite (crypto_alloc_allocated kern _ _ A) in E;
              injection E as _ <-; exact A
            | match type of A with
              | allocated ?c _ =>
                  destruct (FR c ltac:(discriminate)) as [T S]
              end;
              unfold allocated; rewrite T, S; exact A ].
  - intros Z. destruct (OK Z) as (k & d & T & S).
    unfold allocated. rewrite T, S. split; discriminate.
Qed.

(** X2: An allocator does not fault. It leaves a well-formed connection well-
    formed, touches no slot but its own, and never gives up a slot that was
    allocated. After status 0 the slot is allocated; after any other status,
    which is the error of crypto_alloc_shash or -ENOMEM, both pointers of the
    slot are NULL. *)
Theorem alloc_outcome (kern : kernel) (a : shash_alg)
    (srv : tcp_server_info) :
  wf_server srv ->
  exists rc srv',
    crypto_alloc kern a srv = Ret (rc, srv')
    /\ srv_step srv srv'
    /\ (forall b, b <> a ->
          get_tfm b (secmech srv') = get_tfm b (secmech srv)
          /\ get_sdesc b (secmech srv') = get_sdesc b (secmech srv))
    /\ (rc = 0 -> allocated a srv')
    /\ (rc <> 0 ->
        get_tfm a (secmech srv') = None
        /\ get_sdesc a (secmech srv') = None
        /\ (rc = crypto_alloc_shash_err kern a \/ rc = - ENOMEM)).
Proof.
  intros WF.
  destruct (crypto_alloc_steps kern a srv WF) as (rc & srv' & E & S & FR & OK).
  exists rc, srv'. split; [exact E|]. split; [exact S|].
  split; [exact FR|]. split; [exact OK|].
  intros NZ.
  destruct (allocated_dec a srv WF) as [A|[T D]].
  { rewrite (crypto_alloc_allocated kern _ _ A) in E.
    injection E as <- _. contradiction. }
  rewrite crypto_alloc_run, shash_alloc_run in E.
  destruct a; cbn in T, D; rewrite ?T, ?D in E;
    destruct (crypto_alloc_shash_err kern _ =? 0) eqn:Z; cbn [negb] in E;
    try (injection E as <- <-; cbn; rewrite ?T, ?D; auto);
    destruct (kmalloc_ok kern _); injection E as <- <-;
    try contradiction; cbn; auto.
Qed.

Lemma alloc_outcome_witness :
  exists rc srv',
    crypto_alloc ref_kernel MD5 srv0 = Ret (rc, srv')
    /\ srv_step srv0 srv'
    /\ (forall b, b <> MD5 ->
          get_tfm b (secmech srv') = get_tfm b (secmech srv0)
          /\ get_sdesc b (secmech srv') = get_sdesc b (secmech srv0))
    /\ (rc = 0 -> allocated MD5 srv')
    /\ (rc <> 0 ->
        get_tfm MD5 (secmech srv') = None
        /\ get_sdesc MD5 (secmech srv') = None
        /\ (rc = crypto_alloc_shash_err ref_kernel MD5 \/ rc = - ENOMEM)).
Proof. exact (alloc_outcome ref_kernel MD5 srv0 wf_srv0). Defined.

(** ** What the calls leave of a connection *)

Lemma srv_quiet_alloc kern a : srv_quiet (crypto_alloc kern a).
Proof.
  intros srv rc srv' E. split; [|split; [|split]].
  1-3: rewrite crypto_alloc_run, shash_alloc_run in E;
    destruct a;
    match type of E with
    | match ?g with _ => _ end = _ => destruct g
    end;
    try (injection E as _ <-; reflexivity);
    destruct (negb _); try (injection E as _ <-; reflexivity);
    destruct (kmalloc_ok kern _); injection E as _ <-; reflexivity.
  intros WF.
  destruct (crypto_alloc_steps kern a srv WF) as (rc0 & srv0 & E0 & S & _).
  rewrite E in E0. injection E0 as <- <-. apply S, WF.
Qed.

Lemma wf_set_tfm a k srv :
  wf_server srv -> get_sdesc a (secmech srv) <> None ->
  wf_server (with_secmech srv (set_tfm a (Some k) (secmech srv))).
Proof.
  intros WF N b. specialize (WF b). unfold paired in *.
  destruct a, b; cbn in *; intuition congruence.
Qed.

Lemma wf_set_sdesc a d srv :
  wf_server srv -> get_tfm a (secmech srv) <> None ->
  wf_server (with_secmech srv (set_sdesc a (Some d) (secmech srv))).
Proof.
  intros WF N b. specialize (WF b). unfold paired in *.
  destruct a, b; cbn in *; intuition congruence.
Qed.

Lemma allocated_set_tfm a b k srv :
  allocated b srv ->
  allocated b (with_secmech srv (set_tfm a (Some k) (secmech srv))).
Proof.
  unfold allocated. destruct a, b; cbn; intuition congruence.
Qed.

Lemma allocated_set_sdesc a b d srv :
  allocated b srv ->
  allocated b (with_secmech srv (set_sdesc a (Some d) (secmech srv))).
Proof.
  unfold allocated. destruct a, b; cbn; intuition congruence.
Qed.

Lemma srv_step_set_tfm a k srv :
  get_sdesc a (secmech srv) <> None ->
  srv_step srv (with_secmech srv (set_tfm a (Some k) (secmech srv))).
Proof.
  intros N. split; [reflexivity|]. split; [reflexivity|].
  split; [reflexivity|]. intros WF. split.
  - now apply wf_set_tfm.
  - intros b. apply allocated_set_tfm.
Qed.

Lemma srv_step_set_sdesc a d srv :
  get_tfm a (secmech srv) <> None ->
  srv_step srv (with_secmech srv (set_sdesc a (Some d) (secmech srv))).
Proof.
  intros N. split; [reflexivity|]. split; [reflexivity|].
  split; [reflexivity|]. intros WF. split.
  - now apply wf_set_sdesc.
  - intros b. apply allocated_set_sdesc.
Qed.

Lemma srv_quiet_setkey kern a key n :
  srv_quiet (crypto_shash_setkey kern a key n).
Proof.
  intros srv rc srv' E. rewrite setkey_run in E.
  destruct (get_tfm a (secmech srv)) as [k0|] eqn:T; [|discriminate].
  destruct (load key n) as [k|]; [|discriminate].
  destruct (setkey_err kern a k =? 0); injection E as _ <-;
    [|apply srv_step_refl].
  split; [reflexivity|]. split; [reflexivity|]. split; [reflexivity|].
  intros WF.
  assert (N : get_sdesc a (secmech srv) <> None).
  { intros S. apply (WF a) in S. congruence. }
  split; [now apply wf_set_tfm | intros c; apply allocated_set_tfm].
Qed.

Lemma srv_quiet_init kern a : srv_quiet (crypto_shash_init kern a).
Proof.
  intros srv rc srv' E. rewrite init_run in E.
  destruct (get_sdesc a (secmech srv)) as [d0|] eqn:S; [|discriminate].
  destruct (get_tfm a (secmech srv)) as [k0|] eqn:T; [|discriminate].
  destruct (init_err kern a k0 =? 0); injection E as _ <-;
    [|apply srv_step_refl].
  apply srv_step_set_sdesc. congruence.
Qed.

Lemma srv_quiet_update kern a data n :
  srv_quiet (crypto_shash_update kern a data n).
Proof.
  intros srv rc srv' E. rewrite update_run in E.
  destruct (get_sdesc a (secmech srv)) as [d0|] eqn:S; [|discriminate].
  destruct (get_tfm a (secmech srv)) as [k0|] eqn:T; [|discriminate].
  destruct (load data n) as [d|]; [|discriminate].
  destruct (update_err kern a d0 d =? 0); injection E as _ <-;
    [|apply srv_step_refl].
  apply srv_step_set_sdesc. congruence.
Qed.

Lemma srv_quiet_final kern a out :
  srv_quiet (crypto_shash_final kern a out).
Proof.
  intros srv rc srv' E. rewrite final_run in E.
  destruct (get_sdesc a (secmech srv)) as [d0|] eqn:S; [|discriminate].
  destruct (get_tfm a (secmech srv)) as [k0|] eqn:T; [|discriminate].
  destruct (final_err kern a k0 d0 =? 0).
  - destruct (store out 0 _); [|discriminate].
    injection E as _ <-. apply srv_step_refl.
  - injection E as _ <-. apply srv_step_refl.
Qed.

Lemma conn_step_refl s : conn_step s s.
Proof.
  split; [reflexivity|]. split; [reflexivity | apply srv_step_refl].
Qed.

Lemma crypto_step_refl s : crypto_step s s.
Proof. split; [apply conn_step_refl | auto]. Qed.

Lemma conn_step_trans s1 s2 s3 :
  conn_step s1 s2 -> conn_step s2 s3 -> conn_step s1 s3.
Proof.
  intros (U1 & P1 & S1) (U2 & P2 & S2).
  split; [congruence|]. split; [congruence|].
  eapply srv_step_trans; eassumption.
Qed.

Lemma crypto_step_trans s1 s2 s3 :
  crypto_step s1 s2 -> crypto_step s2 s3 -> crypto_step s1 s3.
Proof.
  intros (C1 & N1 & K1 & Q1) (C2 & N2 & K2 & Q2).
  split; [eapply conn_step_trans; eassumption|].
  repeat split; congruence.
Qed.

Lemma conn_step_server s0 s srv1 :
  conn_step s0 s -> srv_step (server s) srv1 ->
  conn_step s0 (with_server s srv1).
Proof.
  intros (U & P & S) T. split; [exact U|]. split; [exact P|].
  eapply srv_step_trans; eassumption.
Qed.

Lemma crypto_step_server s0 s srv1 :
  crypto_step s0 s -> srv_step (server s) srv1 ->
  crypto_step s0 (with_server s srv1).
Proof.
  intros (C & N & K & Q) T.
  split; [now apply conn_step_server | auto].
Qed.

(** *** Rules for stepping through a call *)

Lemma wp_get {A} (k : cifssrv_sess -> St cifssrv_sess A) Q s :
  wp (k s) Q s -> wp (bind get k) Q s.
Proof. intros H. exact H. Qed.

Lemma wp_put {A} x (k : unit -> St cifssrv_sess A) Q s :
  wp (k tt) Q x -> wp (bind (put x) k) Q s.
Proof. intros H. exact H. Qed.

Lemma wp_lift {S A B} (o : outcome A) (k : A -> St S B) Q (s : S) :
  (forall a, o = Ret a -> wp (k a) Q s) -> wp (bind (lift o) k) Q s.
Proof.
  intros H. unfold wp, bind, lift. destruct o as [a|]; [|exact I].
  apply (H a eq_refl).
Qed.

Lemma wp_lift_end {S A} (o : outcome A) (Q : A -> S -> Prop) (s : S) :
  (forall a, o = Ret a -> Q a s) -> wp (lift o) Q s.
Proof.
  intros H. unfold wp, lift. destruct o as [a|]; [|exact I].
  apply (H a eq_refl).
Qed.

Lemma wp_on_server {A B} (m : St tcp_server_info A)
    (k : A -> St cifssrv_sess B) Q s :
  srv_quiet m ->
  (forall a srv1, srv_step (server s) srv1 ->
                  wp (k a) Q (with_server s srv1)) ->
  wp (bind (on_server m) k) Q s.
Proof.
  intros Hm H. unfold wp, bind, on_server.
  destruct (m (server s)) as [[a srv1]|] eqn:E; [|exact I].
  apply (H a srv1). eapply Hm, E.
Qed.

Lemma wp_on_server_end {A} (m : St tcp_server_info A)
    (Q : A -> cifssrv_sess -> Prop) s :
  srv_quiet m ->
  (forall a srv1, srv_step (server s) srv1 -> Q a (with_server s srv1)) ->
  wp (on_server m) Q s.
Proof.
  intros Hm H. unfold wp, on_server.
  destruct (m (server s)) as [[a srv1]|] eqn:E; [|exact I].
  apply (H a srv1). eapply Hm, E.
Qed.

(** A call whose own effect is known, inside another call. *)
Lemma wp_call {S A B} (m : St S A) (k : A -> St S B)
    (R : S -> S -> Prop) Q (s : S) :
  (forall s0 a s', m s0 = Ret (a, s') -> R s0 s') ->
  (forall a s1, R s s1 -> wp (k a) Q s1) ->
  wp (bind m k) Q s.
Proof.
  intros Hm H. unfold wp, bind.
  destruct (m s) as [[a s1]|] eqn:E; [|exact I].
  apply (H a s1). eapply Hm, E.
Qed.

Lemma wp_call_end {S A} (m : St S A) (R : S -> S -> Prop)
    (Q : A -> S -> Prop) (s : S) :
  (forall s0 a s', m s0 = Ret (a, s') -> R s0 s') ->
  (forall a s1, R s s1 -> Q a s1) ->
  wp m Q s.
Proof.
  intros Hm H. unfold wp.
  destruct (m s) as [[a s1]|] eqn:E; [|exact I].
  apply (H a s1). eapply Hm, E.
Qed.

Lemma wp_intro {S A} (m : St S A) (R : S -> S -> Prop) :
  (forall s, wp m (fun _ s' => R s s') s) ->
  forall s a s', m s = Ret (a, s') -> R s s'.
Proof. intros H s a s' E. exact (wp_elim _ _ _ _ _ (H s) E). Qed.

Create HintDb quiet.
#[export] Hint Resolve srv_quiet_alloc srv_quiet_setkey srv_quiet_init
  srv_quiet_update srv_quiet_final : quiet.

Lemma srv_quiet_md5 kern : srv_quiet (crypto_md5_alloc kern).
Proof. exact (srv_quiet_alloc kern MD5). Qed.
Lemma srv_quiet_hmacmd5 kern : srv_quiet (crypto_hmacmd5_alloc kern).
Proof. exact (srv_quiet_alloc kern HMAC_MD5). Qed.
Lemma srv_quiet_hmacsha256 kern : srv_quiet (crypto_hmacsha256_alloc kern).
Proof. exact (srv_quiet_alloc kern HMAC_SHA256). Qed.
Lemma srv_quiet_cmac kern : srv_quiet (crypto_cmac_alloc kern).
Proof. exact (srv_quiet_alloc kern CMAC_AES). Qed.
Lemma srv_quiet_sha512 kern : srv_quiet (crypto_sha512_alloc kern).
Proof. exact (srv_quiet_alloc kern SHA512). Qed.

#[export] Hint Resolve srv_quiet_md5 srv_quiet_hmacmd5 srv_quiet_hmacsha256
  srv_quiet_cmac srv_quiet_sha512 : quiet.

(** The state reached so far is related to the first one by [H]; a step of
    the connection extends [H]. *)
Ltac extend_step H T :=
  first [ apply (crypto_step_server _ _ _ H) in T
        | apply (conn_step_server _ _ _ H) in T ];
  clear H; rename T into H.

Ltac step_wp H :=
  lazymatch goal with
  | |- wp (bind get _) _ _ => apply wp_get
  | |- wp (bind (put _) _) _ _ => apply wp_put
  | |- wp (bind (lift _) _) _ _ => apply wp_lift; intros ? _
  | |- wp (bind (on_server _) _) _ _ =>
      let T := fresh "T" in
      apply wp_on_server; [auto with quiet | intros ? ? T];
      extend_step H T
  | |- wp (on_server _) _ _ =>
      let T := fresh "T" in
      apply wp_on_server_end; [auto with quiet | intros ? ? T];
      extend_step H T
  | |- wp (bind (if ?b then _ else _) _) _ _ => destruct b
  | |- wp (lift _) _ _ => apply wp_lift_end; intros ? _
  | |- wp (ret _) _ _ => apply wp_ret
  | |- wp (if ?b then _ else _) _ _ => destruct b
  | |- wp (match ?x with Some _ => _ | None => _ end) _ _ => destruct x
  | |- wp (match ?x with (_, _) => _ end) _ _ => destruct x
  end.

Ltac steps_wp H := repeat (step_wp H; cbv beta).

(** *** The calls that work on the transforms only *)

Lemma smb1_sign_smbpdu_step kern buf sz sig s rs s' :
  smb1_sign_smbpdu kern buf sz sig s = Ret (rs, s') -> crypto_step s s'.
Proof.
  revert s rs s'. apply wp_intro. intros s.
  pose proof (crypto_step_refl s) as H.
  unfold smb1_sign_smbpdu. steps_wp H. all: exact H.
Qed.

Lemma smb2_sign_smbpdu_step kern buf sz sig s rs s' :
  smb2_sign_smbpdu kern buf sz sig s = Ret (rs, s') -> crypto_step s s'.
Proof.
  revert s rs s'. apply wp_intro. intros s.
  pose proof (crypto_step_refl s) as H.
  unfold smb2_sign_smbpdu. steps_wp H. all: exact H.
Qed.

Lemma calc_ntlmv2_hash_step kern nb out dname s rs s' :
  calc_ntlmv2_hash kern nb out dname s = Ret (rs, s') -> crypto_step s s'.
Proof.
  revert s rs s'. apply wp_intro. intros s.
  pose proof (crypto_step_refl s) as H.
  unfold calc_ntlmv2_hash. steps_wp H. all: exact H.
Qed.

Lemma compute_smb3xsigningkey_step kern key key_size s rs s' :
  compute_smb3xsigningkey kern key key_size s = Ret (rs, s') ->
  crypto_step s s'.
Proof.
  revert s rs s'. apply wp_intro. intros s.
  pose proof (crypto_step_refl s) as H.
  unfold compute_smb3xsigningkey. steps_wp H. all: exact H.
Qed.

(** *** The calls that write to the session *)

Lemma crypto_conn_step s s' : crypto_step s s' -> conn_step s s'.
Proof. intros [C _]. exact C. Qed.

Lemma conn_step_fields s0 s x :
  conn_step s0 s ->
  usr x = usr s -> Preauth_HashValue x = Preauth_HashValue s ->
  server x = server s ->
  conn_step s0 x.
Proof.
  intros (U & P & S) Ux Px Sx. unfold conn_step.
  rewrite Ux, Px, Sx. auto.
Qed.

(** After a put of the state with some fields of the session replaced. *)
Ltac put_wp H :=
  lazymatch goal with
  | |- wp (bind (put ?x) _) _ _ =>
      apply wp_put;
      let H' := fresh "H" in
      assert (H' : conn_step _ x)
        by (apply (conn_step_fields _ _ _ H); reflexivity);
      clear H; rename H' into H
  end.

Lemma compute_sess_key_step kern hash hmac s rc s' :
  compute_sess_key kern hash hmac s = Ret (rc, s') -> conn_step s s'.
Proof.
  revert s rc s'. apply wp_intro. intros s.
  pose proof (conn_step_refl s) as H.
  unfold compute_sess_key.
  repeat first [put_wp H | step_wp H; cbv beta]. all: exact H.
Qed.

Lemma process_ntlm_step kern pw_buf s rc s' :
  process_ntlm kern pw_buf s = Ret (rc, s') -> conn_step s s'.
Proof.
  revert s rc s'. apply wp_intro. intros s.
  pose proof (conn_step_refl s) as H.
  unfold process_ntlm.
  repeat first [put_wp H | step_wp H; cbv beta zeta]. all: exact H.
Qed.

Ltac call_wp H :=
  let T := fresh "T" in
  lazymatch goal with
  | |- wp (bind (calc_ntlmv2_hash _ _ _ _) _) _ _ =>
      apply (wp_call _ _ crypto_step);
      [ intros ? ? ?; apply calc_ntlmv2_hash_step
      | intros ? ? T; apply crypto_conn_step in T;
        apply (conn_step_trans _ _ _ H) in T; clear H; rename T into H ]
  | |- wp (bind (compute_sess_key _ _ _) _) _ _ =>
      apply (wp_call _ _ conn_step);
      [ intros ? ? ?; apply compute_sess_key_step
      | intros ? ? T;
        apply (conn_step_trans _ _ _ H) in T; clear H; rename T into H ]
  end.

Lemma process_ntlmv2_step kern nb ntlmv2 blen dname s rc s' :
  process_ntlmv2 kern nb ntlmv2 blen dname s = Ret (rc, s') ->
  conn_step s s'.
Proof.
  revert s rc s'. apply wp_intro. intros s.
  pose proof (conn_step_refl s) as H.
  unfold process_ntlmv2.
  repeat first [call_wp H | put_wp H | step_wp H; cbv beta zeta].
  all: exact H.
Qed.

Lemma decode_ntlmssp_negotiate_blob_step negblob blob_len s rc s' :
  decode_ntlmssp_negotiate_blob negblob blob_len s = Ret (rc, s') ->
  conn_step s s'.
Proof.
  revert s rc s'. apply wp_intro. intros s.
  pose proof (conn_step_refl s) as H.
  unfold decode_ntlmssp_negotiate_blob.
  repeat first [put_wp H | step_wp H; cbv beta zeta]. all: exact H.
Qed.

Ltac call_wp2 H :=
  let T := fresh "T" in
  lazymatch goal with
  | |- wp (process_ntlm _ _) _ _ =>
      apply (wp_call_end _ conn_step);
      [ intros ? ? ?; apply process_ntlm_step
      | intros ? ? T;
        apply (conn_step_trans _ _ _ H) in T; clear H; rename T into H ]
  | |- wp (process_ntlmv2 _ _ _ _ _) _ _ =>
      apply (wp_call_end _ conn_step);
      [ intros ? ? ?; apply process_ntlmv2_step
      | intros ? ? T;
        apply (conn_step_trans _ _ _ H) in T; clear H; rename T into H ]
  end.

Lemma decode_ntlmssp_authenticate_blob_step kern nb authblob blob_len
    s rc s' :
  decode_ntlmssp_authenticate_blob kern nb authblob blob_len s
  = Ret (rc, s') ->
  conn_step s s'.
Proof.
  revert s rc s'. apply wp_intro. intros s.
  pose proof (conn_step_refl s) as H.
  unfold decode_ntlmssp_authenticate_blob.
  repeat first [call_wp2 H | put_wp H | step_wp H; cbv beta zeta].
  all: exact H.
Qed.

Lemma build_ntlmssp_challenge_blob_step kern nb chgblob s rs s' :
  build_ntlmssp_challenge_blob kern nb chgblob s = Ret (rs, s') ->
  conn_step s s'.
Proof.
  revert s rs s'. apply wp_intro. intros s.
  pose proof (conn_step_refl s) as H.
  unfold build_ntlmssp_challenge_blob.
  repeat first [put_wp H | step_wp H; cbv beta zeta]. all: exact H.
Qed.

(** ** Any sequence of calls *)

Lemma call_step kern nb c s u s' :
  call kern nb c s = Ret (u, s') -> conn_step s s'.
Proof.
  destruct c; cbn [call]; unfold bind;
    match goal with
    | |- match ?m s with _ => _ end = _ -> _ =>
        destruct (m s) as [[r s1]|] eqn:E; [|discriminate]
    end;
    intros [= _ <-].
  - eapply decode_ntlmssp_negotiate_blob_step, E.
  - eapply build_ntlmssp_challenge_blob_step, E.
  - eapply decode_ntlmssp_authenticate_blob_step, E.
  - eapply process_ntlm_step, E.
  - eapply process_ntlmv2_step, E.
  - eapply compute_sess_key_step, E.
  - eapply crypto_conn_step, smb1_sign_smbpdu_step, E.
  - eapply crypto_conn_step, smb2_sign_smbpdu_step, E.
  - eapply crypto_conn_step, compute_smb3xsigningkey_step, E.
Qed.

(** X3: Whatever calls are made on a session, in whatever order and with
    whatever arguments and results: the user, the preauth hash of the session,
    and the dialect, running hash and character set of the connection stay as
    they were; a well-formed connection stays well-formed; and a transform
    that was allocated stays allocated. *)
Theorem calls_keep_connection (kern : kernel) (netbios_name : bytes)
    (cs : list auth_call) (s s' : cifssrv_sess) :
  calls kern netbios_name cs s = Ret (tt, s') -> conn_step s s'.
Proof.
  revert s. induction cs as [|c cs IH]; intros s.
  - intros [= <-]. apply conn_step_refl.
  - cbn [calls]. unfold bind at 1.
    destruct (call kern netbios_name c s) as [[u s1]|] eqn:E; [|discriminate].
    intros R. eapply conn_step_trans; [eapply call_step, E | apply IH, R].
Qed.

Lemma calls_keep_connection_witness :
  exists s',
    calls ref_kernel (chars "FSRV") handshake0 sess0 = Ret (tt, s')
    /\ conn_step sess0 s'.
Proof.
  eexists. split; [vm_compute; reflexivity|].
  apply (calls_keep_connection ref_kernel (chars "FSRV") handshake0).
  vm_compute. reflexivity.
Defined.

(** ** Packet signatures *)

Lemma smb1_sign_run (kern : kernel) (sess : cifssrv_sess)
    (buf : bytes) (sz : Z) (sig : bytes) :
  wf_server (server sess) ->
  40 <= len (sess_key sess) ->
  0 <= sz <= len buf -> sz < 2 ^ 31 ->
  16 <= len sig ->
  exists rc sig' sess',
    smb1_sign_smbpdu kern buf sz sig sess = Ret ((rc, sig'), sess')
    /\ (rc = 0 ->
        sig' = fit 16 (shash_mac kern MD5 []
                         (firstn 40 (sess_key sess)
                          ++ firstn (Z.to_nat sz) buf))
               ++ skipn 16 sig)
    /\ (always_succeeds kern -> rc = 0).
Proof.
  intros WF Hk Hz Hz31 Hs.
  unfold smb1_sign_smbpdu.
  assert (FAIL : forall (rc : Z) (sess' : cifssrv_sess),
             (rc =? 0) = false -> (always_succeeds kern -> rc = 0) ->
             exists rc0 sig' sess0,
               Ret (rc, sig, sess') = Ret (rc0, sig', sess0)
               /\ (rc0 = 0 ->
                   sig' = fit 16 (shash_mac kern MD5 []
                                    (firstn 40 (sess_key sess)
                                     ++ firstn (Z.to_nat sz) buf))
                          ++ skipn 16 sig)
               /\ (always_succeeds kern -> rc0 = 0)).
  { intros rc sess' R A. exists rc, sig, sess'.
    apply Z.eqb_neq in R. split; [reflexivity|]. split; [lia | exact A]. }
  alloc_step (crypto_md5_alloc_post kern) WF as rc1 s1 E1 P1 R1.
  2: { apply FAIL; [assumption | apply P1]. }
  destruct P1 as (WF1 & _ & _ & _ & _ & OK1 & _).
  destruct (OK1 ltac:(lia)) as (k1 & d1 & T1 & S1). cbn in T1, S1.
  rewrite (to_u32_small sz) by lia.
  exec; try (apply FAIL; [failed | ok_tac]).
  rewrite store_0 by (rewrite len_digest; simpl; lia). simp.
  do 3 eexists. split; [reflexivity|]. split; [|reflexivity].
  intros _. rewrite length_digest. reflexivity.
Qed.

(** X4: smb1_sign_smbpdu: the signature is the MD5 of the 40 bytes of the
    session key followed by the [sz] bytes of the packet; it fills the first
    16 bytes of [sig], and the call leaves the session as it was but for the
    transforms of the connection. *)
Theorem smb1_signature_is_md5 (kern : kernel) (sess : cifssrv_sess)
    (buf : bytes) (sz : Z) (sig : bytes) :
  wf_server (server sess) ->
  40 <= len (sess_key sess) ->
  0 <= sz <= len buf -> sz < 2 ^ 31 ->
  16 <= len sig ->
  exists rc sig' sess',
    smb1_sign_smbpdu kern buf sz sig sess = Ret ((rc, sig'), sess')
    /\ (rc = 0 ->
        sig' = fit 16 (shash_mac kern MD5 []
                         (firstn 40 (sess_key sess)
                          ++ firstn (Z.to_nat sz) buf))
               ++ skipn 16 sig)
    /\ (always_succeeds kern -> rc = 0)
    /\ crypto_step sess sess'.
Proof.
  intros WF Hk Hz Hz31 Hs.
  destruct (smb1_sign_run kern sess buf sz sig WF Hk Hz Hz31 Hs)
    as (rc & sig' & sess' & E & V & OK).
  exists rc, sig', sess'. split; [exact E|]. split; [exact V|].
  split; [exact OK|]. eapply smb1_sign_smbpdu_step, E.
Qed.

Lemma smb1_signature_is_md5_witness :
  exists rc sig' sess',
    smb1_sign_smbpdu ref_kernel (chars "packet") 6 (repeat 9 20) sess0
    = Ret ((rc, sig'), sess')
    /\ (rc = 0 ->
        sig' = fit 16 (sum_mac [] (repeat 0 40 ++ chars "packet"))
               ++ [9; 9; 9; 9])
    /\ (always_succeeds ref_kernel -> rc = 0)
    /\ crypto_step sess0 sess'.
Proof.
  apply (smb1_signature_is_md5 ref_kernel sess0 (chars "packet") 6
           (repeat 9 20)).
  - exact wf_srv0.
  - vm_compute. discriminate.
  - vm_compute. split; discriminate.
  - reflexivity.
  - vm_compute. discriminate.
Defined.

Lemma smb2_sign_run (kern : kernel) (sess : cifssrv_sess)
    (buf : bytes) (sz : Z) (sig : bytes) :
  wf_server (server sess) ->
  16 <= len (sess_key sess) ->
  0 <= sz <= len buf -> sz < 2 ^ 31 ->
  32 <= len sig ->
  exists rc sig' sess',
    smb2_sign_smbpdu kern buf sz sig sess = Ret ((rc, sig'), sess')
    /\ (rc = 0 ->
        sig' = fit 32 (shash_mac kern HMAC_SHA256
                         (firstn 16 (sess_key sess))
                         (firstn (Z.to_nat sz) buf))
               ++ skipn 32 sig)
    /\ (always_succeeds kern -> rc = 0).
Proof.
  intros WF Hk Hz Hz31 Hs.
  unfold smb2_sign_smbpdu.
  assert (FAIL : forall (rc : Z) (sess' : cifssrv_sess),
             (rc =? 0) = false -> (always_succeeds kern -> rc = 0) ->
             exists rc0 sig' sess0,
               Ret (rc, sig, sess') = Ret (rc0, sig', sess0)
               /\ (rc0 = 0 ->
                   sig' = fit 32 (shash_mac kern HMAC_SHA256
                                    (firstn 16 (sess_key sess))
                                    (firstn (Z.to_nat sz) buf))
                          ++ skipn 32 sig)
               /\ (always_succeeds kern -> rc0 = 0)).
  { intros rc sess' R A. exists rc, sig, sess'.
    apply Z.eqb_neq in R. split; [reflexivity|]. split; [lia | exact A]. }
  alloc_step (crypto_hmacsha256_alloc_post kern) WF as rc1 s1 E1 P1 R1.
  2: { apply FAIL; [assumption | apply P1]. }
  destruct P1 as (WF1 & _ & _ & _ & _ & OK1 & _).
  destruct (OK1 ltac:(lia)) as (k1 & d1 & T1 & S1). cbn in T1, S1.
  rewrite (to_u32_small sz) by lia.
  exec; try (apply FAIL; [failed | ok_tac]).
  rewrite store_0 by (rewrite len_digest; simpl; lia). simp.
  do 3 eexists. split; [reflexivity|]. split; [|reflexivity].
  intros _. rewrite length_digest. reflexivity.
Qed.

(** X5: smb2_sign_smbpdu: the signature is the HMAC-SHA256, keyed by the first
    16 bytes of the session key, of the [sz] bytes of the packet. All 32 bytes
    of the MAC are written to [sig]; the call leaves the session as it was but
    for the transforms of the connection. *)
Theorem smb2_signature_is_hmac_sha256 (kern : kernel) (sess : cifssrv_sess)
    (buf : bytes) (sz : Z) (sig : bytes) :
  wf_server (server sess) ->
  16 <= len (sess_key sess) ->
  0 <= sz <= len buf -> sz < 2 ^ 31 ->
  32 <= len sig ->
  exists rc sig' sess',
    smb2_sign_smbpdu kern buf sz sig sess = Ret ((rc, sig'), sess')
    /\ (rc = 0 ->
        sig' = fit 32 (shash_mac kern HMAC_SHA256
                         (firstn 16 (sess_key sess))
                         (firstn (Z.to_nat sz) buf))
               ++ skipn 32 sig)
    /\ (always_succeeds kern -> rc = 0)
    /\ crypto_step sess sess'.
Proof.
  intros WF Hk Hz Hz31 Hs.
  destruct (smb2_sign_run kern sess buf sz sig WF Hk Hz Hz31 Hs)
    as (rc & sig' & sess' & E & V & OK).
  exists rc, sig', sess'. split; [exact E|]. split; [exact V|].
  split; [exact OK|]. eapply smb2_sign_smbpdu_step, E.
Qed.

Lemma smb2_signature_is_hmac_sha256_witness :
  exists rc sig' sess',
    smb2_sign_smbpdu ref_kernel (chars "packet") 6 (repeat 9 34) sess0
    = Ret ((rc, sig'), sess')
    /\ (rc = 0 ->
        sig' = fit 32 (sum_mac (repeat 0 16) (chars "packet")) ++ [9; 9])
    /\ (always_succeeds ref_kernel -> rc = 0)
    /\ crypto_step sess0 sess'.
Proof.
  apply (smb2_signature_is_hmac_sha256 ref_kernel sess0 (chars "packet") 6
           (repeat 9 34)).
  - exact wf_srv0.
  - vm_compute. discriminate.
  - vm_compute. split; discriminate.
  - reflexivity.
  - vm_compute. discriminate.
Defined.

Lemma store_fault (dst : bytes) (off : Z) (src : bytes) :
  len dst < off + len src -> store dst off src = Fault.
Proof.
  intros H. unfold store. apply Z.leb_gt in H. rewrite H.
  now rewrite andb_false_r.
Qed.

(** With a kernel that does not fail, a failed step is absurd. *)
Ltac no_failure AS :=
  exfalso;
  match goal with
  | H : (setkey_err _ _ _ =? 0) = false |- _ =>
      rewrite (ok_setkey _ AS) in H
  | H : (init_err _ _ _ =? 0) = false |- _ => rewrite (ok_init _ AS) in H
  | H : (update_err _ _ _ _ =? 0) = false |- _ =>
      rewrite (ok_update _ AS) in H
  | H : (final_err _ _ _ _ =? 0) = false |- _ =>
      rewrite (ok_final _ AS) in H
  | H : kmalloc_ok _ _ = false |- _ => rewrite (ok_kmalloc _ AS) in H
  end;
  discriminate.

(** X6: The MAC is written in full: a [sig] of the 16 bytes of the signature
    field of an SMB2 header is too small for it, and the call writes past its
    end. *)
Theorem smb2_sign_writes_32_bytes (kern : kernel) (sess : cifssrv_sess)
    (buf : bytes) (sz : Z) (sig : bytes) :
  always_succeeds kern ->
  wf_server (server sess) ->
  16 <= len (sess_key sess) ->
  0 <= sz <= len buf -> sz < 2 ^ 31 ->
  len sig < 32 ->
  smb2_sign_smbpdu kern buf sz sig sess = Fault.
Proof.
  intros AS WF Hk Hz Hz31 Hs.
  unfold smb2_sign_smbpdu.
  alloc_step (crypto_hmacsha256_alloc_post kern) WF as rc1 s1 E1 P1 R1.
  2: { destruct P1 as (_ & _ & _ & _ & _ & _ & A). rewrite (A AS) in R1.
       discriminate. }
  destruct P1 as (WF1 & _ & _ & _ & _ & OK1 & _).
  destruct (OK1 ltac:(lia)) as (k1 & d1 & T1 & S1). cbn in T1, S1.
  rewrite (to_u32_small sz) by lia.
  exec; try no_failure AS.
  rewrite store_fault by (rewrite len_digest; simpl; lia). reflexivity.
Qed.

Lemma smb2_sign_writes_32_bytes_witness :
  smb2_sign_smbpdu ref_kernel (chars "packet") 6 (repeat 0 16) sess0 = Fault.
Proof.
  apply smb2_sign_writes_32_bytes.
  - exact ref_kernel_succeeds.
  - exact wf_srv0.
  - vm_compute. discriminate.
  - vm_compute. split; discriminate.
  - reflexivity.
  - reflexivity.
Defined.

Lemma on_chann_server_run {A} (m : St tcp_server_info A) (c : channel) :
  on_chann_server m c
  = match m (chann_server c) with
    | Ret (a, srv) =>
        Ret (a, {| chann_server := srv;
                   smb3signingkey := smb3signingkey c |})
    | Fault => Fault
    end.
Proof. reflexivity. Qed.

#[export] Hint Rewrite @on_chann_server_run : run.

Ltac simp_chann :=
  simp; repeat (progress (cbn [chann_server smb3signingkey]); simp).
Ltac exec_chann := simp_chann; repeat (head_step; simp_chann).

Lemma smb3_sign_run (kern : kernel) (chann : channel)
    (buf : bytes) (sz : Z) (sig : bytes) :
  allocated CMAC_AES (chann_server chann) ->
  16 <= len (smb3signingkey chann) ->
  0 <= sz <= len buf -> sz < 2 ^ 31 ->
  16 <= len sig ->
  exists rc sig' srv',
    smb3_sign_smbpdu kern buf sz sig chann
    = Ret ((rc, sig'), {| chann_server := srv';
                          smb3signingkey := smb3signingkey chann |})
    /\ (rc = 0 ->
        sig' = fit 16 (shash_mac kern CMAC_AES
                         (firstn 16 (smb3signingkey chann))
                         (firstn (Z.to_nat sz) buf))
               ++ skipn 16 sig)
    /\ (always_succeeds kern -> rc = 0).
Proof.
  intros [T S] Hk Hz Hz31 Hs.
  destruct (get_tfm CMAC_AES (secmech (chann_server chann)))
    as [k0|] eqn:T0; [clear T | contradiction].
  destruct (get_sdesc CMAC_AES (secmech (chann_server chann)))
    as [d0|] eqn:S0; [clear S | contradiction].
  cbn in T0, S0.
  unfold smb3_sign_smbpdu, SMB2_CMACAES_SIZE.
  assert (FAIL : forall (rc : Z) (srv' : tcp_server_info),
             (rc =? 0) = false -> (always_succeeds kern -> rc = 0) ->
             exists rc0 sig' srv0,
               Ret (rc, sig, {| chann_server := srv';
                                smb3signingkey := smb3signingkey chann |})
               = Ret (rc0, sig',
                      {| chann_server := srv0;
                         smb3signingkey := smb3signingkey chann |})
               /\ (rc0 = 0 ->
                   sig' = fit 16 (shash_mac kern CMAC_AES
                                    (firstn 16 (smb3signingkey chann))
                                    (firstn (Z.to_nat sz) buf))
                          ++ skipn 16 sig)
               /\ (always_succeeds kern -> rc0 = 0)).
  { intros rc srv' R A. exists rc, sig, srv'.
    apply Z.eqb_neq in R. split; [reflexivity|]. split; [lia | exact A]. }
  rewrite (to_u32_small sz) by lia.
  exec_chann; try (apply FAIL; [failed | ok_tac]).
  rewrite store_0 by (rewrite len_digest; simpl; lia). simp_chann.
  do 3 eexists. split; [reflexivity|]. split; [|reflexivity].
  intros _. rewrite length_digest. reflexivity.
Qed.

Lemma smb3_sign_smbpdu_step kern buf sz sig c rs c' :
  smb3_sign_smbpdu kern buf sz sig c = Ret (rs, c') ->
  srv_step (chann_server c) (chann_server c')
  /\ smb3signingkey c' = smb3signingkey c.
Proof.
  unfold smb3_sign_smbpdu, bind, get, ret, on_chann_server.
  destruct (crypto_shash_setkey kern CMAC_AES _ _ _) as [[r1 s1]|] eqn:E1;
    [|discriminate].
  apply srv_quiet_setkey in E1.
  destruct (r1 =? 0); [|intros [= _ <-]; cbn; auto].
  cbn [chann_server smb3signingkey].
  destruct (crypto_shash_init kern CMAC_AES s1) as [[r2 s2]|] eqn:E2;
    [|discriminate].
  apply srv_quiet_init in E2.
  pose proof (srv_step_trans _ _ _ E1 E2) as E12.
  destruct (r2 =? 0); [|intros [= _ <-]; cbn; auto].
  cbn [chann_server smb3signingkey].
  destruct (crypto_shash_update kern CMAC_AES _ _ s2) as [[r3 s3]|] eqn:E3;
    [|discriminate].
  apply srv_quiet_update in E3.
  pose proof (srv_step_trans _ _ _ E12 E3) as E13.
  destruct (r3 =? 0); [|intros [= _ <-]; cbn; auto].
  cbn [chann_server smb3signingkey].
  destruct (crypto_shash_final kern CMAC_AES sig s3) as [[r4 s4]|] eqn:E4;
    [|discriminate].
  apply srv_quiet_final in E4.
  intros [= _ <-]. cbn. split; [|reflexivity].
  eapply srv_step_trans; eassumption.
Qed.

(** X7: smb3_sign_smbpdu: on a channel whose connection has the CMAC-AES
    transform, the signature is the CMAC-AES, keyed by the 16 bytes of the
    signing key of the channel, of the [sz] bytes of the packet; the key of
    the channel is not changed. *)
Theorem smb3_signature_is_cmac (kern : kernel) (chann : channel)
    (buf : bytes) (sz : Z) (sig : bytes) :
  allocated CMAC_AES (chann_server chann) ->
  16 <= len (smb3signingkey chann) ->
  0 <= sz <= len buf -> sz < 2 ^ 31 ->
  16 <= len sig ->
  exists rc sig' chann',
    smb3_sign_smbpdu kern buf sz sig chann = Ret ((rc, sig'), chann')
    /\ (rc = 0 ->
        sig' = fit 16 (shash_mac kern CMAC_AES
                         (firstn 16 (smb3signingkey chann))
                         (firstn (Z.to_nat sz) buf))
               ++ skipn 16 sig)
    /\ (always_succeeds kern -> rc = 0)
    /\ smb3signingkey chann' = smb3signingkey chann
    /\ srv_step (chann_server chann) (chann_server chann').
Proof.
  intros A Hk Hz Hz31 Hs.
  destruct (smb3_sign_run kern chann buf sz sig A Hk Hz Hz31 Hs)
    as (rc & sig' & srv' & E & V & OK).
  do 3 eexists. split; [exact E|]. split; [exact V|]. split; [exact OK|].
  split; [reflexivity|]. apply (smb3_sign_smbpdu_step _ _ _ _ _ _ _ E).
Qed.

(** X8: smb3_sign_smbpdu allocates nothing: on a connection that has no CMAC-
    AES transform it calls crypto_shash_setkey on a NULL pointer. *)
Theorem smb3_sign_needs_cmac (kern : kernel) (chann : channel)
    (buf : bytes) (sz : Z) (sig : bytes) :
  cmacaes (secmech (chann_server chann)) = None ->
  smb3_sign_smbpdu kern buf sz sig chann = Fault.
Proof.
  intros N. unfold smb3_sign_smbpdu.
  rewrite bind_run, get_run. cbv beta iota.
  rewrite bind_run, on_chann_server_run, setkey_run.
  cbn [get_tfm]. rewrite N. reflexivity.
Qed.

Lemma smb3_sign_needs_cmac_witness :
  smb3_sign_smbpdu ref_kernel (chars "packet") 6 (repeat 0 16)
    {| chann_server := srv0; smb3signingkey := repeat 0 16 |} = Fault.
Proof. apply smb3_sign_needs_cmac. reflexivity. Defined.

Lemma smb3_signature_is_cmac_witness :
  exists rc sig' chann',
    smb3_sign_smbpdu ref_kernel (chars "packet") 6 (repeat 9 16) chann0
    = Ret ((rc, sig'), chann')
    /\ (rc = 0 ->
        sig' = fit 16 (sum_mac (repeat 5 16) (chars "packet")) ++ [])
    /\ (always_succeeds ref_kernel -> rc = 0)
    /\ smb3signingkey chann' = smb3signingkey chann0
    /\ srv_step (chann_server chann0) (chann_server chann').
Proof.
  apply (smb3_signature_is_cmac ref_kernel chann0 (chars "packet") 6
           (repeat 9 16)).
  - split; discriminate.
  - vm_compute. discriminate.
  - vm_compute. split; discriminate.
  - reflexivity.
  - vm_compute. discriminate.
Defined.

(** ** The signing key and the signature made with it *)

Lemma wp_on_server_alloc {B} kern a (k : Z -> St cifssrv_sess B) Q s :
  wf_server (server s) ->
  (forall rc srv1,
      srv_step (server s) srv1 -> wf_server srv1 ->
      (rc = 0 -> allocated a srv1) ->
      wp (k rc) Q (with_server s srv1)) ->
  wp (bind (on_server (crypto_alloc kern a)) k) Q s.
Proof.
  intros WF H. unfold wp, bind, on_server.
  destruct (crypto_alloc_steps kern a (server s) WF)
    as (rc & srv1 & E & S & _ & OK).
  rewrite E. apply H; [exact S | apply S, WF | exact OK].
Qed.

(** After compute_smb3xsigningkey has returned 0, the connection has the
    HMAC-SHA256 and the CMAC-AES transforms. *)
Lemma smb3_key_allocates kern key key_size s rc key' s' :
  wf_server (server s) ->
  compute_smb3xsigningkey kern key key_size s = Ret ((rc, key'), s') ->
  rc = 0 ->
  wf_server (server s')
  /\ allocated HMAC_SHA256 (server s') /\ allocated CMAC_AES (server s').
Proof.
  intros WF E. revert E.
  apply (wp_elim (compute_smb3xsigningkey kern key key_size)
           (fun r s' =>
              fst r = 0 ->
              wf_server (server s')
              /\ allocated HMAC_SHA256 (server s')
              /\ allocated CMAC_AES (server s')) s (rc, key') s').
  unfold compute_smb3xsigningkey. cbv zeta.
  apply wp_lift; intros prfhash _. apply wp_lift; intros key0 _.
  apply (wp_on_server_alloc kern HMAC_SHA256); [exact WF|].
  intros rc1 s1 S1 WF1 A1.
  destruct (rc1 =? 0) eqn:R1;
    [|apply wp_ret; cbn; intros Z; rewrite Z in R1; discriminate].
  apply Z.eqb_eq in R1.
  apply (wp_on_server_alloc kern CMAC_AES); [exact WF1|].
  intros rc2 s2 S2 WF2 A2.
  destruct (rc2 =? 0) eqn:R2;
    [|apply wp_ret; cbn; intros Z; rewrite Z in R2; discriminate].
  apply Z.eqb_eq in R2.
  assert (A12 : allocated HMAC_SHA256 s2) by (apply S2; auto).
  specialize (A2 R2).
  match goal with
  | |- wp _ _ ?x => pose proof (crypto_step_refl x) as H
  end.
  steps_wp H.
  all: intros _; destruct H as ((_ & _ & (_ & _ & _ & W)) & _);
    destruct (W WF2) as [W1 W2]; auto.
Qed.

Lemma length_derive_smb3_signing_key kern k d h n :
  0 <= n <= 32 ->
  length (derive_smb3_signing_key kern k d h n) = Z.to_nat n.
Proof.
  intros H. unfold derive_smb3_signing_key.
  rewrite length_firstn, length_fit. lia.
Qed.

(** The signing key in the buffer after a derivation that returned 0. *)
Lemma smb3_key_value kern sess key key_size key' sess' :
  wf_server (server sess) ->
  0 <= key_size <= len key -> key_size <= 32 ->
  16 <= len (sess_key sess) ->
  64 <= len (Preauth_HashValue sess) ->
  compute_smb3xsigningkey kern key key_size sess = Ret ((0, key'), sess') ->
  key' = derive_smb3_signing_key kern (firstn 16 (sess_key sess))
           (dialect (server sess)) (Preauth_HashValue sess) key_size
         ++ skipn (Z.to_nat key_size) key.
Proof.
  intros WF Hk H32 Hs Hp E.
  destruct (smb3_key_run kern sess key key_size WF Hk H32 Hs Hp)
    as (rc & k1 & s1 & E1 & [[NZ _] | [_ V]] & _);
    rewrite E in E1; injection E1 as <- <- <-; [contradiction | exact V].
Qed.

(** X9: The key compute_smb3xsigningkey leaves in a channel, and the transform
    it has allocated, are what smb3_sign_smbpdu needs: after a derivation of
    16 bytes that returned 0, the signature of a packet is the CMAC-AES of the
    packet under the derived key. *)
Theorem smb3_sign_after_key_derivation (kern : kernel)
    (sess sess' : cifssrv_sess) (key key' buf sig : bytes) (sz : Z) :
  wf_server (server sess) ->
  16 <= len key ->
  16 <= len (sess_key sess) ->
  64 <= len (Preauth_HashValue sess) ->
  compute_smb3xsigningkey kern key 16 sess = Ret ((0, key'), sess') ->
  0 <= sz <= len buf -> sz < 2 ^ 31 ->
  16 <= len sig ->
  exists rc sig' chann',
    smb3_sign_smbpdu kern buf sz sig
      {| chann_server := server sess'; smb3signingkey := key' |}
    = Ret ((rc, sig'), chann')
    /\ (rc = 0 ->
        sig' = fit 16 (shash_mac kern CMAC_AES
                         (derive_smb3_signing_key kern
                            (firstn 16 (sess_key sess))
                            (dialect (server sess))
                            (Preauth_HashValue sess) 16)
                         (firstn (Z.to_nat sz) buf))
               ++ skipn 16 sig)
    /\ (always_succeeds kern -> rc = 0).
Proof.
  intros WF Hk Hs Hp E Hz Hz31 Hg.
  destruct (smb3_key_allocates _ _ _ _ _ _ _ WF E eq_refl) as (_ & _ & A).
  pose proof (smb3_key_value kern sess key 16 key' sess' WF
                ltac:(lia) ltac:(lia) Hs Hp E) as V.
  assert (L : length (derive_smb3_signing_key kern
                        (firstn 16 (sess_key sess)) (dialect (server sess))
                        (Preauth_HashValue sess) 16) = 16%nat)
    by (rewrite length_derive_smb3_signing_key; [reflexivity | lia]).
  assert (F : firstn 16 key'
              = derive_smb3_signing_key kern (firstn 16 (sess_key sess))
                  (dialect (server sess)) (Preauth_HashValue sess) 16).
  { rewrite V. apply firstn_prefix. exact L. }
  destruct (smb3_sign_run kern
              {| chann_server := server sess'; smb3signingkey := key' |}
              buf sz sig) as (rc & sig' & srv' & R & S & OK);
    try assumption.
  { cbn. rewrite V, len_app. unfold len. rewrite L.
    pose proof (len_nonneg (skipn (Z.to_nat 16) key)). unfold len in *. lia. }
  cbn [smb3signingkey] in R, S. rewrite F in S.
  do 3 eexists. split; [exact R|]. split; [exact S | exact OK].
Qed.

Lemma smb3_sign_after_key_derivation_witness :
  exists key' sess',
    compute_smb3xsigningkey ref_kernel (repeat 0 16) 16 sess0
    = Ret ((0, key'), sess')
    /\ exists rc sig' chann',
         smb3_sign_smbpdu ref_kernel (chars "packet") 6 (repeat 0 16)
           {| chann_server := server sess'; smb3signingkey := key' |}
         = Ret ((rc, sig'), chann')
         /\ (rc = 0 ->
             sig' = fit 16 (sum_mac
                              (derive_smb3_signing_key ref_kernel
                                 (repeat 0 16) SMB311_PROT_ID
                                 (repeat 0 64) 16)
                              (chars "packet"))
                    ++ [])
         /\ (always_succeeds ref_kernel -> rc = 0).
Proof.
  do 2 eexists. split; [vm_compute; reflexivity|].
  apply (smb3_sign_after_key_derivation ref_kernel sess0 _ (repeat 0 16)
           _ (chars "packet") (repeat 0 16) 6).
  - exact wf_srv0.
  - vm_compute. discriminate.
  - vm_compute. discriminate.
  - vm_compute. discriminate.
  - vm_compute. reflexivity.
  - vm_compute. split; discriminate.
  - reflexivity.
  - vm_compute. discriminate.
Defined.

(** X10: Deriving the key again, on the session as the first derivation left
    it, gives the same key: the derivation reads nothing it or any signing
    call writes. *)
Theorem smb3_key_rederivation (kern : kernel) (sess sess1 : cifssrv_sess)
    (key key1 buf : bytes) (key_size : Z) :
  wf_server (server sess) ->
  0 <= key_size <= len key -> key_size <= len buf -> key_size <= 32 ->
  16 <= len (sess_key sess) ->
  64 <= len (Preauth_HashValue sess) ->
  compute_smb3xsigningkey kern key key_size sess = Ret ((0, key1), sess1) ->
  exists rc key2 sess2,
    compute_smb3xsigningkey kern buf key_size sess1
    = Ret ((rc, key2), sess2)
    /\ (rc = 0 ->
        firstn (Z.to_nat key_size) key2 = firstn (Z.to_nat key_size) key1).
Proof.
  intros WF Hk Hb H32 Hs Hp E.
  pose proof (smb3_key_value _ _ _ _ _ _ WF Hk H32 Hs Hp E) as V1.
  destruct (compute_smb3xsigningkey_step _ _ _ _ _ _ E)
    as ((_ & P & (D & _ & _ & W)) & _ & K & _).
  destruct (W WF) as [WF1 _].
  destruct (smb3_key_run kern sess1 buf key_size WF1)
    as (rc & key2 & sess2 & E2 & V2 & _); try lia;
    try (rewrite ?K, ?P; assumption).
  exists rc, key2, sess2. split; [exact E2|]. intros Z.
  destruct V2 as [[NZ _] | [_ V2]]; [contradiction|].
  rewrite V1, V2, K, P, D.
  rewrite !firstn_prefix
    by (rewrite length_derive_smb3_signing_key; [reflexivity | lia]).
  reflexivity.
Qed.

Lemma smb3_key_rederivation_witness :
  exists key1 sess1,
    compute_smb3xsigningkey ref_kernel (repeat 0 16) 16 sess0
    = Ret ((0, key1), sess1)
    /\ exists rc key2 sess2,
         compute_smb3xsigningkey ref_kernel (repeat 7 16) 16 sess1
         = Ret ((rc, key2), sess2)
         /\ (rc = 0 -> firstn 16 key2 = firstn 16 key1).
Proof.
  do 2 eexists. split; [vm_compute; reflexivity|].
  apply (smb3_key_rederivation ref_kernel sess0 _ (repeat 0 16) _
           (repeat 7 16) 16).
  - exact wf_srv0.
  - vm_compute. split; discriminate.
  - vm_compute. discriminate.
  - lia.
  - vm_compute. discriminate.
  - vm_compute. discriminate.
  - vm_compute. reflexivity.
Defined.

(** ** NTLMv1: which responses are accepted *)

Lemma strncmp_0 (s1 s2 : bytes) : strncmp s1 s2 0 = Ret 0.
Proof. destruct s1; reflexivity. Qed.

Lemma strncmp_refl (r tail : bytes) (n : nat) :
  (n <= length r)%nat -> strncmp (r ++ tail) r n = Ret 0.
Proof.
  revert r. induction n as [|n IH]; intros r L; [apply strncmp_0|].
  destruct r as [|c r]; [simpl in L; lia|].
  simpl. rewrite Z.eqb_refl. destruct (c =? 0); [reflexivity|].
  apply IH. simpl in L. lia.
Qed.

(** A comparison that came out equal compared equal bytes up to and
    including the first NUL of the key. *)
Lemma strncmp_equal_agree (n : nat) :
  forall (r key : bytes),
  strncmp r key n = Ret 0 ->
  forall j, (j < n)%nat ->
  (forall m, (m < j)%nat -> nth m key 1 <> 0) ->
  nth_error r j = nth_error key j /\ (j < length key)%nat.
Proof.
  induction n as [|n IH]; intros r key E j Hj NZ; [lia|].
  destruct r as [|c1 r]; [discriminate|].
  destruct key as [|c2 key]; [discriminate|].
  simpl in E. destruct (c1 =? c2) eqn:C.
  - apply Z.eqb_eq in C. subst c2.
    destruct j as [|j]; [simpl; split; [reflexivity | lia]|].
    destruct (c1 =? 0) eqn:Z0.
    + apply Z.eqb_eq in Z0. exfalso.
      apply (NZ 0%nat); [lia | exact Z0].
    + destruct (IH r key E j ltac:(lia)) as [A B].
      { intros m Hm. apply (NZ (S m)). lia. }
      simpl. split; [exact A | lia].
  - apply Z.eqb_neq in C. injection E as E. lia.
Qed.

(** process_ntlm returns 0 only through the comparison. *)
Lemma process_ntlm_accepted (kern : kernel) (sess sess' : cifssrv_sess)
    (r : bytes) :
  16 <= len (passkey (usr sess)) ->
  8 <= len (cryptkey (ntlmssp sess)) ->
  40 <= len (sess_key sess) ->
  process_ntlm kern r sess = Ret (0, sess') ->
  ntlm_status kern sess = 0
  /\ sess' = ntlm_committed kern sess
  /\ strncmp r (ntlm_response kern sess) 24 = Ret 0.
Proof.
  intros Hp Hc Hk E. rewrite process_ntlm_run in E by assumption.
  destruct (ntlm_status kern sess =? 0) eqn:St.
  - apply Z.eqb_eq in St.
    destruct (strncmp r (ntlm_response kern sess) 24) as [cmp|] eqn:C;
      [|discriminate].
    destruct (cmp =? 0) eqn:Z0; [|discriminate].
    apply Z.eqb_eq in Z0. subst cmp. injection E as _ <-. auto.
  - apply Z.eqb_neq in St. injection E as E _. contradiction.
Qed.

(** X11: process_ntlm returns 0 only after E_P24 has succeeded and for a
    response that agrees with the computed one at every position up to and
    including the first zero byte of the computed one; so a response whose
    first byte is wrong is never accepted. The session then holds the new key
    and the sequence number 1. *)
Theorem ntlm_accepted_response_agrees (kern : kernel)
    (sess sess' : cifssrv_sess) (r : bytes) :
  16 <= len (passkey (usr sess)) ->
  8 <= len (cryptkey (ntlmssp sess)) ->
  40 <= len (sess_key sess) ->
  process_ntlm kern r sess = Ret (0, sess') ->
  ntlm_status kern sess = 0
  /\ sess' = ntlm_committed kern sess
  /\ forall j, (j < 24)%nat ->
       (forall m, (m < j)%nat -> nth m (ntlm_response kern sess) 1 <> 0) ->
       nth_error r j = nth_error (ntlm_response kern sess) j.
Proof.
  intros Hp Hc Hk E.
  destruct (process_ntlm_accepted kern sess sess' r Hp Hc Hk E)
    as (St & Eq & C).
  split; [exact St|]. split; [exact Eq|].
  intros j Hj NZ. apply (strncmp_equal_agree 24 _ _ C j Hj NZ).
Qed.

Lemma ntlm_accepted_response_agrees_witness :
  ntlm_status ref_kernel sess0 = 0
  /\ ntlm_committed ref_kernel sess0 = ntlm_committed ref_kernel sess0
  /\ forall j, (j < 24)%nat ->
       (forall m, (m < j)%nat ->
                  nth m (ntlm_response ref_kernel sess0) 1 <> 0) ->
       nth_error (repeat 0 24) j
       = nth_error (ntlm_response ref_kernel sess0) j.
Proof.
  apply (ntlm_accepted_response_agrees ref_kernel sess0
           (ntlm_committed ref_kernel sess0) (repeat 0 24)).
  - vm_compute. discriminate.
  - vm_compute. discriminate.
  - vm_compute. discriminate.
  - vm_compute. reflexivity.
Defined.

(** X12: The computed response itself, whatever follows it in the message, is
    accepted. The session key is then the MD4 of the NT hash followed by the
    24 bytes of the response, 40 bytes in all, and the sequence number is 1;
    nothing else of the session changes. *)
Theorem ntlm_computed_response_accepted (kern : kernel)
    (sess : cifssrv_sess) (tail : bytes) :
  16 <= len (passkey (usr sess)) ->
  8 <= len (cryptkey (ntlmssp sess)) ->
  40 <= len (sess_key sess) ->
  ntlm_status kern sess = 0 ->
  exists sess',
    process_ntlm kern (ntlm_response kern sess ++ tail) sess
    = Ret (0, sess')
    /\ firstn 40 (sess_key sess')
       = fit 16 (smb_mdfour kern (firstn 16 (passkey (usr sess))))
         ++ ntlm_response kern sess
    /\ skipn 40 (sess_key sess') = skipn 40 (sess_key sess)
    /\ sequence_number sess' = 1
    /\ usr sess' = usr sess /\ ntlmssp sess' = ntlmssp sess
    /\ server sess' = server sess
    /\ Preauth_HashValue sess' = Preauth_HashValue sess.
Proof.
  intros Hp Hc Hk St.
  exists (ntlm_committed kern sess).
  rewrite process_ntlm_run by assumption. rewrite St. cbn [Z.eqb].
  rewrite strncmp_refl
    by (unfold ntlm_response; rewrite length_fit; lia).
  cbn [Z.eqb]. split; [reflexivity|].
  assert (L : length (ntlm_sess_key kern sess) = 40%nat).
  { unfold ntlm_sess_key, ntlm_response.
    rewrite length_app, !length_fit. reflexivity. }
  unfold ntlm_committed, with_sequence_number, with_sess_key.
  cbn [sess_key sequence_number usr ntlmssp server Preauth_HashValue].
  rewrite firstn_prefix by exact L. rewrite skipn_prefix by exact L.
  repeat split; reflexivity.
Qed.

Lemma ntlm_computed_response_accepted_witness :
  exists sess',
    process_ntlm ref_kernel (ntlm_response ref_kernel sess0 ++ [1; 2]) sess0
    = Ret (0, sess')
    /\ firstn 40 (sess_key sess')
       = fit 16 (smb_mdfour ref_kernel (firstn 16 (passkey (usr sess0))))
         ++ ntlm_response ref_kernel sess0
    /\ skipn 40 (sess_key sess') = skipn 40 (sess_key sess0)
    /\ sequence_number sess' = 1
    /\ usr sess' = usr sess0 /\ ntlmssp sess' = ntlmssp sess0
    /\ server sess' = server sess0
    /\ Preauth_HashValue sess' = Preauth_HashValue sess0.
Proof.
  apply (ntlm_computed_response_accepted ref_kernel sess0 [1; 2]).
  - vm_compute. discriminate.
  - vm_compute. discriminate.
  - vm_compute. discriminate.
  - reflexivity.
Defined.

(** X13: The signature of an SMB1 packet after an NTLMv1 logon: the MD5 of the
    MD4 of the NT hash, the 24-byte response and the packet. *)
Theorem smb1_sign_after_ntlm (kern : kernel) (sess sess' : cifssrv_sess)
    (r buf sig : bytes) (sz : Z) :
  wf_server (server sess) ->
  16 <= len (passkey (usr sess)) ->
  8 <= len (cryptkey (ntlmssp sess)) ->
  40 <= len (sess_key sess) ->
  process_ntlm kern r sess = Ret (0, sess') ->
  0 <= sz <= len buf -> sz < 2 ^ 31 ->
  16 <= len sig ->
  exists rc sig' sess'',
    smb1_sign_smbpdu kern buf sz sig sess' = Ret ((rc, sig'), sess'')
    /\ (rc = 0 ->
        sig' = fit 16 (shash_mac kern MD5 []
                         (fit 16 (smb_mdfour kern
                                    (firstn 16 (passkey (usr sess))))
                          ++ ntlm_response kern sess
                          ++ firstn (Z.to_nat sz) buf))
               ++ skipn 16 sig)
    /\ (always_succeeds kern -> rc = 0).
Proof.
  intros WF Hp Hc Hk E Hz Hz31 Hg.
  destruct (process_ntlm_accepted kern sess sess' r Hp Hc Hk E)
    as (_ & -> & _).
  assert (L : length (ntlm_sess_key kern sess) = 40%nat).
  { unfold ntlm_sess_key, ntlm_response.
    rewrite length_app, !length_fit. reflexivity. }
  destruct (smb1_sign_run kern (ntlm_committed kern sess) buf sz sig)
    as (rc & sig' & s2 & R & V & OK); try assumption.
  { unfold ntlm_committed, with_sequence_number, with_sess_key.
    cbn [sess_key]. rewrite len_app. unfold len. rewrite L.
    lia. }
  exists rc, sig', s2. split; [exact R|]. split; [|exact OK].
  intros Z. rewrite (V Z).
  unfold ntlm_committed, with_sequence_number, with_sess_key.
  cbn [sess_key]. rewrite firstn_prefix by exact L.
  unfold ntlm_sess_key. rewrite <- app_assoc. reflexivity.
Qed.

Lemma smb1_sign_after_ntlm_witness :
  exists rc sig' sess'',
    smb1_sign_smbpdu ref_kernel (chars "packet") 6 (repeat 0 16)
      (ntlm_committed ref_kernel sess0)
    = Ret ((rc, sig'), sess'')
    /\ (rc = 0 ->
        sig' = fit 16 (sum_mac []
                         (fit 16 (smb_mdfour ref_kernel
                                    (firstn 16 (passkey (usr sess0))))
                          ++ ntlm_response ref_kernel sess0
                          ++ chars "packet"))
               ++ [])
    /\ (always_succeeds ref_kernel -> rc = 0).
Proof.
  apply (smb1_sign_after_ntlm ref_kernel sess0
           (ntlm_committed ref_kernel sess0) response0 (chars "packet")
           (repeat 0 16) 6);
    first [ exact wf_srv0
          | vm_compute; discriminate
          | vm_compute; reflexivity
          | vm_compute; split; discriminate
          | vm_compute; split; [discriminate | reflexivity] ].
Defined.

(** ** NTLMv2 *)

Lemma compute_sess_key_run (kern : kernel) (sess : cifssrv_sess)
    (hash hmac : bytes) :
  wf_server (server sess) ->
  16 <= len hash -> 16 <= len hmac ->
  16 <= len (sess_key sess) ->
  exists rc sess',
    compute_sess_key kern hash hmac sess = Ret (rc, sess')
    /\ (rc = 0 ->
        sess_key sess'
        = digest kern HMAC_MD5 (firstn 16 hash) (firstn 16 hmac)
            ++ skipn 16 (sess_key sess))
    /\ (always_succeeds kern -> rc = 0).
Proof.
  intros WF Hh Hm Hk.
  unfold compute_sess_key.
  assert (FAIL : forall (rc : Z) (sess' : cifssrv_sess),
             (rc =? 0) = false -> (always_succeeds kern -> rc = 0) ->
             exists rc0 sess0,
               Ret (rc, sess') = Ret (rc0, sess0)
               /\ (rc0 = 0 ->
                   sess_key sess0
                   = digest kern HMAC_MD5 (firstn 16 hash) (firstn 16 hmac)
                       ++ skipn 16 (sess_key sess))
               /\ (always_succeeds kern -> rc0 = 0)).
  { intros rc sess' R A. exists rc, sess'.
    apply Z.eqb_neq in R. split; [reflexivity|]. split; [lia | exact A]. }
  alloc_step (crypto_hmacmd5_alloc_post kern) WF as rc1 s1 E1 P1 R1.
  2: { apply FAIL; [assumption | apply P1]. }
  destruct P1 as (WF1 & _ & _ & _ & _ & OK1 & _).
  destruct (OK1 ltac:(lia)) as (k1 & d1 & T1 & S1). cbn in T1, S1.
  exec; try (apply FAIL; [failed | ok_tac]).
  all: rewrite store_0 by (rewrite len_digest; simpl; lia); simp;
    autorewrite with run; simp.
  all: try (apply FAIL; [failed | ok_tac]).
  all: do 2 eexists; split; [reflexivity|]; split; [|reflexivity];
    intros _; simp; rewrite length_digest; reflexivity.
Qed.

Lemma calc_ntlmv2_hash_run (kern : kernel) (netbios_name : bytes)
    (sess : cifssrv_sess) (out : bytes) (dname : char_ptr) (d : bytes) :
  allocated HMAC_MD5 (server sess) ->
  16 <= len (passkey (usr sess)) ->
  16 <= len out ->
  c_string netbios_name dname = Ret d ->
  len (strtoUTF16 kern (local_nls (server sess)) (name (usr sess)))
    <= len (name (usr sess)) ->
  len (strtoUTF16 kern (local_nls (server sess)) d) <= len d ->
  len (name (usr sess)) < 2 ^ 31 -> len d < 2 ^ 31 ->
  exists rc out' sess',
    calc_ntlmv2_hash kern netbios_name out dname sess
    = Ret ((rc, out'), sess')
    /\ (rc = 0 -> out' = ntlmv2_hash kern sess d ++ skipn 16 out)
    /\ (always_succeeds kern -> rc = 0).
Proof.
  intros [T S] Hp Ho Hd Bn Bd Ln Ld.
  destruct (get_tfm HMAC_MD5 (secmech (server sess)))
    as [k0|] eqn:T0; [clear T | contradiction].
  destruct (get_sdesc HMAC_MD5 (secmech (server sess)))
    as [d0|] eqn:S0; [clear S | contradiction].
  cbn in T0, S0.
  unfold calc_ntlmv2_hash. rewrite bind_run, get_run. cbv beta iota.
  rewrite S0.
  pose proof (len_nonneg (name (usr sess))) as Pn.
  pose proof (len_nonneg d) as Pd.
  pose proof (smb_strtoUTF16_ok kern (1 + len (name (usr sess)))
                (name (usr sess)) (local_nls (server sess))
                ltac:(lia)) as C1.
  pose proof (smb_strtoUTF16_ok kern (1 + len d) d
                (local_nls (server sess)) ltac:(lia)) as C2.
  assert (L1 : load (le16s (UniStrupr kern
                              (strtoUTF16 kern (local_nls (server sess))
                                 (name (usr sess)))))
                 (to_u32 (UNICODE_LEN
                            (len (UniStrupr kern
                                    (strtoUTF16 kern
                                       (local_nls (server sess))
                                       (name (usr sess)))))))
               = Ret (le16s (UniStrupr kern
                               (strtoUTF16 kern (local_nls (server sess))
                                  (name (usr sess)))))).
  { apply load_le16s. unfold len in *. rewrite length_UniStrupr. lia. }
  pose proof (load_le16s (strtoUTF16 kern (local_nls (server sess)) d)
                ltac:(lia)) as L2.
  assert (FAIL : forall (rc : Z) (sess' : cifssrv_sess),
             (rc =? 0) = false -> (always_succeeds kern -> rc = 0) ->
             exists rc0 out' sess0,
               Ret (rc, out, sess') = Ret (rc0, out', sess0)
               /\ (rc0 = 0 ->
                   out' = ntlmv2_hash kern sess d ++ skipn 16 out)
               /\ (always_succeeds kern -> rc0 = 0)).
  { intros rc sess' R A. exists rc, out, sess'.
    apply Z.eqb_neq in R. split; [reflexivity|]. split; [lia | exact A]. }
  exec.
  all: try (apply FAIL; [failed | ok_tac]).
  all: rewrite store_0 by (rewrite len_digest; simpl; lia); simp;
    do 3 eexists; (split; [reflexivity|]); (split; [intros _ | reflexivity]);
    rewrite length_digest; unfold ntlmv2_hash.
  - match goal with H : (len _ =? 0) = true |- _ => apply Z.eqb_eq in H end.
    rewrite (len_0_nil (strtoUTF16 kern (local_nls (server sess))
                          (name (usr sess)))) by lia.
    reflexivity.
  - reflexivity.
Qed.

Lemma to_int_small (z : Z) : - 2 ^ 31 <= z < 2 ^ 31 -> to_int z = z.
Proof.
  intros H. unfold to_int. rewrite Z.mod_small; lia.
Qed.

Lemma firstn_digest kern a k d :
  firstn (digestsize a) (digest kern a k d) = digest kern a k d.
Proof. apply firstn_all2. rewrite length_digest. lia. Qed.

Lemma memcmp_ok (s1 s2 : bytes) (n : Z) :
  0 <= n -> n <= len s1 -> n <= len s2 ->
  memcmp s1 s2 n
  = Ret (bytes_diff (firstn (Z.to_nat n) s1) (firstn (Z.to_nat n) s2)).
Proof.
  intros H0 H1 H2. unfold memcmp. rewrite !load_ok by lia. reflexivity.
Qed.

(** Every run of process_ntlmv2 on arguments in bounds: either a step up to
    and including compute_sess_key has failed, and the session key is as it
    was, or the key is the derived one and the status is the result of the
    comparison with the computed response. *)
Lemma process_ntlmv2_cases (kern : kernel) (netbios_name : bytes)
    (sess : cifssrv_sess) (ntlmv2 : bytes) (blen : Z) (dname : char_ptr)
    (d : bytes) :
  wf_server (server sess) ->
  16 <= len (passkey (usr sess)) ->
  8 <= len (cryptkey (ntlmssp sess)) ->
  16 <= len (sess_key sess) ->
  c_string netbios_name dname = Ret d ->
  len (strtoUTF16 kern (local_nls (server sess)) (name (usr sess)))
    <= len (name (usr sess)) ->
  len (strtoUTF16 kern (local_nls (server sess)) d) <= len d ->
  len (name (usr sess)) < 2 ^ 31 -> len d < 2 ^ 31 ->
  0 <= blen < 2 ^ 31 - 8 ->
  16 + blen <= len ntlmv2 ->
  let blob := firstn (Z.to_nat blen) (skipn 16 ntlmv2) in
  exists rc sess',
    process_ntlmv2 kern netbios_name ntlmv2 blen dname sess = Ret (rc, sess')
    /\ ((rc <> 0 /\ sess_key sess' = sess_key sess
         /\ ~ always_succeeds kern)
        \/ (sess_key sess'
            = ntlmv2_sess_key kern sess d blob ++ skipn 16 (sess_key sess)
            /\ rc = bytes_diff (firstn 16 ntlmv2)
                      (ntlmv2_response kern sess d blob))).
Proof.
  intros WF Hp Hc Hk Hd Bn Bd Ln Ld Hb Hn blob.
  unfold process_ntlmv2.
  assert (FAIL : forall (rc : Z) (sess' : cifssrv_sess),
             (rc =? 0) = false -> (always_succeeds kern -> rc = 0) ->
             sess_key sess' = sess_key sess ->
             exists rc0 sess0,
               Ret (rc, sess') = Ret (rc0, sess0)
               /\ ((rc0 <> 0 /\ sess_key sess0 = sess_key sess
                    /\ ~ always_succeeds kern)
                   \/ (sess_key sess0
                       = ntlmv2_sess_key kern sess d blob
                           ++ skipn 16 (sess_key sess)
                       /\ rc0 = bytes_diff (firstn 16 ntlmv2)
                                  (ntlmv2_response kern sess d blob)))).
  { intros rc sess' R A K. exists rc, sess'.
    apply Z.eqb_neq in R. split; [reflexivity|]. left.
    split; [exact R|]. split; [exact K|].
    intros OK. apply R, A, OK. }
  alloc_step (crypto_hmacmd5_alloc_post kern) WF as rc1 s1 E1 P1 R1.
  2: { apply FAIL; [assumption | apply P1 | reflexivity]. }
  destruct P1 as (WF1 & _ & _ & NL1 & _ & OK1 & _).
  destruct (OK1 ltac:(lia)) as (k1 & d1 & T1 & S1).
  match goal with
  | |- context [bind _ _ ?st] => set (sA := st)
  end.
  assert (CALL : (if is_netbios_name dname
                  then calc_ntlmv2_hash kern netbios_name (local_buf 16)
                         NetbiosName
                  else calc_ntlmv2_hash kern netbios_name (local_buf 16)
                         dname)
                 = calc_ntlmv2_hash kern netbios_name (local_buf 16) dname)
    by (destruct dname; reflexivity).
  rewrite CALL, bind_run. clear CALL.
  assert (HH : ntlmv2_hash kern sA d = ntlmv2_hash kern sess d).
  { unfold ntlmv2_hash, sA. cbn [server usr]. now rewrite NL1. }
  destruct (calc_ntlmv2_hash_run kern netbios_name sA (local_buf 16)
              dname d) as (rc2 & h & s2 & E2 & V2 & OK2);
    try (unfold sA; cbn [server usr]; rewrite ?NL1; assumption).
  { unfold allocated, sA. cbn [server]. split; congruence. }
  { vm_compute. discriminate. }
  rewrite E2. cbv beta iota.
  destruct (calc_ntlmv2_hash_step _ _ _ _ _ _ _ E2)
    as ((U2 & _ & (_ & _ & _ & W2)) & N2 & K2 & _).
  destruct (W2 WF1) as [WF2 A2].
  destruct (A2 HMAC_MD5) as [T2 S2].
  { unfold allocated, sA. cbn [server]. split; congruence. }
  destruct (get_tfm HMAC_MD5 (secmech (server s2)))
    as [k2|] eqn:T20; [clear T2 | contradiction].
  destruct (get_sdesc HMAC_MD5 (secmech (server s2)))
    as [d2|] eqn:S20; [clear S2 | contradiction].
  cbn in T20, S20. unfold sA in U2, N2, K2. cbn in U2, N2, K2.
  destruct (rc2 =? 0) eqn:R2; cbn [negb].
  2: { apply FAIL; [assumption | exact OK2 | exact K2]. }
  apply Z.eqb_eq in R2. rewrite (V2 R2), HH.
  change (skipn 16 (local_buf 16)) with (@nil Z). rewrite app_nil_r.
  clear V2 HH E2 W2 A2. clear sA.
  set (hash := ntlmv2_hash kern sess d) in *.
  set (rsp := ntlmv2_response kern sess d blob) in *.
  assert (Lh : length hash = 16%nat) by apply length_digest.
  assert (Lr : length rsp = 16%nat) by apply length_digest.
  assert (Lb : len blob = blen).
  { unfold blob, len in *. rewrite length_firstn, length_skipn. lia. }
  pose proof (len_nonneg blob) as Pb.
  unfold compute_sess_key. consts.
  unfold Layout.Resp_blob_signature, Layout.Resp_ntlmv2_hash.
  rewrite (to_int_small (8 + blen)) by lia.
  rewrite (to_size_t_small blen) by lia.
  rewrite (to_u32_small (8 + blen)) by lia.
  rewrite kzalloc_run, (to_size_t_small (8 + blen)) by lia.
  assert (E_hash : load hash 16 = Ret hash).
  { rewrite load_ok by (unfold len; rewrite Lh; lia).
    f_equal. apply firstn_all2. rewrite Lh. reflexivity. }
  assert (E_rsp : load rsp 16 = Ret rsp).
  { rewrite load_ok by (unfold len; rewrite Lr; lia).
    f_equal. apply firstn_all2. rewrite Lr. reflexivity. }
  assert (E_cpy : memcpy (repeat 0 (Z.to_nat (8 + blen)))
                    (cryptkey (ntlmssp s2)) 8
                  = Ret (firstn 8 (cryptkey (ntlmssp sess))
                         ++ repeat 0 (Z.to_nat blen))).
  { rewrite N2, memcpy_ok by (rewrite ?len_repeat; lia).
    f_equal. f_equal.
    replace (Z.to_nat (8 + blen)) with (8 + Z.to_nat blen)%nat by lia.
    rewrite repeat_app. apply skipn_prefix. apply repeat_length. }
  assert (E_blob : load (ptr_add ntlmv2 16) blen = Ret blob)
    by (apply load_at; lia).
  assert (E_sto : store (firstn 8 (cryptkey (ntlmssp sess))
                         ++ repeat 0 (Z.to_nat blen)) 8 blob
                  = Ret (firstn 8 (cryptkey (ntlmssp sess)) ++ blob)).
  { pose proof (store_after (firstn 8 (cryptkey (ntlmssp sess)))
                  (repeat 0 (Z.to_nat blen)) [] blob) as SA.
    rewrite !app_nil_r in SA.
    replace (len (firstn 8 (cryptkey (ntlmssp sess)))) with 8 in SA
      by (unfold len in *; rewrite length_firstn; lia).
    apply SA. rewrite repeat_length. unfold len in Lb. lia. }
  assert (E_upd : load (firstn 8 (cryptkey (ntlmssp sess)) ++ blob)
                    (8 + blen)
                  = Ret (firstn 8 (cryptkey (ntlmssp sess)) ++ blob)).
  { replace (8 + blen)
      with (len (firstn 8 (cryptkey (ntlmssp sess)) ++ blob)).
    - apply load_all.
    - rewrite len_app. unfold len in *. rewrite length_firstn. lia. }
  assert (E_cmp : memcmp (ptr_add ntlmv2 0) rsp 16
                  = Ret (bytes_diff (firstn 16 ntlmv2) rsp)).
  { rewrite ptr_add_0, memcmp_ok by (unfold len in *; rewrite ?Lr; lia).
    change (Z.to_nat 16) with 16%nat.
    rewrite (firstn_all2 rsp) by (rewrite Lr; lia). reflexivity. }
  repeat (first [ head_step
                | rewrite alloc_hmacmd5_run
                | rewrite store_whole
                    by (rewrite length_digest; reflexivity)
                | progress
                    change (digest kern HMAC_MD5 hash
                              (firstn 8 (cryptkey (ntlmssp sess)) ++ blob))
                    with rsp
                | rewrite K2 ];
          simp).
  all: try (apply FAIL; [failed | ok_tac | simp; first [exact K2 | reflexivity]]).
  rewrite store_0 by (rewrite len_digest; simpl; lia). simp.
  repeat (head_step; simp).
  do 2 eexists. split; [reflexivity|]. right. simp.
  split; [|reflexivity].
  rewrite length_digest. reflexivity.
Qed.

Lemma process_ntlmv2_run (kern : kernel) (netbios_name : bytes)
    (sess : cifssrv_sess) (ntlmv2 : bytes) (blen : Z) (dname : char_ptr)
    (d : bytes) :
  wf_server (server sess) ->
  16 <= len (passkey (usr sess)) ->
  8 <= len (cryptkey (ntlmssp sess)) ->
  16 <= len (sess_key sess) ->
  c_string netbios_name dname = Ret d ->
  len (strtoUTF16 kern (local_nls (server sess)) (name (usr sess)))
    <= len (name (usr sess)) ->
  len (strtoUTF16 kern (local_nls (server sess)) d) <= len d ->
  len (name (usr sess)) < 2 ^ 31 -> len d < 2 ^ 31 ->
  0 <= blen < 2 ^ 31 - 8 ->
  16 + blen <= len ntlmv2 ->
  let blob := firstn (Z.to_nat blen) (skipn 16 ntlmv2) in
  exists rc sess',
    process_ntlmv2 kern netbios_name ntlmv2 blen dname sess = Ret (rc, sess')
    /\ (rc = 0 ->
        firstn 16 ntlmv2 = ntlmv2_response kern sess d blob
        /\ sess_key sess'
           = ntlmv2_sess_key kern sess d blob ++ skipn 16 (sess_key sess))
    /\ (always_succeeds kern ->
        rc = bytes_diff (firstn 16 ntlmv2)
               (ntlmv2_response kern sess d blob)).
Proof.
  intros WF Hp Hc Hk Hd Bn Bd Ln Ld Hb Hn blob.
  destruct (process_ntlmv2_cases kern netbios_name sess ntlmv2 blen dname d)
    as (rc & sess' & E & C); try assumption.
  fold blob in C. exists rc, sess'. split; [exact E|]. split.
  - intros Z. destruct C as [[N _] | [K R]]; [contradiction|].
    split; [|exact K].
    apply bytes_diff_eq; [|congruence].
    rewrite length_firstn. unfold ntlmv2_response.
    rewrite length_digest. unfold len in Hn.
    change (digestsize HMAC_MD5) with 16%nat. lia.
  - intros OK. destruct C as [(_ & _ & N) | [_ R]]; [contradiction | exact R].
Qed.

(** X14: process_ntlmv2 returns 0 only for a response whose first 16 bytes are
    the HMAC-MD5, keyed by the NTLMv2 hash, of the challenge of the session
    followed by the client blob, and when no step fails it returns 0 for every
    such response. The session key is then the HMAC-MD5 of that response under
    the NTLMv2 hash, in the first 16 bytes of sess_key; the sequence number is
    not touched. *)
Theorem ntlmv2_accepts_matching_response (kern : kernel)
    (netbios_name : bytes) (sess : cifssrv_sess) (ntlmv2 : bytes) (blen : Z)
    (dname : char_ptr) (d : bytes) :
  wf_server (server sess) ->
  16 <= len (passkey (usr sess)) ->
  8 <= len (cryptkey (ntlmssp sess)) ->
  16 <= len (sess_key sess) ->
  c_string netbios_name dname = Ret d ->
  len (strtoUTF16 kern (local_nls (server sess)) (name (usr sess)))
    <= len (name (usr sess)) ->
  len (strtoUTF16 kern (local_nls (server sess)) d) <= len d ->
  len (name (usr sess)) < 2 ^ 31 -> len d < 2 ^ 31 ->
  0 <= blen < 2 ^ 31 - 8 ->
  16 + blen <= len ntlmv2 ->
  let blob := firstn (Z.to_nat blen) (skipn 16 ntlmv2) in
  exists rc sess',
    process_ntlmv2 kern netbios_name ntlmv2 blen dname sess = Ret (rc, sess')
    /\ (rc = 0 ->
        firstn 16 ntlmv2 = ntlmv2_response kern sess d blob
        /\ sess_key sess'
           = ntlmv2_sess_key kern sess d blob ++ skipn 16 (sess_key sess))
    /\ (always_succeeds kern ->
        firstn 16 ntlmv2 = ntlmv2_response kern sess d blob -> rc = 0)
    /\ sequence_number sess' = sequence_number sess
    /\ conn_step sess sess'.
Proof.
  intros WF Hp Hc Hk Hd Bn Bd Ln Ld Hb Hn blob.
  destruct (process_ntlmv2_run kern netbios_name sess ntlmv2 blen dname d
              WF Hp Hc Hk Hd Bn Bd Ln Ld Hb Hn)
    as (rc & sess' & E & V & OK).
  exists rc, sess'. split; [exact E|]. split; [exact V|].
  split; [|split].
  - intros AS M. rewrite (OK AS). fold blob. rewrite M.
    apply bytes_diff_refl.
  - pose proof (wp_elim _ _ _ _ _
                  (process_ntlmv2_post kern netbios_name ntlmv2 blen dname
                     sess) E) as [N _].
    exact N.
  - eapply process_ntlmv2_step, E.
Qed.

Lemma ntlmv2_accepts_matching_response_witness :
  exists rc sess',
    process_ntlmv2 ref_kernel (chars "FSRV") good_ntlmv2 8 NetbiosName sess0
    = Ret (rc, sess')
    /\ (rc = 0 ->
        firstn 16 good_ntlmv2
        = ntlmv2_response ref_kernel sess0 (chars "FSRV")
            (firstn 8 (skipn 16 good_ntlmv2))
        /\ sess_key sess'
           = ntlmv2_sess_key ref_kernel sess0 (chars "FSRV")
               (firstn 8 (skipn 16 good_ntlmv2))
             ++ skipn 16 (sess_key sess0))
    /\ (always_succeeds ref_kernel ->
        firstn 16 good_ntlmv2
        = ntlmv2_response ref_kernel sess0 (chars "FSRV")
            (firstn 8 (skipn 16 good_ntlmv2)) ->
        rc = 0)
    /\ sequence_number sess' = sequence_number sess0
    /\ conn_step sess0 sess'.
Proof.
  apply (ntlmv2_accepts_matching_response ref_kernel (chars "FSRV") sess0
           good_ntlmv2 8 NetbiosName (chars "FSRV")).
  - exact wf_srv0.
  - vm_compute. discriminate.
  - vm_compute. discriminate.
  - vm_compute. discriminate.
  - reflexivity.
  - vm_compute. discriminate.
  - vm_compute. discriminate.
  - reflexivity.
  - reflexivity.
  - lia.
  - vm_compute. discriminate.
Defined.

(** The response [good_ntlmv2] is accepted, the same response with a wrong
    first byte is not. *)
Example ntlmv2_good_and_bad :
  (exists sess',
      process_ntlmv2 ref_kernel (chars "FSRV") good_ntlmv2 8 NetbiosName
        sess0 = Ret (0, sess'))
  /\ (exists rc sess',
         process_ntlmv2 ref_kernel (chars "FSRV")
           (0xff :: skipn 1 good_ntlmv2) 8 NetbiosName sess0
         = Ret (rc, sess') /\ rc <> 0).
Proof.
  split.
  - eexists. vm_compute. reflexivity.
  - do 2 eexists. split; [vm_compute; reflexivity | discriminate].
Qed.

(** A status that is not 0 ends a call with that status. *)
Lemma wp_try {S B} (m : St S Z) (k : St S B) (out : Z -> B)
    (Q : B -> S -> Prop) (s : S) :
  (forall rc s1, m s = Ret (rc, s1) -> rc <> 0 -> Q (out rc) s1) ->
  (forall s1, m s = Ret (0, s1) -> wp k Q s1) ->
  wp (bind m (fun rc => if rc =? 0 then k else ret (out rc))) Q s.
Proof.
  intros F K. unfold wp, bind.
  destruct (m s) as [[rc s1]|] eqn:E; [|exact I].
  destruct (rc =? 0) eqn:R.
  - apply Z.eqb_eq in R. subst rc. apply (K s1 eq_refl).
  - apply Z.eqb_neq in R. apply (F rc s1 eq_refl R).
Qed.

(** X15: An NtChallengeResponse shorter than the 16 bytes of an NTLMv2 hash
    gives process_ntlmv2 a negative blob length. Such a response is never
    accepted: the call ends with an error status, or, when the allocation of 8
    + blen bytes succeeds, in an access outside its buffers. *)
Theorem ntlmv2_short_response_not_accepted (kern : kernel)
    (netbios_name : bytes) (sess sess' : cifssrv_sess) (ntlmv2 : bytes)
    (blen : Z) (dname : char_ptr) :
  - 16 <= blen < 0 ->
  len ntlmv2 < 2 ^ 63 ->
  process_ntlmv2 kern netbios_name ntlmv2 blen dname sess <> Ret (0, sess').
Proof.
  intros Hb Hn E.
  assert (W : wp (process_ntlmv2 kern netbios_name ntlmv2 blen dname)
                (fun rc _ => rc <> 0) sess).
  { unfold process_ntlmv2.
    apply (wp_try _ _ (fun rc => rc)); [intros; assumption|].
    intros s1 _. apply wp_bind. unfold wp at 1.
    destruct ((if is_netbios_name dname
               then calc_ntlmv2_hash kern netbios_name (local_buf 16)
                      NetbiosName
               else calc_ntlmv2_hash kern netbios_name (local_buf 16)
                      dname) s1) as [[[rc2 h] s2]|]; [|exact I].
    destruct (rc2 =? 0) eqn:R2; cbn [negb];
      [|apply wp_ret; now apply Z.eqb_neq].
    apply (wp_try _ _ (fun rc => rc)); [intros; assumption|].
    intros s3 _.
    apply (wp_try _ _ (fun rc => rc)); [intros; assumption|].
    intros s4 _.
    destruct (kzalloc kern (to_int (CIFS_CRYPTO_KEY_SIZE + blen)))
      as [construct|]; [|apply wp_ret; discriminate].
    apply wp_get. apply wp_lift. intros c1 _.
    apply wp_lift. intros b Lb. exfalso.
    unfold load in Lb.
    assert (T : to_size_t blen = 2 ^ 64 + blen).
    { unfold to_size_t.
      rewrite <- (Z.mod_add blen 1 (2 ^ 64)) by lia.
      rewrite Z.mod_small; lia. }
    rewrite T in Lb.
    destruct (2 ^ 64 + blen
              <=? len (ptr_add ntlmv2 Layout.Resp_blob_signature)) eqn:B.
    - apply Z.leb_le in B.
      change (ptr_add ntlmv2 Layout.Resp_blob_signature)
        with (skipn 16 ntlmv2) in B.
      unfold len in *. rewrite length_skipn in B. lia.
    - rewrite andb_false_r in Lb. discriminate. }
  exact (wp_elim _ _ _ _ _ W E eq_refl).
Qed.

Lemma ntlmv2_short_response_not_accepted_witness :
  process_ntlmv2 ref_kernel (chars "FSRV") (repeat 0xff 8) (- 8) (Str [])
    sess0
  <> Ret (0, sess0).
Proof.
  apply ntlmv2_short_response_not_accepted; [lia | reflexivity].
Defined.

(** With the allocator of [ref_kernel], which does not fail, the call
    writes the 8 bytes of the challenge into an allocation of 0 bytes. *)
Example ntlmv2_short_response_faults :
  process_ntlmv2 ref_kernel (chars "FSRV") (repeat 0xff 8) (- 8) (Str [])
    sess0 = Fault.
Proof. vm_compute. reflexivity. Qed.

(** ** The challenge message, field by field *)

(** A read that a later store does not overlap sees what was there. *)
Ltac past_any :=
  match goal with
  | E : store _ _ _ = Ret ?c |- context [load (ptr_add ?c _) _] =>
      rewrite (load_store_other _ _ _ _ _ _ E) by sizes
  | F : forall o m : Z, _ |- context [load (ptr_add ?c _) _] =>
      rewrite F by lia
  end.

Lemma challenge_flags_range (cflags : Z) :
  0 <= challenge_flags cflags < 2 ^ 32.
Proof.
  unfold challenge_flags.
  destruct (Z.land cflags NTLMSSP_REQUEST_TARGET =? 0);
    vm_compute; (split; [discriminate | reflexivity]).
Qed.

Lemma fill_challenge_blob_fields (chgblob : bytes) (cflags : Z)
    (uname : list Z) (challenge : bytes) :
  let nm := le16s uname in
  let total := Layout.sizeof_CHALLENGE_MESSAGE + len nm
               + (4 * (4 + len nm) + 4) in
  8 <= len challenge ->
  4 * (4 + len nm) + 4 < 65536 ->
  total <= len chgblob ->
  exists blob,
    fill_challenge_blob chgblob cflags uname challenge = Ret (total, blob)
    /\ len blob = len chgblob
    /\ load (ptr_add blob 0) 8 = Ret NTLMSSP_SIGNATURE
    /\ read_le32 blob 8 = Ret NtLmChallenge
    /\ read_le16 blob 12 = Ret (len nm)
    /\ read_le16 blob 14 = Ret (len nm)
    /\ read_le32 blob 16 = Ret Layout.sizeof_CHALLENGE_MESSAGE
    /\ read_le32 blob 20 = Ret (challenge_flags cflags)
    /\ load (ptr_add blob 24) 8 = Ret (firstn 8 challenge)
    /\ load (ptr_add blob 32) 8 = load (ptr_add chgblob 32) 8
    /\ load (ptr_add blob 48) (len nm) = Ret nm
    /\ (forall o m, 0 <= m -> total <= o ->
          load (ptr_add blob o) m = load (ptr_add chgblob o) m).
Proof.
  intros nm total HC HT HB. subst total.
  pose proof (len_nonneg nm) as N0.
  assert (N2 : len nm = 2 * len uname) by apply len_le16s.
  assert (LN : to_u32 (UNICODE_LEN (len uname)) = len nm).
  { unfold UNICODE_LEN. rewrite <- N2.
    apply to_u32_small. change (2 ^ 32) with 4294967296. lia. }
  assert (Ln : load (le16s (uname ++ [0])) (len nm) = Ret nm).
  { rewrite le16s_terminated, load_ok
      by (rewrite len_app; fold nm; change (len [0; 0]) with 2; lia).
    f_equal. apply firstn_prefix. unfold len. now rewrite Nat2Z.id. }
  clearbody nm.
  pose proof (challenge_flags_range cflags) as FR.
  unfold fill_challenge_blob. cbv zeta. rewrite LN.
  assert (FL : (if negb (Z.land cflags NTLMSSP_REQUEST_TARGET =? 0)
                then Z.lor challenge_base_flags NTLMSSP_REQUEST_TARGET
                else challenge_base_flags) = challenge_flags cflags).
  { unfold challenge_flags.
    destruct (Z.land cflags NTLMSSP_REQUEST_TARGET =? 0); reflexivity. }
  fold challenge_base_flags. rewrite FL. clear FL.
  set (flags := challenge_flags cflags) in *.
  field_offsets. rewrite ?Z.add_0_r.
  change (12 + 2) with 14. change (12 + 4) with 16.
  change (40 + 2) with 42. change (40 + 4) with 44.
  change (load NTLMSSP_SIGNATURE 8) with (Ret NTLMSSP_SIGNATURE).
  cbn [obind].
  assert (LS : len NTLMSSP_SIGNATURE = 8) by reflexivity.
  store_step as c1 E1 L1; [lia | lia |].
  store_step as c2 E2 L2; sizes.
  store_step as c3 E3 L3; sizes.
  store_step as c4 E4 L4; sizes.
  store_step as c5 E5 L5; sizes.
  store_step as c6 E6 L6; sizes.
  unfold CIFS_CRYPTO_KEY_SIZE. rewrite (load_ok challenge 8) by lia.
  cbn [obind]. change (Z.to_nat 8) with 8%nat.
  assert (LC : len (firstn 8 challenge) = 8).
  { unfold len in *. rewrite length_firstn. lia. }
  store_step as c7 E7 L7; [lia | lia |].
  assert (R7 : read_le32 c7 16 = Ret 48).
  { past32 E7. eapply read_le32_store; [|exact E6]. lia. }
  rewrite R7. cbn [obind].
  store_step as c8 E8 L8; sizes.
  rewrite Ln. cbn [obind].
  store_step as c9 E9 L9; [lia | lia |].
  store_step as c10 E10 L10; sizes.
  assert (R10 : read_le16 c10 40 = Ret 0).
  { eapply read_le16_store; [|exact E10]. lia. }
  change (Z.to_nat (NTLMSSP_AV_DNS_DOMAIN_NAME + 1
                    - NTLMSSP_AV_NB_COMPUTER_NAME)) with 4%nat.
  destruct (target_info_rounds (le16s (uname ++ [0])) nm 4 Ln
              NTLMSSP_AV_NB_COMPUTER_NAME 0 (48 + len nm) c10)
    as (c11 & E11 & L11 & R11 & _ & F11);
    try assumption; try (unfold NTLMSSP_AV_NB_COMPUTER_NAME; lia).
  rewrite E11. cbn [obind].
  change (Z.of_nat 4) with 4 in *.
  set (tinfo := 48 + len nm + 4 * (4 + len nm)) in *.
  rewrite Z.add_0_r.
  store_step as c12 E12 L12; sizes.
  store_step as c13 E13 L13; sizes.
  assert (R13 : read_le16 c13 40 = Ret (4 * (4 + len nm))).
  { past16 E13. past16 E12. exact R11. }
  rewrite R13. cbn [obind].
  store_step as c14 E14 L14; sizes.
  assert (U : 4 * (4 + len nm) + to_u16 4 = 4 * (4 + len nm) + 4)
    by reflexivity.
  rewrite U in E14.
  assert (R14 : read_le16 c14 40 = Ret (4 * (4 + len nm) + 4)).
  { eapply read_le16_store; [|exact E14]. lia. }
  rewrite R14. cbn [obind].
  store_step as c15 E15 L15; sizes.
  clear R7 R10 R11 R13 R14.
  exists c15. split.
  { do 2 f_equal. unfold to_u16, to_u32.
    rewrite (Z.mod_small (48 + len nm))
      by (change (2 ^ 16) with 65536; lia).
    rewrite Z.mod_small; [subst tinfo; lia|].
    change (2 ^ 32) with 4294967296. lia. }
  split; [lia|].
  unfold read_le16, read_le32.
  repeat split.
  - do 14 past_any. rewrite <- LS at 1.
    apply (load_store_same _ _ _ _ E1).
  - do 13 past_any.
    change 4 with (len (le32 NtLmChallenge)).
    rewrite (load_store_same _ _ _ _ E2). reflexivity.
  - do 11 past_any.
    change 2 with (len (le16 (len nm))) at 1.
    rewrite (load_store_same _ _ _ _ E4). cbn [obind].
    rewrite le_val_le16 by lia. reflexivity.
  - do 10 past_any.
    change 2 with (len (le16 (len nm))) at 1.
    rewrite (load_store_same _ _ _ _ E5). cbn [obind].
    rewrite le_val_le16 by lia. reflexivity.
  - do 9 past_any.
    change 4 with (len (le32 48)). rewrite (load_store_same _ _ _ _ E6).
    reflexivity.
  - do 12 past_any.
    change 4 with (len (le32 flags)). rewrite (load_store_same _ _ _ _ E3).
    cbn [obind]. rewrite le_val_le32 by exact FR. reflexivity.
  - do 8 past_any. rewrite <- LC at 1.
    apply (load_store_same _ _ _ _ E7).
  - do 15 past_any. reflexivity.
  - do 6 past_any. apply (load_store_same _ _ _ _ E9).
  - intros o m Hm Ho. do 15 past_any. reflexivity.
Qed.

(** For a name that fits the local array the call is the filling of the
    blob, and the session receives the fresh challenge. *)
Lemma build_challenge_run (kern : kernel) (netbios_name chgblob : bytes)
    (sess : cifssrv_sess) :
  len (le16s (strtoUTF16 kern (local_nls (server sess)) netbios_name))
    < 2 * 8 ->
  build_ntlmssp_challenge_blob kern netbios_name chgblob sess
  = match fill_challenge_blob chgblob (client_flags (ntlmssp sess))
            (strtoUTF16 kern (local_nls (server sess)) netbios_name)
            (fit 8 (get_random_bytes kern 8)) with
    | Ret r =>
        Ret (r, with_ntlmssp sess
                  {| client_flags := client_flags (ntlmssp sess);
                     cryptkey := fit 8 (get_random_bytes kern 8) |})
    | Fault => Fault
    end.
Proof.
  intros Fit. rewrite len_le16s in Fit.
  unfold build_ntlmssp_challenge_blob.
  rewrite bind_run, get_run. cbv beta iota.
  rewrite bind_run, lift_run, smb_strtoUTF16_ok by lia. cbv beta iota zeta.
  rewrite bind_run, put_run. cbv beta iota.
  rewrite lift_run. reflexivity.
Qed.

(** X16: The fixed part of a challenge message: the signature, the message
    type 2, the flags of the server with the client's request for a target
    name echoed, and a TargetName buffer that describes the UTF-16 server name
    placed right after the 48 bytes of the header. *)
Theorem challenge_blob_header (kern : kernel) (netbios_name : bytes)
    (chgblob : bytes) (sess : cifssrv_sess) :
  let nm := le16s (strtoUTF16 kern (local_nls (server sess)) netbios_name) in
  let total := Layout.sizeof_CHALLENGE_MESSAGE + len nm
               + (4 * (4 + len nm) + 4) in
  len nm < 2 * 8 ->
  total <= len chgblob ->
  exists blob sess',
    build_ntlmssp_challenge_blob kern netbios_name chgblob sess
    = Ret ((total, blob), sess')
    /\ load (ptr_add blob Layout.Chg_Signature) 8 = Ret NTLMSSP_SIGNATURE
    /\ read_le32 blob Layout.Chg_MessageType = Ret NtLmChallenge
    /\ read_le32 blob Layout.Chg_NegotiateFlags
       = Ret (challenge_flags (client_flags (ntlmssp sess)))
    /\ read_le16 blob Layout.Chg_TargetName = Ret (len nm)
    /\ read_le16 blob (Layout.Chg_TargetName + 2) = Ret (len nm)
    /\ read_le32 blob (Layout.Chg_TargetName + 4)
       = Ret Layout.sizeof_CHALLENGE_MESSAGE
    /\ load (ptr_add blob Layout.sizeof_CHALLENGE_MESSAGE) (len nm) = Ret nm.
Proof.
  intros nm total Fit Room.
  pose proof (len_nonneg nm) as N0.
  destruct (fill_challenge_blob_fields chgblob (client_flags (ntlmssp sess))
              (strtoUTF16 kern (local_nls (server sess)) netbios_name)
              (fit 8 (get_random_bytes kern 8)))
    as (blob & E & _ & Sg & Ty & T1 & T2 & T3 & Fl & _ & _ & Nm & _).
  { rewrite len_fit. lia. }
  { fold nm. lia. }
  { exact Room. }
  rewrite build_challenge_run by exact Fit.
  fold nm total in E. rewrite E.
  do 2 eexists. split; [reflexivity|].
  repeat split; assumption.
Qed.

Lemma challenge_blob_header_witness :
  exists blob sess',
    build_ntlmssp_challenge_blob ref_kernel (chars "FSRV") (repeat 0xEE 120)
      sess0 = Ret ((108, blob), sess')
    /\ load (ptr_add blob 0) 8 = Ret NTLMSSP_SIGNATURE
    /\ read_le32 blob 8 = Ret 2
    /\ read_le32 blob 20 = Ret (challenge_flags 0)
    /\ read_le16 blob 12 = Ret 8
    /\ read_le16 blob 14 = Ret 8
    /\ read_le32 blob 16 = Ret 48
    /\ load (ptr_add blob 48) 8 = Ret (le16s (chars "FSRV")).
Proof.
  apply (challenge_blob_header ref_kernel (chars "FSRV") (repeat 0xEE 120)
           sess0); vm_compute; [reflexivity | discriminate].
Defined.

(** X17: The challenge sent is the challenge kept: the 8 bytes of the
    Challenge field of the blob are the cryptkey the session holds after the
    call, 8 bytes from the random source; the client flags of the session
    stay, and so does everything else of the session. *)
Theorem challenge_is_session_cryptkey (kern : kernel) (netbios_name : bytes)
    (chgblob : bytes) (sess : cifssrv_sess) :
  let nm := le16s (strtoUTF16 kern (local_nls (server sess)) netbios_name) in
  let total := Layout.sizeof_CHALLENGE_MESSAGE + len nm
               + (4 * (4 + len nm) + 4) in
  len nm < 2 * 8 ->
  total <= len chgblob ->
  exists blob sess',
    build_ntlmssp_challenge_blob kern netbios_name chgblob sess
    = Ret ((total, blob), sess')
    /\ load (ptr_add blob Layout.Chg_Challenge) CIFS_CRYPTO_KEY_SIZE
       = Ret (cryptkey (ntlmssp sess'))
    /\ cryptkey (ntlmssp sess') = fit 8 (get_random_bytes kern 8)
    /\ client_flags (ntlmssp sess') = client_flags (ntlmssp sess)
    /\ sess' = with_ntlmssp sess (ntlmssp sess').
Proof.
  intros nm total Fit Room.
  pose proof (len_nonneg nm) as N0.
  destruct (fill_challenge_blob_fields chgblob (client_flags (ntlmssp sess))
              (strtoUTF16 kern (local_nls (server sess)) netbios_name)
              (fit 8 (get_random_bytes kern 8)))
    as (blob & E & _ & _ & _ & _ & _ & _ & _ & Ch & _).
  { rewrite len_fit. lia. }
  { fold nm. lia. }
  { exact Room. }
  rewrite build_challenge_run by exact Fit.
  fold nm total in E. rewrite E.
  do 2 eexists. split; [reflexivity|].
  cbn [with_ntlmssp ntlmssp cryptkey client_flags].
  split; [|repeat split].
  change Layout.Chg_Challenge with 24.
  change CIFS_CRYPTO_KEY_SIZE with 8.
  rewrite Ch. f_equal. apply firstn_all2. rewrite length_fit. lia.
Qed.

Lemma challenge_is_session_cryptkey_witness :
  exists blob sess',
    build_ntlmssp_challenge_blob ref_kernel (chars "FSRV") (repeat 0xEE 120)
      sess0 = Ret ((108, blob), sess')
    /\ load (ptr_add blob 24) 8 = Ret (cryptkey (ntlmssp sess'))
    /\ cryptkey (ntlmssp sess') = challenge0
    /\ client_flags (ntlmssp sess') = 0
    /\ sess' = with_ntlmssp sess0 (ntlmssp sess').
Proof.
  apply (challenge_is_session_cryptkey ref_kernel (chars "FSRV")
           (repeat 0xEE 120) sess0); vm_compute; [reflexivity | discriminate].
Defined.

(** X18: What the call does not write: the 8 Reserved bytes of the header and
    every byte of the buffer past the length it returns are as the caller left
    them, and the buffer keeps its size. *)
Theorem challenge_blob_untouched_bytes (kern : kernel)
    (netbios_name : bytes) (chgblob : bytes) (sess : cifssrv_sess) :
  let nm := le16s (strtoUTF16 kern (local_nls (server sess)) netbios_name) in
  let total := Layout.sizeof_CHALLENGE_MESSAGE + len nm
               + (4 * (4 + len nm) + 4) in
  len nm < 2 * 8 ->
  total <= len chgblob ->
  exists blob sess',
    build_ntlmssp_challenge_blob kern netbios_name chgblob sess
    = Ret ((total, blob), sess')
    /\ len blob = len chgblob
    /\ load (ptr_add blob Layout.Chg_Reserved) 8
       = load (ptr_add chgblob Layout.Chg_Reserved) 8
    /\ skipn (Z.to_nat total) blob = skipn (Z.to_nat total) chgblob.
Proof.
  intros nm total Fit Room.
  pose proof (len_nonneg nm) as N0.
  destruct (fill_challenge_blob_fields chgblob (client_flags (ntlmssp sess))
              (strtoUTF16 kern (local_nls (server sess)) netbios_name)
              (fit 8 (get_random_bytes kern 8)))
    as (blob & E & L & _ & _ & _ & _ & _ & _ & _ & Rs & _ & Tl).
  { rewrite len_fit. lia. }
  { fold nm. lia. }
  { exact Room. }
  rewrite build_challenge_run by exact Fit.
  fold nm total in E, Tl. rewrite E.
  do 2 eexists. split; [reflexivity|]. split; [exact L|].
  split; [exact Rs|].
  assert (T0 : 0 <= total) by (subst total; unfold
    Layout.sizeof_CHALLENGE_MESSAGE; lia).
  specialize (Tl total (len chgblob - total) ltac:(lia) ltac:(lia)).
  rewrite !load_at in Tl by lia.
  injection Tl as Tl.
  rewrite !firstn_all2 in Tl
    by (rewrite length_skipn; unfold len in *; lia).
  exact Tl.
Qed.

Lemma challenge_blob_untouched_bytes_witness :
  exists blob sess',
    build_ntlmssp_challenge_blob ref_kernel (chars "FSRV") (repeat 0xEE 120)
      sess0 = Ret ((108, blob), sess')
    /\ len blob = 120
    /\ load (ptr_add blob 32) 8 = Ret (repeat 0xEE 8)
    /\ skipn 108 blob = repeat 0xEE 12.
Proof.
  apply (challenge_blob_untouched_bytes ref_kernel (chars "FSRV")
           (repeat 0xEE 120) sess0); vm_compute; [reflexivity | discriminate].
Defined.

(** ** The negotiate message *)

(** What a call that returned 0 has done: the flags of the message are in
    the session, and nothing else has changed. *)
Lemma decode_negotiate_accepted (negblob : bytes) (blob_len : Z)
    (sess sess' : cifssrv_sess) :
  decode_ntlmssp_negotiate_blob negblob blob_len sess = Ret (0, sess') ->
  exists flags,
    read_le32 negblob Layout.Neg_NegotiateFlags = Ret flags
    /\ sess' = with_ntlmssp sess {| client_flags := flags;
                                    cryptkey := cryptkey (ntlmssp sess) |}.
Proof.
  unfold decode_ntlmssp_negotiate_blob.
  destruct (to_size_t blob_len <? Layout.sizeof_NEGOTIATE_MESSAGE);
    [discriminate|].
  rewrite bind_run, lift_run.
  destruct (memcmp _ _ _) as [cmp|]; [|discriminate].
  destruct (cmp =? 0); cbn [negb]; [|discriminate].
  rewrite bind_run, lift_run.
  destruct (read_le32 negblob Layout.Neg_NegotiateFlags) as [flags|];
    [|discriminate].
  cbv beta iota. rewrite bind_run, get_run. cbv beta iota.
  rewrite bind_run, put_run. cbv beta iota. rewrite ret_run.
  intros [= <-]. exists flags. auto.
Qed.

(** X19: A negotiate message of full size that starts with the signature is
    accepted: the call returns 0 and records the 32-bit little-endian
    NegotiateFlags of the message as the client flags of the session, leaving
    the rest of the session, the challenge included, as it was. *)
Theorem negotiate_records_flags (negblob : bytes) (blob_len : Z)
    (sess : cifssrv_sess) :
  Layout.sizeof_NEGOTIATE_MESSAGE <= blob_len <= len negblob ->
  blob_len < 2 ^ 31 ->
  firstn 8 negblob = NTLMSSP_SIGNATURE ->
  decode_ntlmssp_negotiate_blob negblob blob_len sess
  = Ret (0, with_ntlmssp sess
              {| client_flags := le_val (firstn 4 (skipn 12 negblob));
                 cryptkey := cryptkey (ntlmssp sess) |}).
Proof.
  intros [S32 Sl] S31 Sig.
  unfold Layout.sizeof_NEGOTIATE_MESSAGE in S32.
  unfold decode_ntlmssp_negotiate_blob.
  rewrite to_size_t_small by lia.
  destruct (blob_len <? Layout.sizeof_NEGOTIATE_MESSAGE) eqn:T;
    [apply Z.ltb_lt in T; unfold Layout.sizeof_NEGOTIATE_MESSAGE in T; lia|].
  rewrite bind_run, lift_run, ptr_add_0, memcmp_signature by lia.
  rewrite Sig, bytes_diff_refl. change (0 =? 0) with true.
  cbv beta iota delta [negb].
  rewrite bind_run, lift_run.
  change Layout.Neg_NegotiateFlags with 12.
  rewrite read_le32_at by lia. cbv beta iota.
  rewrite bind_run, get_run. cbv beta iota.
  rewrite bind_run, put_run. cbv beta iota. reflexivity.
Qed.

Lemma negotiate_records_flags_witness :
  decode_ntlmssp_negotiate_blob (negotiate_message NTLMSSP_REQUEST_TARGET)
    32 sess0
  = Ret (0, with_ntlmssp sess0
              {| client_flags :=
                   le_val (firstn 4
                             (skipn 12
                                (negotiate_message NTLMSSP_REQUEST_TARGET)));
                 cryptkey := cryptkey (ntlmssp sess0) |}).
Proof.
  apply negotiate_records_flags.
  - vm_compute. split; discriminate.
  - reflexivity.
  - reflexivity.
Defined.

(** X20: From the negotiate message to the challenge: the challenge built
    after a negotiate message was accepted carries NTLMSSP_REQUEST_TARGET
    exactly when the client's flags did, on top of the flags the server always
    sets. *)
Theorem challenge_echoes_request_target (kern : kernel)
    (netbios_name negblob chgblob : bytes) (blob_len : Z)
    (sess sess1 : cifssrv_sess) :
  let nm := le16s (strtoUTF16 kern (local_nls (server sess)) netbios_name) in
  let total := Layout.sizeof_CHALLENGE_MESSAGE + len nm
               + (4 * (4 + len nm) + 4) in
  decode_ntlmssp_negotiate_blob negblob blob_len sess = Ret (0, sess1) ->
  len nm < 2 * 8 ->
  total <= len chgblob ->
  exists cflags blob sess2,
    read_le32 negblob Layout.Neg_NegotiateFlags = Ret cflags
    /\ build_ntlmssp_challenge_blob kern netbios_name chgblob sess1
       = Ret ((total, blob), sess2)
    /\ read_le32 blob Layout.Chg_NegotiateFlags
       = Ret (if Z.land cflags NTLMSSP_REQUEST_TARGET =? 0
              then challenge_base_flags
              else Z.lor challenge_base_flags NTLMSSP_REQUEST_TARGET)
    /\ Z.land challenge_base_flags NTLMSSP_REQUEST_TARGET = 0.
Proof.
  intros nm total D Fit Room.
  destruct (decode_negotiate_accepted _ _ _ _ D) as (cflags & Rd & ->).
  pose proof (len_nonneg nm) as N0.
  destruct (fill_challenge_blob_fields chgblob cflags
              (strtoUTF16 kern (local_nls (server sess)) netbios_name)
              (fit 8 (get_random_bytes kern 8)))
    as (blob & E & _ & _ & _ & _ & _ & _ & Fl & _).
  { rewrite len_fit. lia. }
  { fold nm. lia. }
  { exact Room. }
  exists cflags. rewrite build_challenge_run by exact Fit.
  cbn [with_ntlmssp ntlmssp client_flags server].
  fold nm total in E. rewrite E.
  do 2 eexists. split; [exact Rd|]. split; [reflexivity|].
  split; [exact Fl | reflexivity].
Qed.

Lemma challenge_echoes_request_target_witness :
  exists cflags blob sess2,
    read_le32 (negotiate_message NTLMSSP_REQUEST_TARGET) 12 = Ret cflags
    /\ build_ntlmssp_challenge_blob ref_kernel (chars "FSRV")
         (repeat 0 120)
         (with_ntlmssp sess0
            {| client_flags := NTLMSSP_REQUEST_TARGET;
               cryptkey := challenge0 |})
       = Ret ((108, blob), sess2)
    /\ read_le32 blob 20
       = Ret (if Z.land cflags NTLMSSP_REQUEST_TARGET =? 0
              then challenge_base_flags
              else Z.lor challenge_base_flags NTLMSSP_REQUEST_TARGET)
    /\ Z.land challenge_base_flags NTLMSSP_REQUEST_TARGET = 0.
Proof.
  apply (challenge_echoes_request_target ref_kernel (chars "FSRV")
           (negotiate_message NTLMSSP_REQUEST_TARGET) (repeat 0 120) 32
           sess0).
  - vm_compute. reflexivity.
  - vm_compute. reflexivity.
  - vm_compute. discriminate.
Defined.

(** ** The authenticate message, end to end *)

(** X21: An authenticate message of full size whose NtChallengeResponse buffer
    has length 24, lies inside the message and holds the response computed for
    the user and the challenge of the session is accepted: the call returns 0
    and leaves the 40-byte session key and the sequence number 1 in the
    session. *)
Theorem authenticate_accepts_ntlm_response (kern : kernel)
    (netbios_name authblob : bytes) (blob_len : Z) (sess : cifssrv_sess) :
  blob_len = len authblob ->
  Layout.sizeof_AUTHENTICATE_MESSAGE <= blob_len < 2 ^ 31 ->
  firstn 8 authblob = NTLMSSP_SIGNATURE ->
  auth_nt_len authblob = CIFS_AUTH_RESP_SIZE ->
  0 <= auth_nt_off authblob ->
  auth_nt_off authblob + CIFS_AUTH_RESP_SIZE <= blob_len ->
  firstn 24 (skipn (Z.to_nat (auth_nt_off authblob)) authblob)
  = ntlm_response kern sess ->
  16 <= len (passkey (usr sess)) ->
  8 <= len (cryptkey (ntlmssp sess)) ->
  40 <= len (sess_key sess) ->
  ntlm_status kern sess = 0 ->
  decode_ntlmssp_authenticate_blob kern netbios_name authblob blob_len sess
  = Ret (0, ntlm_committed kern sess).
Proof.
  intros L S Sig N24 O0 In Rsp Hp Hc Hk St.
  rewrite (decode_authenticate_checked kern netbios_name authblob blob_len
             sess L S Sig).
  apply Z.eqb_eq in N24. rewrite N24.
  unfold ptr_add.
  destruct (auth_nt_off authblob <? 0) eqn:N;
    [apply Z.ltb_lt in N; lia|].
  rewrite <- (firstn_skipn 24
                (skipn (Z.to_nat (auth_nt_off authblob)) authblob)).
  rewrite Rsp, process_ntlm_run by assumption.
  rewrite St. cbn [Z.eqb].
  rewrite strncmp_refl
    by (unfold ntlm_response; rewrite length_fit; lia).
  reflexivity.
Qed.

Lemma authenticate_accepts_ntlm_response_witness :
  decode_ntlmssp_authenticate_blob ref_kernel (chars "FSRV")
    good_ntlm_message 88 sess0
  = Ret (0, ntlm_committed ref_kernel sess0).
Proof.
  apply authenticate_accepts_ntlm_response;
    try (vm_compute; discriminate); try (vm_compute; reflexivity).
  vm_compute. split; [discriminate | reflexivity].
Defined.

(** ** The preauthentication hash and the connection *)

Lemma final_len kern a out srv rc out' srv' :
  crypto_shash_final kern a out srv = Ret ((rc, out'), srv') ->
  len out' = len out.
Proof.
  rewrite final_run.
  destruct (get_sdesc a (secmech srv)) as [d0|]; [|discriminate].
  destruct (get_tfm a (secmech srv)) as [k0|]; [|discriminate].
  destruct (final_err kern a k0 d0 =? 0).
  - destruct (store out 0 _) as [o|] eqn:St; [|discriminate].
    intros [= _ <- _]. apply (store_len _ _ _ _ St).
  - intros [= _ <- _]. reflexivity.
Qed.

Lemma wf_with_hash srv h :
  wf_server srv -> wf_server (with_srv_Preauth_HashValue srv h).
Proof. intros W. exact W. Qed.

Lemma allocated_with_hash a srv h :
  allocated a srv -> allocated a (with_srv_Preauth_HashValue srv h).
Proof. intros W. exact W. Qed.

(** With a pointer to an object of the caller, the function with the
    pointer is the function on the contents of the object. *)
Lemma calc_preauth_integrity_hash_ptr_object (kern : kernel) (hash_id : Z)
    (buf obj : bytes) (srv : tcp_server_info) :
  calc_preauth_integrity_hash_ptr kern hash_id buf (Caller_object obj) srv
  = match calc_preauth_integrity_hash kern hash_id buf obj srv with
    | Ret ((rc, out), srv') => Ret ((rc, Caller_object out), srv')
    | Fault => Fault
    end.
Proof.
  unfold calc_preauth_integrity_hash_ptr, calc_preauth_integrity_hash,
    crypto_shash_final_to, bind, ret, lift, get.
  destruct (read_be32 buf Layout.Hdr_smb2_buf_length); [|reflexivity].
  destruct (hash_id =? SMB2_PREAUTH_INTEGRITY_SHA512); [|reflexivity].
  destruct (crypto_sha512_alloc kern srv) as [[rc1 s1]|]; [|reflexivity].
  destruct (rc1 =? 0); [|reflexivity].
  destruct (crypto_shash_init kern SHA512 s1) as [[rc2 s2]|]; [|reflexivity].
  destruct (rc2 =? 0); [|reflexivity].
  destruct (crypto_shash_update kern SHA512 _ 64 s2) as [[rc3 s3]|];
    [|reflexivity].
  destruct (rc3 =? 0); [|reflexivity].
  destruct (crypto_shash_update kern SHA512 _ _ s3) as [[rc4 s4]|];
    [|reflexivity].
  destruct (rc4 =? 0); [|reflexivity].
  destruct (crypto_shash_final kern SHA512 obj s4) as [[[rc5 o5] s5]|];
    reflexivity.
Qed.

(** X22: calc_preauth_integrity_hash writes through [pi_hash] and nowhere
    else.  When [pi_hash] points to an object of the caller, the running
    hash of the connection is as before; when it points to the running hash
    itself, that is the one field of the connection written.  Either way
    the dialect and the character set stay, an allocated transform stays
    allocated, and the object written keeps its size.  For a hash id other
    than SHA-512 the call returns -1 and changes nothing at all. *)
Theorem preauth_hash_writes_through_pi_hash (kern : kernel) (hash_id : Z)
    (buf : bytes) (pi_hash pi_hash' : hash_ptr)
    (srv srv' : tcp_server_info) (rc : Z) :
  calc_preauth_integrity_hash_ptr kern hash_id buf pi_hash srv
  = Ret ((rc, pi_hash'), srv') ->
  dialect srv' = dialect srv
  /\ local_nls srv' = local_nls srv
  /\ (wf_server srv ->
      wf_server srv' /\ forall a, allocated a srv -> allocated a srv')
  /\ match pi_hash with
     | Caller_object obj =>
         srv_Preauth_HashValue srv' = srv_Preauth_HashValue srv
         /\ exists out, pi_hash' = Caller_object out /\ len out = len obj
     | Conn_Preauth_HashValue =>
         pi_hash' = Conn_Preauth_HashValue
         /\ len (srv_Preauth_HashValue srv')
            = len (srv_Preauth_HashValue srv)
     end
  /\ (hash_id <> SMB2_PREAUTH_INTEGRITY_SHA512 ->
      rc = - 1 /\ pi_hash' = pi_hash /\ srv' = srv).
Proof.
  set (Q := fun (r : Z * hash_ptr) (s' : tcp_server_info) =>
              dialect s' = dialect srv
              /\ local_nls s' = local_nls srv
              /\ (wf_server srv ->
                  wf_server s' /\ forall a, allocated a srv -> allocated a s')
              /\ match pi_hash with
                 | Caller_object obj =>
                     srv_Preauth_HashValue s' = srv_Preauth_HashValue srv
                     /\ exists out,
                          snd r = Caller_object out /\ len out = len obj
                 | Conn_Preauth_HashValue =>
                     snd r = Conn_Preauth_HashValue
                     /\ len (srv_Preauth_HashValue s')
                        = len (srv_Preauth_HashValue srv)
                 end
              /\ (hash_id <> SMB2_PREAUTH_INTEGRITY_SHA512 ->
                  fst r = - 1 /\ snd r = pi_hash /\ s' = srv)).
  apply (wp_elim (calc_preauth_integrity_hash_ptr kern hash_id buf pi_hash)
           Q srv (rc, pi_hash') srv').
  assert (Same : forall (r : Z) (s1 : tcp_server_info),
             srv_step srv s1 ->
             (hash_id <> SMB2_PREAUTH_INTEGRITY_SHA512 ->
              r = - 1 /\ s1 = srv) ->
             Q (r, pi_hash) s1).
  { intros r s1 (D & H & N & W) Id. unfold Q. cbn [fst snd].
    split; [exact D|]. split; [exact N|]. split; [exact W|]. split.
    - destruct pi_hash as [obj|].
      + split; [exact H|]. exists obj. split; reflexivity.
      + split; [reflexivity | now rewrite H].
    - intros NE. destruct (Id NE) as [-> ->]. auto. }
  unfold calc_preauth_integrity_hash_ptr. cbv zeta.
  apply wp_lift. intros msg _.
  destruct (hash_id =? SMB2_PREAUTH_INTEGRITY_SHA512) eqn:Hid.
  2: { apply wp_ret. apply Same; [apply srv_step_refl | auto]. }
  apply Z.eqb_eq in Hid.
  assert (Done : forall (r : Z) (s1 : tcp_server_info),
             srv_step srv s1 -> wp (ret (r, pi_hash)) Q s1).
  { intros r s1 T. apply wp_ret. apply Same; [exact T | contradiction]. }
  apply (wp_call _ _ srv_step); [apply srv_quiet_sha512|].
  intros rc1 s1 T1. destruct (rc1 =? 0); [|now apply Done].
  apply (wp_call _ _ srv_step); [apply srv_quiet_init|].
  intros rc2 s2 T2. pose proof (srv_step_trans _ _ _ T1 T2) as T12.
  destruct (rc2 =? 0); [|now apply Done].
  unfold wp, bind, get.
  destruct (crypto_shash_update kern SHA512 _ 64 s2)
    as [[rc3 s3]|] eqn:E3; [|exact I].
  apply srv_quiet_update in E3.
  pose proof (srv_step_trans _ _ _ T12 E3) as T13.
  destruct (rc3 =? 0); [|now apply Done].
  destruct (crypto_shash_update kern SHA512 _ _ s3)
    as [[rc4 s4]|] eqn:E4; [|exact I].
  apply srv_quiet_update in E4.
  pose proof (srv_step_trans _ _ _ T13 E4) as T14.
  destruct (rc4 =? 0); [|now apply Done].
  unfold crypto_shash_final_to, bind, get, put, ret.
  destruct pi_hash as [obj|].
  - destruct (crypto_shash_final kern SHA512 obj s4)
      as [[[rc5 o5] s5]|] eqn:E5; [|exact I].
    pose proof (final_len _ _ _ _ _ _ _ E5) as L5.
    apply srv_quiet_final in E5.
    destruct (srv_step_trans _ _ _ T14 E5) as (D & H & N & W).
    unfold Q. cbn [fst snd].
    split; [exact D|]. split; [exact N|]. split; [exact W|]. split.
    + split; [exact H|]. exists o5. split; [reflexivity | exact L5].
    + contradiction.
  - destruct (crypto_shash_final kern SHA512 (srv_Preauth_HashValue s4) s4)
      as [[[rc5 o5] s5]|] eqn:E5; [|exact I].
    pose proof (final_len _ _ _ _ _ _ _ E5) as L5.
    apply srv_quiet_final in E5.
    destruct (srv_step_trans _ _ _ T14 E5) as (D & H & N & W).
    destruct T14 as (_ & H4 & _).
    unfold Q. cbn [fst snd].
    split; [exact D|]. split; [exact N|]. split.
    + intros WF. destruct (W WF) as [W5 A5]. split.
      * apply wf_with_hash, W5.
      * intros a Al. apply allocated_with_hash, A5, Al.
    + split; [|contradiction].
      split; [reflexivity|]. cbn [with_srv_Preauth_HashValue
                                    srv_Preauth_HashValue].
      rewrite L5. now rewrite H4.
Qed.

Lemma preauth_hash_writes_through_pi_hash_witness :
  exists rc srv',
    calc_preauth_integrity_hash_ptr ref_kernel SMB2_PREAUTH_INTEGRITY_SHA512
      [0; 0; 0; 4; 0xFE; 83; 77; 66] Conn_Preauth_HashValue srv0
    = Ret ((rc, Conn_Preauth_HashValue), srv')
    /\ dialect srv' = dialect srv0
    /\ local_nls srv' = local_nls srv0
    /\ len (srv_Preauth_HashValue srv') = len (srv_Preauth_HashValue srv0)
    /\ srv_Preauth_HashValue srv' <> srv_Preauth_HashValue srv0.
Proof.
  destruct (calc_preauth_integrity_hash_ptr ref_kernel
              SMB2_PREAUTH_INTEGRITY_SHA512 [0; 0; 0; 4; 0xFE; 83; 77; 66]
              Conn_Preauth_HashValue srv0) as [[[rc p'] srv']|] eqn:R;
    [|vm_compute in R; discriminate].
  destruct (preauth_hash_writes_through_pi_hash _ _ _ _ _ _ _ _ R)
    as (D & N & _ & [-> L] & _).
  exists rc, srv'. split; [reflexivity|].
  split; [exact D|]. split; [exact N|]. split; [exact L|].
  vm_compute in R. injection R as _ <-. vm_compute. discriminate.
Defined.

(** X26: the hash is the same whichever object [pi_hash] points to, and it
    fills the first 64 bytes of that object.  With [pi_hash] pointing to
    the running hash of the connection the call is the update in place:
    the new running hash is the SHA-512 of the old one followed by the
    message.  With [pi_hash] pointing elsewhere the running hash stays. *)
Theorem preauth_hash_update_in_place (kern : kernel) (srv : tcp_server_info)
    (buf : bytes) (pi_hash : hash_ptr) (n : Z) :
  wf_server srv ->
  64 <= len (srv_Preauth_HashValue srv) ->
  match pi_hash with
  | Caller_object obj => 64 <= len obj
  | Conn_Preauth_HashValue => True
  end ->
  4 <= len buf ->
  be_val (firstn 4 buf) = n -> 0 <= n < 2 ^ 32 ->
  4 + n <= len buf ->
  let hash := fit 64 (shash_mac kern SHA512 []
                        (firstn 64 (srv_Preauth_HashValue srv)
                         ++ firstn (Z.to_nat n) (skipn 4 buf))) in
  exists rc pi_hash' srv',
    calc_preauth_integrity_hash_ptr kern SMB2_PREAUTH_INTEGRITY_SHA512 buf
      pi_hash srv = Ret ((rc, pi_hash'), srv')
    /\ (rc = 0 ->
        match pi_hash with
        | Caller_object obj =>
            pi_hash' = Caller_object (hash ++ skipn 64 obj)
            /\ srv_Preauth_HashValue srv' = srv_Preauth_HashValue srv
        | Conn_Preauth_HashValue =>
            pi_hash' = Conn_Preauth_HashValue
            /\ srv_Preauth_HashValue srv'
               = hash ++ skipn 64 (srv_Preauth_HashValue srv)
        end)
    /\ (always_succeeds kern -> rc = 0).
Proof.
  intros WF Hh Ho Hb Hn Hr Hm hash.
  unfold calc_preauth_integrity_hash_ptr.
  rewrite bind_run, lift_run, read_be32_head by lia. rewrite Hn.
  cbv beta iota. rewrite Z.eqb_refl.
  rewrite to_u32_to_int by lia.
  assert (FAIL : forall (rc : Z) (srv' : tcp_server_info),
             (rc =? 0) = false -> (always_succeeds kern -> rc = 0) ->
             exists rc0 p0 srv0,
               Ret (rc, pi_hash, srv') = Ret (rc0, p0, srv0)
               /\ (rc0 = 0 ->
                   match pi_hash with
                   | Caller_object obj =>
                       p0 = Caller_object (hash ++ skipn 64 obj)
                       /\ srv_Preauth_HashValue srv0
                          = srv_Preauth_HashValue srv
                   | Conn_Preauth_HashValue =>
                       p0 = Conn_Preauth_HashValue
                       /\ srv_Preauth_HashValue srv0
                          = hash ++ skipn 64 (srv_Preauth_HashValue srv)
                   end)
               /\ (always_succeeds kern -> rc0 = 0)).
  { intros rc srv' R A. exists rc, pi_hash, srv'.
    apply Z.eqb_neq in R. split; [reflexivity|]. split; [lia | exact A]. }
  destruct (crypto_sha512_alloc_post kern srv WF) as (rc1 & s1 & E1 & P1).
  rewrite bind_run, E1. cbv beta iota.
  destruct (rc1 =? 0) eqn:R1.
  2: { apply FAIL; [assumption | apply P1]. }
  destruct P1 as (WF1 & _ & PH & _ & _ & OK1 & _).
  apply Z.eqb_eq in R1.
  destruct (OK1 R1) as (k1 & d1 & T1 & S1). cbn in T1, S1.
  change (ptr_add buf Layout.Hdr_ProtocolId) with (skipn 4 buf).
  assert (Ls : len (skipn 4 buf) = len buf - 4)
    by (apply (len_skipn 4); lia).
  rewrite <- PH in Hh.
  unfold crypto_shash_final_to.
  destruct pi_hash as [obj|].
  - exec; try (apply FAIL; [failed | ok_tac]).
    rewrite store_0 by (rewrite len_digest; simpl; lia).
    simp. autorewrite with run.
    do 3 eexists. split; [reflexivity|]. split; [|reflexivity].
    intros _. rewrite length_digest, PH. split; reflexivity.
  - exec; try (apply FAIL; [failed | ok_tac]).
    rewrite store_0 by (rewrite len_digest; simpl; lia).
    simp. autorewrite with run.
    do 3 eexists. split; [reflexivity|]. split; [|reflexivity].
    intros _. rewrite length_digest, PH. split; reflexivity.
Qed.

Lemma preauth_hash_update_in_place_witness :
  exists rc pi_hash' srv',
    calc_preauth_integrity_hash_ptr ref_kernel SMB2_PREAUTH_INTEGRITY_SHA512
      [0; 0; 0; 4; 0xFE; 83; 77; 66; 9; 9] Conn_Preauth_HashValue srv0
    = Ret ((rc, pi_hash'), srv')
    /\ (rc = 0 ->
        pi_hash' = Conn_Preauth_HashValue
        /\ srv_Preauth_HashValue srv'
           = fit 64 (sum_mac [] (repeat 0 64 ++ [0xFE; 83; 77; 66]))
             ++ skipn 64 (srv_Preauth_HashValue srv0))
    /\ (always_succeeds ref_kernel -> rc = 0).
Proof.
  apply (preauth_hash_update_in_place ref_kernel srv0
           [0; 0; 0; 4; 0xFE; 83; 77; 66; 9; 9] Conn_Preauth_HashValue 4).
  - exact wf_srv0.
  - vm_compute. discriminate.
  - exact I.
  - vm_compute. discriminate.
  - reflexivity.
  - lia.
  - vm_compute. discriminate.
Defined.

(** Two messages in wire order: the second update starts from the hash the
    first one left in the connection. *)
Example preauth_two_messages :
  exists srv1 srv2,
    calc_preauth_integrity_hash_ptr ref_kernel SMB2_PREAUTH_INTEGRITY_SHA512
      [0; 0; 0; 4; 0xFE; 83; 77; 66] Conn_Preauth_HashValue srv0
    = Ret ((0, Conn_Preauth_HashValue), srv1)
    /\ calc_preauth_integrity_hash_ptr ref_kernel
         SMB2_PREAUTH_INTEGRITY_SHA512 [0; 0; 0; 2; 7; 8]
         Conn_Preauth_HashValue srv1
       = Ret ((0, Conn_Preauth_HashValue), srv2)
    /\ srv_Preauth_HashValue srv2
       = fit 64 (sum_mac []
                   (fit 64 (sum_mac [] (repeat 0 64 ++ [0xFE; 83; 77; 66]))
                    ++ [7; 8])).
Proof.
  do 2 eexists. split; [vm_compute; reflexivity|].
  split; vm_compute; reflexivity.
Qed.

(** For a hash id the function does not know, whatever the message. *)
Example preauth_unknown_hash_id :
  calc_preauth_integrity_hash ref_kernel 2 [0; 0; 0; 4; 0xFE; 83; 77; 66]
    (repeat 5 64) srv0
  = Ret ((- 1, repeat 5 64), srv0).
Proof. reflexivity. Qed.

(** ** Signing after an NTLMv2 logon *)

(** X23: The signature of an SMB2 packet after an NTLMv2 logon: the HMAC-
    SHA256 of the packet under the session key the logon derived. *)
Theorem smb2_sign_after_ntlmv2 (kern : kernel) (netbios_name : bytes)
    (sess sess' : cifssrv_sess) (ntlmv2 : bytes) (blen : Z)
    (dname : char_ptr) (d buf sig : bytes) (sz : Z) :
  wf_server (server sess) ->
  16 <= len (passkey (usr sess)) ->
  8 <= len (cryptkey (ntlmssp sess)) ->
  16 <= len (sess_key sess) ->
  c_string netbios_name dname = Ret d ->
  len (strtoUTF16 kern (local_nls (server sess)) (name (usr sess)))
    <= len (name (usr sess)) ->
  len (strtoUTF16 kern (local_nls (server sess)) d) <= len d ->
  len (name (usr sess)) < 2 ^ 31 -> len d < 2 ^ 31 ->
  0 <= blen < 2 ^ 31 - 8 ->
  16 + blen <= len ntlmv2 ->
  process_ntlmv2 kern netbios_name ntlmv2 blen dname sess = Ret (0, sess') ->
  0 <= sz <= len buf -> sz < 2 ^ 31 ->
  32 <= len sig ->
  exists rc sig' sess'',
    smb2_sign_smbpdu kern buf sz sig sess' = Ret ((rc, sig'), sess'')
    /\ (rc = 0 ->
        sig' = fit 32 (shash_mac kern HMAC_SHA256
                         (ntlmv2_sess_key kern sess d
                            (firstn (Z.to_nat blen) (skipn 16 ntlmv2)))
                         (firstn (Z.to_nat sz) buf))
               ++ skipn 32 sig)
    /\ (always_succeeds kern -> rc = 0).
Proof.
  intros WF Hp Hc Hk Hd Bn Bd Ln Ld Hb Hn E Hz Hz31 Hg.
  destruct (process_ntlmv2_run kern netbios_name sess ntlmv2 blen dname d
              WF Hp Hc Hk Hd Bn Bd Ln Ld Hb Hn)
    as (rc0 & s0 & E0 & V & _).
  rewrite E in E0. injection E0 as <- <-.
  destruct (V eq_refl) as [_ K].
  destruct (process_ntlmv2_step _ _ _ _ _ _ _ _ E)
    as (_ & _ & (_ & _ & _ & W)).
  destruct (W WF) as [WF' _].
  assert (L : length (ntlmv2_sess_key kern sess d
                        (firstn (Z.to_nat blen) (skipn 16 ntlmv2)))
              = 16%nat) by apply length_digest.
  destruct (smb2_sign_run kern sess' buf sz sig WF')
    as (rc & sig' & s2 & R & S & OK); try assumption.
  { rewrite K, len_app. unfold len. rewrite L. lia. }
  exists rc, sig', s2. split; [exact R|]. split; [|exact OK].
  intros Z. rewrite (S Z), K. rewrite firstn_prefix by exact L.
  reflexivity.
Qed.

Lemma smb2_sign_after_ntlmv2_witness :
  exists sess',
    process_ntlmv2 ref_kernel (chars "FSRV") good_ntlmv2 8 NetbiosName sess0
    = Ret (0, sess')
    /\ exists rc sig' sess'',
         smb2_sign_smbpdu ref_kernel (chars "packet") 6 (repeat 0 32) sess'
         = Ret ((rc, sig'), sess'')
         /\ (rc = 0 ->
             sig' = fit 32 (sum_mac
                              (ntlmv2_sess_key ref_kernel sess0
                                 (chars "FSRV")
                                 (firstn 8 (skipn 16 good_ntlmv2)))
                              (chars "packet"))
                    ++ [])
         /\ (always_succeeds ref_kernel -> rc = 0).
Proof.
  eexists. split; [vm_compute; reflexivity|].
  apply (smb2_sign_after_ntlmv2 ref_kernel (chars "FSRV") sess0 _
           good_ntlmv2 8 NetbiosName (chars "FSRV") (chars "packet")
           (repeat 0 32) 6);
    first [ exact wf_srv0
          | vm_compute; discriminate
          | vm_compute; reflexivity
          | vm_compute; split; discriminate
          | vm_compute; split; [discriminate | reflexivity] ].
Defined.


(** ** The session key of an NTLMv2 logon *)

(** X24: compute_sess_key: the session key is the HMAC-MD5, keyed by the 16
    bytes of [hash], of the 16 bytes of [hmac]; it replaces the first 16 bytes
    of sess_key and leaves the rest of the key, the sequence number and the
    rest of the session as they were. *)
Theorem sess_key_is_hmac_md5 (kern : kernel) (sess : cifssrv_sess)
    (hash hmac : bytes) :
  wf_server (server sess) ->
  16 <= len hash -> 16 <= len hmac ->
  16 <= len (sess_key sess) ->
  exists rc sess',
    compute_sess_key kern hash hmac sess = Ret (rc, sess')
    /\ (rc = 0 ->
        sess_key sess'
        = fit 16 (shash_mac kern HMAC_MD5 (firstn 16 hash) (firstn 16 hmac))
            ++ skipn 16 (sess_key sess))
    /\ (always_succeeds kern -> rc = 0)
    /\ sequence_number sess' = sequence_number sess
    /\ ntlmssp sess' = ntlmssp sess
    /\ conn_step sess sess'.
Proof.
  intros WF Hh Hm Hk.
  destruct (compute_sess_key_run kern sess hash hmac WF Hh Hm Hk)
    as (rc & sess' & E & V & OK).
  exists rc, sess'. split; [exact E|]. split; [exact V|].
  split; [exact OK|].
  pose proof (wp_elim _ _ _ _ _ (compute_sess_key_post kern hash hmac sess)
                E) as [N _].
  split; [exact N|]. split; [|eapply compute_sess_key_step, E].
  revert E. unfold compute_sess_key.
  apply (wp_elim _ (fun _ s' => ntlmssp s' = ntlmssp sess)).
  apply (wp_try _ _ (fun rc => rc)).
  { intros rc1 s1 E1 _. unfold on_server in E1.
    destruct (crypto_hmacmd5_alloc kern (server sess)) as [[? ?]|];
      [|discriminate].
    injection E1 as _ <-. reflexivity. }
  intros s1 E1.
  assert (N1 : ntlmssp s1 = ntlmssp sess).
  { unfold on_server in E1.
    destruct (crypto_hmacmd5_alloc kern (server sess)) as [[? ?]|];
      [|discriminate].
    injection E1 as _ <-. reflexivity. }
  clear E1.
  repeat match goal with
    | |- wp (bind (on_server ?m) (fun rc => if rc =? 0 then _ else ret rc))
           _ ?s =>
        apply (wp_try _ _ (fun rc => rc));
        [ let E := fresh "E" in
          intros ? ? E _; unfold on_server in E;
          destruct (m (server s)) as [[? ?]|]; [|discriminate];
          injection E as _ <-; exact N1
        | let E := fresh "E" in
          let s' := fresh "s" in
          let N' := fresh "N" in
          intros s' E;
          assert (N' : ntlmssp s' = ntlmssp sess)
            by (unfold on_server in E;
                destruct (m (server s)) as [[? ?]|]; [|discriminate];
                injection E as _ <-; exact N1);
          clear E N1; rename N' into N1 ]
    end.
  apply wp_get. unfold wp, bind, on_server, get, put, ret.
  destruct (crypto_shash_final kern HMAC_MD5 _ _) as [[[rc5 k5] s5]|];
    [|exact I].
  cbn. exact N1.
Qed.

Lemma sess_key_is_hmac_md5_witness :
  exists rc sess',
    compute_sess_key ref_kernel (repeat 1 16) (repeat 2 16) sess0
    = Ret (rc, sess')
    /\ (rc = 0 ->
        sess_key sess'
        = fit 16 (sum_mac (repeat 1 16) (repeat 2 16)) ++ repeat 0 24)
    /\ (always_succeeds ref_kernel -> rc = 0)
    /\ sequence_number sess' = sequence_number sess0
    /\ ntlmssp sess' = ntlmssp sess0
    /\ conn_step sess0 sess'.
Proof.
  apply (sess_key_is_hmac_md5 ref_kernel sess0 (repeat 1 16) (repeat 2 16));
    first [ exact wf_srv0 | vm_compute; discriminate ].
Defined.

(** * What a failed verification leaves in the session *)

(** C1, as amended: a verification that fails because E_P24 reports an
    error leaves the session as it was; but both verifiers store the
    session key before they compare.  When the NTLMv1 response does not
    match, the session already holds the new 40-byte key and the sequence
    number 1.  process_ntlmv2 never changes the sequence number, nor the
    session key past its first 16 bytes.  On arguments in bounds, either a
    step of process_ntlmv2 up to and including compute_sess_key has failed,
    the status is not 0 and the session key is as it was, or the first 16
    bytes of the session key are the HMAC-MD5 of the computed response
    under the NTLMv2 hash and the status is the result of comparing the
    client's 16 bytes with the computed response, which is the HMAC-MD5,
    under the NTLMv2 hash, of the challenge followed by the client blob.
    So a failure on a response that matches leaves the key alone, and when
    no step fails a response that does not match is refused with the new
    key already in the session. *)
Theorem failed_verification_state (kern : kernel) (netbios_name : bytes)
    (sess : cifssrv_sess) :
  16 <= len (passkey (usr sess)) ->
  8 <= len (cryptkey (ntlmssp sess)) ->
  40 <= len (sess_key sess) ->
  (forall pw_buf rc sess',
      process_ntlm kern pw_buf sess = Ret (rc, sess') -> rc <> 0 ->
      (ntlm_status kern sess <> 0
       /\ rc = ntlm_status kern sess /\ sess' = sess)
      \/ (ntlm_status kern sess = 0
          /\ rc = - EINVAL /\ sess' = ntlm_committed kern sess))
  /\ (forall ntlmv2 blen domain_name rc sess',
         process_ntlmv2 kern netbios_name ntlmv2 blen domain_name sess
         = Ret (rc, sess') ->
         sequence_number sess' = sequence_number sess
         /\ skipn 16 (sess_key sess') = skipn 16 (sess_key sess))
  /\ (forall ntlmv2 blen domain_name d rc sess',
         wf_server (server sess) ->
         c_string netbios_name domain_name = Ret d ->
         len (strtoUTF16 kern (local_nls (server sess)) (name (usr sess)))
           <= len (name (usr sess)) ->
         len (strtoUTF16 kern (local_nls (server sess)) d) <= len d ->
         len (name (usr sess)) < 2 ^ 31 -> len d < 2 ^ 31 ->
         0 <= blen < 2 ^ 31 - 8 ->
         16 + blen <= len ntlmv2 ->
         process_ntlmv2 kern netbios_name ntlmv2 blen domain_name sess
         = Ret (rc, sess') ->
         let blob := firstn (Z.to_nat blen) (skipn 16 ntlmv2) in
         let rsp := ntlmv2_response kern sess d blob in
         let key := ntlmv2_sess_key kern sess d blob
                    ++ skipn 16 (sess_key sess) in
         ((rc <> 0 /\ sess_key sess' = sess_key sess
           /\ ~ always_succeeds kern)
          \/ (sess_key sess' = key
              /\ rc = bytes_diff (firstn 16 ntlmv2) rsp))
         /\ (rc <> 0 -> firstn 16 ntlmv2 = rsp ->
             sess_key sess' = sess_key sess)
         /\ (always_succeeds kern -> firstn 16 ntlmv2 <> rsp ->
             rc <> 0 /\ sess_key sess' = key)).
Proof.
  intros Hp Hc Hk. split; [|split].
  - intros pw_buf rc sess' R NZ.
    rewrite process_ntlm_run in R by assumption.
    destruct (ntlm_status kern sess =? 0) eqn:St.
    + apply Z.eqb_eq in St. right.
      destruct (strncmp pw_buf (ntlm_response kern sess) 24) as [cmp|];
        [|discriminate].
      destruct (cmp =? 0); injection R as <- <-; [congruence | auto].
    + apply Z.eqb_neq in St. injection R as <- <-. left. auto.
  - intros ntlmv2 blen domain_name rc sess' R.
    destruct (wp_elim _ _ _ _ _
                (process_ntlmv2_post kern netbios_name ntlmv2 blen
                   domain_name sess) R) as [N [K | (hash & rsp & K & _)]].
    + split; [exact N | now rewrite K].
    + split; [exact N|]. rewrite K.
      apply skipn_prefix, length_digest.
  - intros ntlmv2 blen domain_name d rc sess' WF Hd Bn Bd Ln Ld Hb Hn R
      blob rsp key.
    destruct (process_ntlmv2_cases kern netbios_name sess ntlmv2 blen
                domain_name d) as (rc0 & sess0 & E & C);
      try assumption; [lia|].
    rewrite E in R. injection R as -> ->.
    fold blob in C. fold rsp in C. fold key in C.
    assert (L : length (firstn 16 ntlmv2) = length rsp).
    { rewrite length_firstn. unfold rsp, ntlmv2_response.
      rewrite length_digest. unfold len in Hn.
      change (digestsize HMAC_MD5) with 16%nat. lia. }
    split; [exact C|]. split.
    + intros NZ M. destruct C as [(_ & K & _) | [_ D]]; [exact K|].
      rewrite M, bytes_diff_refl in D. contradiction.
    + intros OK M. destruct C as [(_ & _ & N) | [K D]]; [contradiction|].
      split; [|exact K].
      intros Z. apply M, bytes_diff_eq; [exact L | congruence].
Qed.

Lemma failed_verification_state_witness :
  process_ntlm ref_kernel (repeat 0xff 24) sess0
  = Ret (- EINVAL, ntlm_committed ref_kernel sess0)
  /\ exists rc sess',
       process_ntlmv2 ref_kernel (chars "FSRV") wrong_ntlmv2 8 NetbiosName
         sess0 = Ret (rc, sess')
       /\ sequence_number sess' = 0
       /\ rc <> 0
       /\ sess_key sess'
          = ntlmv2_sess_key ref_kernel sess0 (chars "FSRV")
              (firstn 8 (skipn 16 wrong_ntlmv2))
              ++ skipn 16 (sess_key sess0).
Proof.
  destruct (failed_verification_state ref_kernel (chars "FSRV") sess0)
    as (V1 & V2 & V3); try (vm_compute; discriminate).
  split.
  - assert (R : process_ntlm ref_kernel (repeat 0xff 24) sess0
                = Ret (- EINVAL, ntlm_committed ref_kernel sess0))
      by (vm_compute; reflexivity).
    destruct (V1 _ _ _ R ltac:(discriminate)) as [[N _] | (_ & _ & _)];
      [exfalso; apply N; reflexivity | exact R].
  - destruct (process_ntlmv2 ref_kernel (chars "FSRV") wrong_ntlmv2 8
                NetbiosName sess0) as [[rc sess']|] eqn:R;
      [|vm_compute in R; discriminate].
    exists rc, sess'. split; [reflexivity|].
    split; [exact (proj1 (V2 _ _ _ _ _ R))|].
    assert (WF : wf_server (server sess0)) by exact wf_srv0.
    assert (Hd : c_string (chars "FSRV") NetbiosName = Ret (chars "FSRV"))
      by reflexivity.
    assert (Bn : len (strtoUTF16 ref_kernel (local_nls (server sess0))
                        (name (usr sess0)))
                 <= len (name (usr sess0)))
      by (vm_compute; discriminate).
    assert (Bd : len (strtoUTF16 ref_kernel (local_nls (server sess0))
                        (chars "FSRV"))
                 <= len (chars "FSRV"))
      by (vm_compute; discriminate).
    assert (Ln : len (name (usr sess0)) < 2 ^ 31) by reflexivity.
    assert (Ld : len (chars "FSRV") < 2 ^ 31) by reflexivity.
    assert (Hb : 0 <= 8 < 2 ^ 31 - 8) by lia.
    assert (Hn : 16 + 8 <= len wrong_ntlmv2) by (vm_compute; discriminate).
    destruct (V3 _ _ _ _ _ _ WF Hd Bn Bd Ln Ld Hb Hn R) as (_ & _ & C).
    apply C; [exact ref_kernel_succeeds | vm_compute; discriminate].
Defined.

(** C1 as it is written does not hold: after a response that does not
    match, the session holds a new key, and after NTLMv1 the sequence
    number 1 as well. *)
Lemma failed_verification_commits :
  (exists sess',
      process_ntlm ref_kernel (repeat 0xff 24) sess0 = Ret (- EINVAL, sess')
      /\ sess_key sess' <> sess_key sess0
      /\ sequence_number sess0 = 0 /\ sequence_number sess' = 1)
  /\ (exists rc sess',
         process_ntlmv2 ref_kernel (chars "FSRV") wrong_ntlmv2 8 NetbiosName
           sess0 = Ret (rc, sess')
         /\ rc <> 0 /\ sess_key sess' <> sess_key sess0)
  /\ ~ commits_nothing_on_failure ref_kernel (chars "FSRV").
Proof.
  assert (R1 : process_ntlm ref_kernel (repeat 0xff 24) sess0
               = Ret (- EINVAL, ntlm_committed ref_kernel sess0))
    by (vm_compute; reflexivity).
  split; [|split].
  - exists (ntlm_committed ref_kernel sess0).
    split; [exact R1|]. split; [vm_compute; discriminate|].
    split; reflexivity.
  - do 2 eexists. split; [vm_compute; reflexivity|].
    split; vm_compute; discriminate.
  - intros [C _].
    destruct (C sess0 (repeat 0xff 24) (- EINVAL)
                (ntlm_committed ref_kernel sess0) R1 ltac:(discriminate))
      as [_ N].
    discriminate N.
Qed.
